(** * F1 strategy analytics: qualifying/race reconciliation and derived metrics

    A shallow embedding of the data-wrangling core of the repository
    (src/data_collection.py, src/day3_advanced_analysis.py,
    src/fastf1_collector.py, src/f1_dashboard.py) together with the
    properties of its natural-language specification.

    Representation choices, used throughout:
    - a nullable cell (NaN, NaT, None) is [option]; [None] is the null;
    - finishing and grid positions are integer ranks, so a position column
      is a list of [option Z] (pandas stores them as float64 only to have
      NaN available; differences of ranks are exact there);
    - lap times and points are rationals ([Q]); means are rationals, computed
      exactly; Pearson's r and the standard deviation need a square root
      and live in [R];
    - a Python exception is an explicit [Raised] outcome. *)

From Stdlib Require Import String Ascii List Bool Arith ZArith QArith Lia.
From Stdlib Require Import Permutation Sorted DecimalString.
From Stdlib Require Import Reals Lra.
Import ListNotations.

Local Open Scope string_scope.
Local Open Scope list_scope.
Local Open Scope nat_scope.

(* ================================================================== *)
(** ** Python outcomes: a value is returned or an exception is raised *)
(* ================================================================== *)

Module Py.

(** The two classes of exception the [except] clauses of the scripts tell
    apart: [except Exception] catches every subclass of [Exception] and
    lets the rest of [BaseException] (KeyboardInterrupt, SystemExit)
    through; a bare [except:] catches both. *)
Inductive raised : Type :=
| Exception (msg : string)
| KeyboardInterrupt.

Inductive Exc (A : Type) : Type :=
| Returned (a : A)
| Raised (e : raised).

Arguments Returned {A} a.
Arguments Raised {A} e.

Definition bind {A B : Type} (m : Exc A) (k : A -> Exc B) : Exc B :=
  match m with
  | Returned a => k a
  | Raised e => Raised e
  end.

(** [try: body  except Exception as e: handler e] *)
Definition try_except_Exception {A : Type}
    (body : Exc A) (handler : string -> Exc A) : Exc A :=
  match body with
  | Raised (Exception msg) => handler msg
  | other => other
  end.

(** [try: body  except: handler] *)
Definition try_except {A : Type} (body : Exc A) (handler : Exc A) : Exc A :=
  match body with
  | Raised _ => handler
  | other => other
  end.

Definition raises {A : Type} (m : Exc A) : bool :=
  match m with Raised _ => true | Returned _ => false end.

End Py.

Notation "x <- m ;; k" := (Py.bind m (fun x => k))
  (at level 61, m at next level, right associativity).

(* ================================================================== *)
(** ** The dataframe operations the scripts call *)
(* ================================================================== *)

Module Pandas.

(** A column: one nullable cell per row. *)
Definition Series (A : Type) : Type := list (option A).

Definition notna {A : Type} (c : option A) : bool :=
  match c with Some _ => true | None => false end.

(** [s.fillna(other)] for two columns of one frame: a null cell of [s]
    takes the cell of [other] in the same row. *)
Definition fillna_cell {A : Type} (c other : option A) : option A :=
  match c with
  | Some v => Some v
  | None => other
  end.

Definition fillna {A : Type} (s other : Series A) : Series A :=
  map (fun p => fillna_cell (fst p) (snd p)) (combine s other).

(** Element-wise [a - b] on two nullable integer columns: null as soon as
    one side is null. *)
Definition sub_cell (a b : option Z) : option Z :=
  match a, b with
  | Some x, Some y => Some (x - y)%Z
  | _, _ => None
  end.

(** Join keys in lexicographic order. *)
Fixpoint insert_key (k : string) (l : list string) : list string :=
  match l with
  | [] => [k]
  | h :: t => if String.leb k h then k :: h :: t else h :: insert_key k t
  end.

Definition sort_keys (l : list string) : list string :=
  fold_right insert_key [] l.

Definition unique_keys (l : list string) : list string :=
  sort_keys (nodup string_dec l).

Section Merge.
Context {A B : Type}.
Variable key_left : A -> string.
Variable key_right : B -> string.

Definition rows_with {X : Type} (key : X -> string) (k : string)
    (l : list X) : list X :=
  filter (fun x => String.eqb (key x) k) l.

(** The rows of the result that carry key [k]: the product of the two
    sides' rows with that key, or the rows of the only side that has it
    with the other side null. *)
Definition joined (k : string) (ls : list A) (rs : list B)
    : list (string * option A * option B) :=
  match ls, rs with
  | [], _ => map (fun b => (k, None, Some b)) rs
  | _, [] => map (fun a => (k, Some a, None)) ls
  | _, _ =>
      flat_map (fun a => map (fun b => (k, Some a, Some b)) rs) ls
  end.

(** [pd.merge(left, right, on=key, how='outer')]: the union of the keys
    of both frames, sorted lexicographically. *)
Definition merge_outer (left : list A) (right : list B)
    : list (string * option A * option B) :=
  flat_map
    (fun k => joined k (rows_with key_left k left)
                       (rows_with key_right k right))
    (unique_keys (map key_left left ++ map key_right right)).

(** [pd.merge(left, right, on=key, how='inner')]: the keys of both
    frames only, in the order of the left frame. *)
Definition merge_inner (left : list A) (right : list B)
    : list (string * A * B) :=
  flat_map
    (fun a => map (fun b => (key_left a, a, b))
                  (rows_with key_right (key_left a) right))
    left.
End Merge.

(** The non-null cells of a column, in order. *)
Definition dropna_cells {A : Type} (s : Series A) : list A :=
  flat_map (fun c => match c with Some v => [v] | None => [] end) s.

Definition Zsum (l : list Z) : Z := fold_right Z.add 0%Z l.

(** [s.mean()]: nulls are skipped; the mean of no value is NaN. *)
Definition mean_values (l : list Z) : option Q :=
  match l with
  | [] => None
  | _ :: _ => Some (Qred (Zsum l # Pos.of_nat (length l)))
  end.

Definition mean (s : Series Z) : option Q := mean_values (dropna_cells s).

(** [s.min()] and [s.max()], nulls skipped. *)
Definition min_values (l : list Z) : option Z :=
  match l with
  | [] => None
  | x :: t => Some (fold_right Z.min x t)
  end.

Definition max_values (l : list Z) : option Z :=
  match l with
  | [] => None
  | x :: t => Some (fold_right Z.max x t)
  end.

(** The rows of two columns in which both cells are non-null. *)
Definition complete_pairs (a b : Series Z) : list (Z * Z) :=
  flat_map
    (fun p => match p with
              | (Some x, Some y) => [(x, y)]
              | _ => []
              end)
    (combine a b).

(** Pearson's r of a list of pairs, from the sums
    n, Sx, Sy, Sxx, Syy, Sxy:
    (n Sxy - Sx Sy) / sqrt ((n Sxx - Sx^2) (n Syy - Sy^2)),
    NaN when a variance vanishes (constant or empty input). *)
Definition pearson (ps : list (Z * Z)) : option R :=
  let n := Z.of_nat (length ps) in
  let xs := map fst ps in
  let ys := map snd ps in
  let sx := Zsum xs in
  let sy := Zsum ys in
  let sxx := Zsum (map (fun x => x * x)%Z xs) in
  let syy := Zsum (map (fun y => y * y)%Z ys) in
  let sxy := Zsum (map (fun p => fst p * snd p)%Z ps) in
  let vx := (n * sxx - sx * sx)%Z in
  let vy := (n * syy - sy * sy)%Z in
  if (vx * vy =? 0)%Z then None
  else Some (IZR (n * sxy - sx * sy) / sqrt (IZR (vx * vy)))%R.

(** [a.corr(b)]: Pearson's r over the rows where both are non-null. *)
Definition corr (a b : Series Z) : option R := pearson (complete_pairs a b).

(** [s.std()]: sample standard deviation (ddof = 1), nulls skipped; NaN
    below two values. *)
Definition std_values (l : list Z) : option R :=
  let n := Z.of_nat (length l) in
  let sx := Zsum l in
  let sxx := Zsum (map (fun x => x * x)%Z l) in
  if (n <? 2)%Z then None
  else Some (sqrt (IZR (n * sxx - sx * sx) / IZR (n * (n - 1))))%R.

Definition std (s : Series Z) : option R := std_values (dropna_cells s).

(** [s.nunique()]: the number of distinct non-null values. *)
Definition nunique (s : Series string) : nat :=
  length (nodup string_dec (dropna_cells s)).

Section GroupBy.
Context {X : Type}.
Variable key : X -> option string.
Variable value : X -> option Z.

Definition in_group (k : string) (x : X) : bool :=
  match key x with
  | Some k' => String.eqb k' k
  | None => false
  end.

(** [df.groupby(key)[value].mean()]: one entry per distinct non-null
    key, in key order; rows with a null key belong to no group. *)
Definition groupby_mean (df : list X) : list (string * option Q) :=
  map (fun k => (k, mean (map value (filter (in_group k) df))))
      (unique_keys (dropna_cells (map key df))).
End GroupBy.

(** Order of [sort_values()]: ascending, NaN last. *)
Definition value_le (a b : option Q) : bool :=
  match a, b with
  | Some x, Some y => Qle_bool x y
  | Some _, None => true
  | None, Some _ => false
  | None, None => true
  end.

Fixpoint insert_value (e : string * option Q)
    (l : list (string * option Q)) : list (string * option Q) :=
  match l with
  | [] => [e]
  | h :: t =>
      if value_le (snd e) (snd h) then e :: h :: t
      else h :: insert_value e t
  end.

(** [s.sort_values()]; entries with equal values keep their order here
    (pandas leaves the order of ties to the sorting algorithm). *)
Definition sort_values (s : list (string * option Q))
    : list (string * option Q) :=
  fold_right insert_value [] s.

End Pandas.

(* ================================================================== *)
(** ** src/data_collection.py *)
(* ================================================================== *)

Module DataCollection.
Import Py Pandas.

(** Lap times, in seconds. *)
Definition Timedelta : Type := Q.

(** One row of [session.results], with the columns the scripts read.  The
    provider gives qualifying and race sessions the same columns. *)
Record ResultRow : Type := {
  Position : option Z;
  Abbreviation : string;
  TeamName : option string;
  Q1 : option Timedelta;
  Q2 : option Timedelta;
  Q3 : option Timedelta;
  Points : option Q;
  Status : option string
}.

Record RaceInfo : Type := {
  info_year : Z;
  info_race : string;
  info_event_name : string;
  info_date : Z
}.

(** The dictionary [collect_race_data] returns. *)
Record RaceData : Type := {
  race_results : list ResultRow;
  quali_results : list ResultRow;
  race_info : RaceInfo
}.

(** [quali_df]: the three selected columns and the derived [quali_time]. *)
Record QualiRow : Type := {
  q_Position : option Z;
  q_Abbreviation : string;
  q_TeamName : option string;
  q_quali_time : option Timedelta
}.

(** [race_df]: the four selected columns. *)
Record RaceRow : Type := {
  r_Position : option Z;
  r_Abbreviation : string;
  r_Points : option Q;
  r_Status : option string
}.

(** A row of the combined frame, under the names line 100 gives the
    columns, with the columns lines 103-108 add. *)
Record CombinedRow : Type := {
  quali_position : option Z;
  driver : string;
  team : option string;
  quali_time : option Timedelta;
  race_position : option Z;
  points : option Q;
  status : option string;
  position_change : option Z;
  year : Z;
  race : string;
  event_name : string
}.

(** [quali_results['Q3'].fillna(quali_results['Q2'].fillna(quali_results['Q1']))] *)
Definition quali_time_column (quali_results : list ResultRow)
    : Series Timedelta :=
  fillna (map Q3 quali_results)
         (fillna (map Q2 quali_results) (map Q1 quali_results)).

Definition make_quali_df (quali_results : list ResultRow) : list QualiRow :=
  map (fun p =>
         {| q_Position := Position (fst p);
            q_Abbreviation := Abbreviation (fst p);
            q_TeamName := TeamName (fst p);
            q_quali_time := snd p |})
      (combine quali_results (quali_time_column quali_results)).

Definition make_race_df (results : list ResultRow) : list RaceRow :=
  map (fun r =>
         {| r_Position := Position r;
            r_Abbreviation := Abbreviation r;
            r_Points := Points r;
            r_Status := Status r |})
      results.

(** One merged row, renamed, with [position_change] and the race
    information added. *)
Definition combined_row (info : RaceInfo)
    (m : string * option QualiRow * option RaceRow) : CombinedRow :=
  let '(k, q, r) := m in
  let qp := match q with Some x => q_Position x | None => None end in
  let rp := match r with Some x => r_Position x | None => None end in
  {| quali_position := qp;
     driver := k;
     team := match q with Some x => q_TeamName x | None => None end;
     quali_time := match q with Some x => q_quali_time x | None => None end;
     race_position := rp;
     points := match r with Some x => r_Points x | None => None end;
     status := match r with Some x => r_Status x | None => None end;
     position_change := sub_cell rp qp;
     year := info_year info;
     race := info_race info;
     event_name := info_event_name info |}.

Definition create_combined_dataframe (race_data : option RaceData)
    : option (list CombinedRow) :=
  match race_data with
  | None => None
  | Some rd =>
      let quali_df := make_quali_df (quali_results rd) in
      let race_df := make_race_df (race_results rd) in
      let combined :=
        merge_outer q_Abbreviation r_Abbreviation quali_df race_df in
      Some (map (combined_row (race_info rd)) combined)
  end.

(** [df.dropna(subset=['quali_position', 'race_position'])] *)
Definition dropna_positions (df : list CombinedRow) : list CombinedRow :=
  filter (fun r => notna (quali_position r) && notna (race_position r)) df.

Record Stats : Type := {
  correlation : option R;
  r_squared : option R;
  sample_size : nat;
  mean_position_change : option Q;
  std_position_change : option R
}.

(** The function returns the pair [(stats, clean_df)], or [(None, None)]
    when no row is left: [None] here. *)
Definition analyze_qualifying_performance (df : list CombinedRow)
    : option (Stats * list CombinedRow) :=
  let clean_df := dropna_positions df in
  match clean_df with
  | [] => None
  | _ :: _ =>
      let correlation :=
        corr (map quali_position clean_df) (map race_position clean_df) in
      Some ({| correlation := correlation;
               r_squared := option_map (fun c => c ^ 2)%R correlation;
               sample_size := length clean_df;
               mean_position_change := mean (map position_change clean_df);
               std_position_change := std (map position_change clean_df) |},
            clean_df)
  end.

(** A session handle of the provider: the event it belongs to, and what
    [session.load()] does (the results become readable, or it raises). *)
Record Session : Type := {
  EventName : string;
  session_date : Z;
  load : Exc (list ResultRow)
}.

Section Provider.
(** [fastf1.get_session(year, name, kind)] *)
Variable get_session : Z -> string -> string -> Exc Session.

Definition test_fastf1_connection : Exc bool :=
  try_except_Exception
    (race <- get_session 2024%Z "Bahrain" "R" ;;
     Returned true)
    (fun _ => Returned false).

(** The body of the [try] of [collect_race_data]. *)
Definition fetch_sessions (year : Z) (race_name : string)
    : Exc RaceData :=
  race <- get_session year race_name "R" ;;
  race_results <- load race ;;
  quali <- get_session year race_name "Q" ;;
  quali_results <- load quali ;;
  Returned
    {| race_results := race_results;
       quali_results := quali_results;
       race_info :=
         {| info_year := year;
            info_race := race_name;
            info_event_name := EventName race;
            info_date := session_date race |} |}.

Definition collect_race_data (year : Z) (race_name : string)
    : Exc (option RaceData) :=
  try_except_Exception
    (race_data <- fetch_sessions year race_name ;;
     Returned (Some race_data))
    (fun _ => Returned None).

(** The body of the [for race in races] loop of the main block, with
    the list [all_race_data] it appends to. *)
Fixpoint collect_loop (races : list string)
    (all_race_data : list (list CombinedRow))
    : Exc (list (list CombinedRow)) :=
  match races with
  | [] => Returned all_race_data
  | race :: rest =>
      race_data <- collect_race_data 2024%Z race ;;
      match race_data with
      | Some _ =>
          match create_combined_dataframe race_data with
          | Some combined_df =>
              collect_loop rest (all_race_data ++ [combined_df])
          | None => collect_loop rest all_race_data
          end
      | None => collect_loop rest all_race_data
      end
  end.

Definition races : list string :=
  ["Bahrain"; "Saudi Arabia"; "Australia"; "Japan"; "China"].

(** The main block up to [pd.concat]: the dataset that is saved, or
    [None] when nothing is. *)
Definition main_on (races : list string)
    : Exc (option (list CombinedRow)) :=
  ok <- test_fastf1_connection ;;
  if (ok : bool) then
    all_race_data <- collect_loop races [] ;;
    match all_race_data with
    | [] => Returned None
    | _ :: _ => Returned (Some (concat all_race_data))
    end
  else Returned None.

Definition main : Exc (option (list CombinedRow)) := main_on races.
End Provider.

End DataCollection.

(* ================================================================== *)
(** ** src/day3_advanced_analysis.py *)
(* ================================================================== *)

Module Day3.
Import Py Pandas DataCollection.

(** A row of the season dataset: a combined row and the weather label
    line 45 adds. *)
Record WeatherRow : Type := {
  base : CombinedRow;
  weather_condition : string
}.

Definition races_2024 : list (string * string) :=
  [("Bahrain", "Dry"); ("Saudi Arabia", "Dry"); ("Australia", "Dry");
   ("Japan", "Wet"); ("China", "Dry"); ("Miami", "Dry");
   ("Imola", "Mixed"); ("Monaco", "Dry"); ("Canada", "Dry");
   ("Spain", "Dry")].

Definition with_weather (weather : string) (df : list CombinedRow)
    : list WeatherRow :=
  map (fun r => {| base := r; weather_condition := weather |}) df.

Section Provider.
Variable get_session : Z -> string -> string -> Exc Session.

(** The [for race_name, weather in races_2024] loop, with the list
    [all_race_data] it appends to. *)
Fixpoint season_loop (races : list (string * string))
    (all_race_data : list (list WeatherRow))
    : Exc (list (list WeatherRow)) :=
  match races with
  | [] => Returned all_race_data
  | (race_name, weather) :: rest =>
      race_data <- collect_race_data get_session 2024%Z race_name ;;
      match race_data with
      | Some _ =>
          match create_combined_dataframe race_data with
          | Some df =>
              season_loop rest (all_race_data ++ [with_weather weather df])
          | None => season_loop rest all_race_data
          end
      | None => season_loop rest all_race_data
      end
  end.

Definition collect_season (races : list (string * string))
    : Exc (option (list WeatherRow)) :=
  all_race_data <- season_loop races [] ;;
  match all_race_data with
  | [] => Returned None
  | _ :: _ => Returned (Some (concat all_race_data))
  end.

Definition collect_full_season_data : Exc (option (list WeatherRow)) :=
  collect_season races_2024.
End Provider.

(** [df.groupby('team')['quali_position'].mean().sort_values()] *)
Definition team_performance (df : list WeatherRow)
    : list (string * option Q) :=
  sort_values
    (groupby_mean (fun r => team (base r))
                  (fun r => quali_position (base r)) df).

End Day3.

(* ================================================================== *)
(** ** src/fastf1_collector.py *)
(* ================================================================== *)

Module FastF1Collector.
Import Pandas DataCollection.

(** The time printed for a driver in [explore_race_session_data]:
    [Q3 if notna(Q3) else Q2 if notna(Q2) else Q1]. *)
Definition displayed_time (driver : ResultRow) : option Timedelta :=
  if notna (Q3 driver) then Q3 driver
  else if notna (Q2 driver) then Q2 driver
  else Q1 driver.

Record ComparisonRow : Type := {
  QualiPos : option Z;
  Driver : string;
  RacePos : option Z;
  PositionChange : option Z
}.

(** The [comparison] frame of [analyze_sample_data]: the inner merge on
    the driver and the [PositionChange] column of line 115. *)
Definition comparison (quali_results race_results : list ResultRow)
    : list ComparisonRow :=
  map (fun m =>
         let '(k, q, r) := m in
         {| QualiPos := Position q;
            Driver := k;
            RacePos := Position r;
            PositionChange := sub_cell (Position q) (Position r) |})
      (merge_inner Abbreviation Abbreviation quali_results race_results).

End FastF1Collector.

(* ================================================================== *)
(** ** The string methods the dashboard uses *)
(* ================================================================== *)

Module PyStr.
Import Py.

(** A text is held as the bytes of its UTF-8 encoding: an ASCII
    character is one byte below 128, any other character a lead byte and
    one to three continuation bytes, all of them at 128 or above. *)

Definition lower_ascii (c : ascii) : ascii :=
  let n := nat_of_ascii c in
  if (65 <=? n)%nat && (n <=? 90)%nat then ascii_of_nat (n + 32) else c.

(** [s.lower()], on the ASCII letters.  The two characters outside
    ASCII whose lower case holds an ASCII letter (U+0130 gives an i
    followed by a combining dot, U+212A a k) cannot make up one of the
    keywords searched for in a lowered column name. *)
Fixpoint lower (s : string) : string :=
  match s with
  | EmptyString => EmptyString
  | String c t => String (lower_ascii c) (lower t)
  end.

(** [sub in s] *)
Fixpoint contains (sub s : string) : bool :=
  if String.prefix sub s then true
  else match s with
       | EmptyString => false
       | String _ t => contains sub t
       end.

(** The ASCII whitespace of [str.split()]: 9 to 13 and 28 to 32. *)
Definition is_space (c : ascii) : bool :=
  let n := nat_of_ascii c in
  ((9 <=? n)%nat && (n <=? 13)%nat) || ((28 <=? n)%nat && (n <=? 32)%nat).

Definition byte_is (n : nat) (c : ascii) : bool :=
  (nat_of_ascii c =? n)%nat.

(** The whitespace of [str.split()] outside ASCII, by its UTF-8 bytes:
    U+0085 and U+00A0 take two bytes; U+1680, U+2000 to U+200A, U+2028,
    U+2029, U+202F, U+205F and U+3000 take three. *)
Definition blank2 (a b : ascii) : bool :=
  byte_is 194 a && (byte_is 133 b || byte_is 160 b).

Definition blank3 (a b c : ascii) : bool :=
  (byte_is 225 a && (byte_is 154 b && byte_is 128 c))
  || (byte_is 226 a
      && (byte_is 128 b
          && (((128 <=? nat_of_ascii c)%nat && (nat_of_ascii c <=? 138)%nat)
              || byte_is 168 c || byte_is 169 c || byte_is 175 c)))
  || (byte_is 226 a && (byte_is 129 b && byte_is 159 c))
  || (byte_is 227 a && (byte_is 128 b && byte_is 128 c)).

(** [s] with each whitespace character outside ASCII replaced by a
    space. *)
Fixpoint spaced (s : string) : string :=
  match s with
  | EmptyString => EmptyString
  | String a t =>
      match t with
      | String b t' =>
          if blank2 a b then String " " (spaced t')
          else
            match t' with
            | String c t'' =>
                if blank3 a b c then String " " (spaced t'')
                else String a (spaced t)
            | EmptyString => String a (spaced t)
            end
      | EmptyString => String a EmptyString
      end
  end.

(** The fields of [s] between separator characters, empty ones kept. *)
Fixpoint split_by (sep : ascii -> bool) (s : string) : list string :=
  match s with
  | EmptyString => [EmptyString]
  | String c t =>
      if sep c then EmptyString :: split_by sep t
      else match split_by sep t with
           | [] => [String c EmptyString]
           | h :: r => String c h :: r
           end
  end.

(** [s.split(c)] *)
Definition split_on (c : ascii) (s : string) : list string :=
  split_by (Ascii.eqb c) s.

(** [s.split()]: runs of whitespace, ASCII or not, separate; no empty
    field. *)
Definition split (s : string) : list string :=
  filter (fun t => negb (String.eqb t "")) (split_by is_space (spaced s)).

(** [l[-1]] *)
Definition last_item (l : list string) : Exc string :=
  match rev l with
  | [] => Raised (Exception "IndexError")
  | x :: _ => Returned x
  end.

End PyStr.

(* ================================================================== *)
(** ** src/f1_dashboard.py *)
(* ================================================================== *)

Module Dashboard.
Import Py Pandas PyStr DataCollection.

(** *** Column detection by name *)

Definition position_cols (columns : list string) : list string :=
  filter (fun col => contains "position" (lower col)) columns.

Definition team_cols (columns : list string) : list string :=
  filter (fun col => contains "team" (lower col)) columns.

Definition weather_cols (columns : list string) : list string :=
  filter (fun col =>
            existsb (fun w => contains w (lower col))
                    ["weather"; "rain"; "temp"; "condition"])
         columns.

(** *** [calculate_metrics] on the exported dataset

    The header of the file [data_collection.py] saves, and the typed
    column each name denotes. *)
Definition dataset_columns : list string :=
  ["quali_position"; "driver"; "team"; "quali_time"; "race_position";
   "points"; "status"; "position_change"; "year"; "race"; "event_name"].

Definition numeric_column (col : string)
    : option (CombinedRow -> option Z) :=
  if String.eqb col "quali_position" then Some quali_position
  else if String.eqb col "race_position" then Some race_position
  else if String.eqb col "position_change" then Some position_change
  else None.

Definition text_column (col : string)
    : option (CombinedRow -> option string) :=
  if String.eqb col "team" then Some team
  else if String.eqb col "driver" then Some (fun r => Some (driver r))
  else if String.eqb col "status" then Some status
  else None.

(** The keys set inside [if len(pos_cols) >= 2]. *)
Record PositionMetrics : Type := {
  qualifying_correlation : option R;
  metrics_r_squared : option R;
  avg_position_change : option Q;
  biggest_gain : option Z;
  biggest_loss : option Z
}.

Record Metrics : Type := {
  position_metrics : option PositionMetrics;
  total_teams : option nat;
  total_records : nat
}.

(** [None] is the empty dictionary returned for an empty frame. *)
Definition calculate_metrics (df : list CombinedRow) : option Metrics :=
  match df with
  | [] => None
  | _ :: _ =>
      let pos_cols := position_cols dataset_columns in
      let team_cols := team_cols dataset_columns in
      Some
        {| position_metrics :=
             match pos_cols with
             | qual_pos :: race_pos :: _ =>
                 match numeric_column qual_pos, numeric_column race_pos with
                 | Some qual, Some race =>
                     let correlation := corr (map qual df) (map race df) in
                     let pos_changes :=
                       map (fun r => sub_cell (race r) (qual r)) df in
                     Some
                       {| qualifying_correlation := correlation;
                          metrics_r_squared :=
                            option_map (fun c => c ^ 2)%R correlation;
                          avg_position_change := mean pos_changes;
                          biggest_gain :=
                            min_values (dropna_cells pos_changes);
                          biggest_loss :=
                            max_values (dropna_cells pos_changes) |}
                 | _, _ => None
                 end
             | _ => None
             end;
           total_teams :=
             match team_cols with
             | c :: _ =>
                 option_map (fun col => nunique (map col df)) (text_column c)
             | [] => None
             end;
           total_records := length df |}
  end.

(** *** Charts over a loaded file

    A loaded file is a table of cells under named columns; a cell is
    null, a float or a string.  The floats and their conversions from
    and to text are those of the interpreter: an interface here. *)
Record FloatOps : Type := {
  float : Type;
  float_of_str : string -> option float;  (* [float(s)]; [None]: ValueError *)
  str_of_float : float -> string;         (* [str(x)] *)
  isnan : float -> bool;
  of_int : Z -> float;
  fadd : float -> float -> float;
  fsub : float -> float -> float;
  fmul : float -> float -> float
}.

Section Charts.
Variable F : FloatOps.

Inductive Value : Type :=
| VNum (x : float F)
| VStr (s : string).

Definition Cell : Type := option Value.

Record DataFrame : Type := {
  columns : list string;
  rows : list (list Cell)
}.

Definition has_column (df : DataFrame) (col : string) : bool :=
  existsb (String.eqb col) (columns df).

Fixpoint index_of (col : string) (cols : list string) : option nat :=
  match cols with
  | [] => None
  | c :: t =>
      if String.eqb c col then Some O
      else option_map S (index_of col t)
  end.

(** The cell of a row under a column name. *)
Definition cell (df : DataFrame) (col : string) (row : list Cell) : Cell :=
  match index_of col (columns df) with
  | Some i => nth i row None
  | None => None
  end.

Definition column (df : DataFrame) (col : string) : list Cell :=
  map (cell df col) (rows df).

(** [df.dropna(subset=...)] *)
Definition dropna_subset (df : DataFrame) (subset : list string)
    : list (list Cell) :=
  filter (fun row => forallb (fun c => notna (cell df c row)) subset)
         (rows df).

Definition py_str (v : Value) : string :=
  match v with
  | VNum x => str_of_float F x
  | VStr s => s
  end.

Definition py_float (v : Value) : Exc (float F) :=
  match v with
  | VNum x => Returned x
  | VStr s =>
      match float_of_str F s with
      | Some x => Returned x
      | None => Raised (Exception "ValueError")
      end
  end.

(** The body of the [try] of [time_to_seconds]; [step] is what the
    [if 'days' in ...] block returns, if it does. *)
Definition time_to_seconds_body (time_str : Value)
    : Exc (float F) :=
  step <-
    (if contains "days" (py_str time_str) then
       let parts := split (py_str time_str) in
       time_part <- last_item parts ;;
       let time_bits := split_on ":" time_part in
       match time_bits with
       | [_; m; s] =>
           mins <- py_float (VStr m) ;;
           secs <- py_float (VStr s) ;;
           Returned
             (Some (fadd F (fmul F mins (of_int F 60%Z)) secs))
       | _ => Returned None
       end
     else Returned None) ;;
  match step with
  | Some seconds => Returned seconds
  | None => py_float time_str
  end.

(** [time_to_seconds]: the float, or Python's [None]. *)
Definition time_to_seconds (time_str : Value) : Exc (option (float F)) :=
  try_except
    (seconds <- time_to_seconds_body time_str ;; Returned (Some seconds))
    (Returned None).

Fixpoint mapM {A B : Type} (f : A -> Exc B) (l : list A) : Exc (list B) :=
  match l with
  | [] => Returned []
  | x :: t =>
      y <- f x ;;
      ys <- mapM f t ;;
      Returned (y :: ys)
  end.

(** A figure, by the data handed to the plotting call. *)
Inductive Figure : Type :=
| Scatter (points : list (list Cell * float F))
| Histogram (x : list Cell)
| Box (x y : string) (data : list (list Cell)).

(** What a chart function does: its outcome, and the messages it
    passed to [st.warning]. *)
Definition Out (A : Type) : Type := (Exc A * list string)%type.

Definition bind_out {A B : Type} (m : Out A) (k : A -> Out B) : Out B :=
  match fst m with
  | Returned a => (fst (k a), snd m ++ snd (k a))
  | Raised e => (Raised e, snd m)
  end.

(** The [quali_seconds] cell of a row: the conversion of its
    [quali_time]; Python's [None] and a NaN are both null. *)
Definition quali_seconds (df : DataFrame) (row : list Cell)
    : Exc (option (float F)) :=
  match cell df "quali_time" row with
  | Some v =>
      r <- time_to_seconds v ;;
      Returned (match r with
                | Some x => if isnan F x then None else Some x
                | None => None
                end)
  | None => Returned None
  end.

(** The rows left after the conversion and the second [dropna]. *)
Definition converted_rows (df : DataFrame)
    : Exc (list (list Cell * float F)) :=
  cells <-
    mapM (fun row => s <- quali_seconds df row ;; Returned (row, s))
         (dropna_subset df ["quali_time"; "team"]) ;;
  Returned
    (flat_map (fun p => match snd p with
                        | Some x => [(fst p, x)]
                        | None => []
                        end)
              cells).

(** [px.scatter]: a column it is given by name must exist. *)
Definition px_scatter (df : DataFrame) (named : list string)
    (points : list (list Cell * float F)) : Exc Figure :=
  if forallb (has_column df) named then Returned (Scatter points)
  else Raised (Exception "ValueError").

Definition create_qualifying_chart (df : DataFrame)
    : Out (option Figure) :=
  if negb (has_column df "quali_time") || negb (has_column df "team") then
    (Returned None, ["Missing qualifying time or team data"])
  else
    match dropna_subset df ["quali_time"; "team"] with
    | [] => (Returned None, ["No qualifying data available"])
    | _ :: _ =>
        match converted_rows df with
        | Raised e => (Raised e, [])
        | Returned [] =>
            (Returned None, ["Couldn't convert qualifying times"])
        | Returned (p :: ps) =>
            (fig <- px_scatter df ["team"; "driver"; "team"; "quali_time"]
                               (p :: ps) ;;
             Returned (Some fig),
             [])
        end
    end.

(** [a - b] on two columns of a loaded file. *)
Definition series_sub (a b : list Cell) : Exc (list Cell) :=
  mapM (fun p =>
          match p with
          | (Some (VStr _), _) | (_, Some (VStr _)) =>
              Raised (Exception "TypeError")
          | (Some (VNum x), Some (VNum y)) =>
              Returned (Some (VNum (fsub F x y)))
          | _ => Returned None
          end)
       (combine a b).

Definition create_position_change_histogram (df : DataFrame)
    : Out (option Figure) :=
  match position_cols (columns df) with
  | c0 :: c1 :: _ =>
      (position_changes <- series_sub (column df c1) (column df c0) ;;
       Returned (Some (Histogram position_changes)),
       [])
  | _ => (Returned None, [])
  end.

Definition create_team_performance_chart (df : DataFrame)
    : Out (option Figure) :=
  match position_cols (columns df), team_cols (columns df) with
  | p :: _, t :: _ => (Returned (Some (Box t p (rows df))), [])
  | _, _ => (Returned None, [])
  end.

Definition create_weather_chart (df : DataFrame) : Out (option Figure) :=
  match weather_cols (columns df), position_cols (columns df) with
  | w :: _, p :: _ => (Returned (Some (Box w p (rows df))), [])
  | _, _ => (Returned None, ["No weather data found"])
  end.

(** The four tabs of [main], in order: the figures shown and the
    warnings displayed. *)
Definition render_tabs (df : DataFrame) : Out (list (option Figure)) :=
  bind_out (create_qualifying_chart df) (fun fig1 =>
  bind_out (create_position_change_histogram df) (fun fig2 =>
  bind_out (create_team_performance_chart df) (fun fig3 =>
  bind_out (create_weather_chart df) (fun fig4 =>
  (Returned [fig1; fig2; fig3; fig4], []))))).
End Charts.

Arguments VNum {F} x.
Arguments VStr {F} s.
Arguments Scatter {F} points.
Arguments Histogram {F} x.
Arguments Box {F} x y data.
Arguments Build_DataFrame {F} columns rows.
Arguments columns {F} d.
Arguments rows {F} d.
Arguments has_column {F} df col.
Arguments cell {F} df col row.
Arguments column {F} df col.
Arguments dropna_subset {F} df subset.
Arguments py_str {F} v.
Arguments py_float {F} v.
Arguments time_to_seconds_body {F} time_str.
Arguments time_to_seconds {F} time_str.
Arguments quali_seconds {F} df row.
Arguments converted_rows {F} df.
Arguments px_scatter {F} df named points.
Arguments create_qualifying_chart {F} df.
Arguments series_sub {F} a b.
Arguments create_position_change_histogram {F} df.
Arguments create_team_performance_chart {F} df.
Arguments create_weather_chart {F} df.
Arguments render_tabs {F} df.

(** *** An instance of the float interface over the rationals

    Decimal notation with an optional sign and fraction, exact
    arithmetic, no NaN.  It serves to run the definitions above on
    examples written in that notation; it is not Python's [float], which
    also reads exponents, infinities, NaN and surrounding blanks, and
    rounds. *)

Definition digit_of (c : ascii) : option Z :=
  let n := nat_of_ascii c in
  if (48 <=? n)%nat && (n <=? 57)%nat then Some (Z.of_nat (n - 48))
  else None.

Fixpoint digits (s : string) (acc : Z) : option Z :=
  match s with
  | EmptyString => Some acc
  | String c t =>
      match digit_of c with
      | Some d => digits t (10 * acc + d)%Z
      | None => None
      end
  end.

Definition unsigned_decimal (s : string) : option Q :=
  match split_on "." s with
  | [i] =>
      if String.eqb i "" then None
      else option_map inject_Z (digits i 0%Z)
  | [i; f] =>
      if String.eqb i "" && String.eqb f "" then None
      else
        match digits i 0%Z, digits f 0%Z with
        | Some a, Some b =>
            let scale := (10 ^ Z.of_nat (String.length f))%Z in
            Some (Qred ((a * scale + b) # Z.to_pos scale))
        | _, _ => None
        end
  | _ => None
  end.

Definition decimal_of_str (s : string) : option Q :=
  match s with
  | String "-" t => option_map Qopp (unsigned_decimal t)
  | _ => unsigned_decimal s
  end.

Fixpoint fraction_digits (fuel : nat) (num den : Z) : string :=
  match fuel with
  | O => EmptyString
  | S fuel' =>
      if (num =? 0)%Z then EmptyString
      else
        String (ascii_of_nat (48 + Z.to_nat (10 * num / den)))
               (fraction_digits fuel' ((10 * num) mod den)%Z den)
  end.

Definition str_of_decimal (q : Q) : string :=
  let d := Zpos (Qden q) in
  let a := Z.abs (Qnum q) in
  (if (Qnum q <? 0)%Z then "-" else "")
  ++ DecimalString.NilZero.string_of_uint (N.to_uint (Z.to_N (a / d)))
  ++ "."
  ++ (if (a mod d =? 0)%Z then "0" else fraction_digits 17 (a mod d) d).

Definition exact_floats : FloatOps :=
  {| float := Q;
     float_of_str := decimal_of_str;
     str_of_float := str_of_decimal;
     isnan := fun _ => false;
     of_int := inject_Z;
     fadd := fun x y => Qred (Qplus x y);
     fsub := fun x y => Qred (Qminus x y);
     fmul := fun x y => Qred (Qmult x y) |}.

End Dashboard.

(* ================================================================== *)
(** ** More dataframe operations *)
(* ================================================================== *)

Module Frames.
Import Pandas.

(** [s.unique()]: the distinct values, in the order of their first
    appearance. *)
Fixpoint unique {A : Type} (eqb : A -> A -> bool) (l : list A) : list A :=
  match l with
  | [] => []
  | x :: t => x :: filter (fun y => negb (eqb y x)) (unique eqb t)
  end.

(** Equality of two cells of a text column, with two nulls equal (as
    [unique] and [groupby] see them). *)
Definition cell_eqb (a b : option string) : bool :=
  match a, b with
  | Some x, Some y => String.eqb x y
  | None, None => true
  | _, _ => false
  end.

(** [s.head(n)] *)
Definition head {A : Type} (n : nat) (l : list A) : list A := firstn n l.

(** [s.count()]: the number of non-null cells. *)
Definition count {A : Type} (s : Series A) : nat := length (dropna_cells s).

End Frames.

(* ================================================================== *)
(** ** src/day2_analysis.py *)
(* ================================================================== *)

Module Day2.
Import Py Pandas Frames DataCollection.

(** The three teams [analyze_qualifying_data] prints:
    [df.groupby('team')['quali_position'].mean().sort_values().head(3)]. *)
Definition top_teams (df : list CombinedRow) : list (string * option Q) :=
  head 3 (sort_values (groupby_mean team quali_position df)).

Section Pipeline.
(** [fastf1.get_session(year, name, kind)] *)
Variable get_session : Z -> string -> string -> Exc Session.
(** [plt.savefig(path)] *)
Variable savefig : string -> Exc unit.

Definition collect_multiple_races : Exc (option (list CombinedRow)) :=
  race_data <- collect_race_data get_session 2024%Z "Bahrain" ;;
  match race_data with
  | Some _ =>
      match create_combined_dataframe race_data with
      | Some df => Returned (Some df)
      | None => Returned None
      end
  | None => Returned None
  end.

(** [main] up to the call of [save_results]: the frame passed to it, or
    [None] when [main] returns before.  [analyze_qualifying_data]
    returns the frame it is given, and the combined frame has the two
    columns [create_basic_visualization] asks for. *)
Definition main : Exc (option (list CombinedRow)) :=
  ok <- test_fastf1_connection get_session ;;
  if negb ok then Returned None
  else
    df <- collect_multiple_races ;;
    match df with
    | None => Returned None
    | Some df =>
        _ <- savefig "../visualizations/day2_team_performance.png" ;;
        Returned (Some df)
    end.
End Pipeline.

End Day2.

(* ================================================================== *)
(** ** src/day3_advanced_analysis.py, the analyses *)
(* ================================================================== *)

Module Day3Analysis.
Import Py Pandas Frames DataCollection Day3.

(** The five teams [analyze_qualifying_performance] prints. *)
Definition printed_teams (df : list WeatherRow) : list (string * option Q) :=
  head 5 (team_performance df).

(** The entry of one weather condition in [weather_stats]. *)
Record WeatherStat : Type := {
  avg_position : option Q;
  std_position : option R;
  races : nat
}.

Definition condition_rows (condition : string) (df : list WeatherRow)
    : list WeatherRow :=
  filter (fun r => String.eqb (weather_condition r) condition) df.

(** The dictionary [weather_impact_analysis] returns, in the order its
    keys are inserted. *)
Definition weather_impact_analysis (df : list WeatherRow)
    : list (string * WeatherStat) :=
  map (fun condition =>
         let condition_df := condition_rows condition df in
         (condition,
          {| avg_position :=
               mean (map (fun r => quali_position (base r)) condition_df);
             std_position :=
               std (map (fun r => quali_position (base r)) condition_df);
             races := length condition_df |}))
      (unique String.eqb (map weather_condition df)).

(** The teams [team_performance_deep_dive] looks at:
    [df.groupby('team')['quali_position'].mean().sort_values().head(3).index]. *)
Definition deep_dive_teams (df : list WeatherRow) : list string :=
  map fst (head 3 (team_performance df)).

(** What [team_performance_deep_dive] prints for one team: per weather
    condition of the team's rows, the mean position and the row count. *)
Definition team_by_condition (t : string) (df : list WeatherRow)
    : list (string * option Q * nat) :=
  let team_data :=
    filter (fun r => cell_eqb (team (base r)) (Some t)) df in
  flat_map
    (fun condition =>
       let condition_data := condition_rows condition team_data in
       if (0 <? length condition_data)%nat then
         [(condition,
           mean (map (fun r => quali_position (base r)) condition_data),
           length condition_data)]
       else [])
    (unique String.eqb (map weather_condition team_data)).

Record SummaryStats : Type := {
  total_records : nat;
  unique_teams : nat;
  unique_drivers : nat;
  races_analyzed : nat;
  weather_conditions : nat
}.

Definition create_summary_stats (df : list WeatherRow) : SummaryStats :=
  {| total_records := length df;
     unique_teams := nunique (map (fun r => team (base r)) df);
     unique_drivers := nunique (map (fun r => Some (driver (base r))) df);
     races_analyzed := nunique (map (fun r => Some (event_name (base r))) df);
     weather_conditions :=
       nunique (map (fun r => Some (weather_condition r)) df) |}.

End Day3Analysis.

(* ================================================================== *)
(** ** src/day4_visualizations.py *)
(* ================================================================== *)

Module Day4.
Import Py Pandas Frames PyStr DataCollection Day3.

(** The header of the file [save_day3_results] writes, and the typed
    column each name denotes. *)
Definition day3_columns : list string :=
  Dashboard.dataset_columns ++ ["weather_condition"].

Definition numeric_column (col : string)
    : option (WeatherRow -> option Z) :=
  option_map (fun f => fun r : WeatherRow => f (base r))
             (Dashboard.numeric_column col).

Definition text_column (col : string)
    : option (WeatherRow -> option string) :=
  if String.eqb col "weather_condition"
  then Some (fun r => Some (weather_condition r))
  else if String.eqb col "race" then Some (fun r => Some (race (base r)))
  else if String.eqb col "event_name"
  then Some (fun r => Some (event_name (base r)))
  else option_map (fun f => fun r : WeatherRow => f (base r))
                  (Dashboard.text_column col).

(** The data of the two plots of [create_team_performance_chart]. *)
Record TeamChart : Type := {
  box_names : list string;
  box_values : list (Series Z);
  bars : list (string * option Q)
}.

(** The loop that fills [team_performance] and [team_names]: a team is
    kept when more than two rows carry it. *)
Definition box_groups (team_of : WeatherRow -> option string)
    (pos : WeatherRow -> option Z) (df : list WeatherRow)
    : list (string * Series Z) :=
  flat_map
    (fun t =>
       match t with
       | Some name =>
           let team_data := filter (fun r => cell_eqb (team_of r) t) df in
           if (2 <? length team_data)%nat then [(name, map pos team_data)]
           else []
       | None => []
       end)
    (unique cell_eqb (map team_of df)).

(** One row of [team_stats]: mean, standard deviation and count of the
    non-null positions of a team. *)
Record TeamStat : Type := {
  stat_mean : option Q;
  stat_std : option R;
  stat_count : nat
}.

Fixpoint insert_stat (e : string * TeamStat) (l : list (string * TeamStat))
    : list (string * TeamStat) :=
  match l with
  | [] => [e]
  | h :: t =>
      if value_le (stat_mean (snd e)) (stat_mean (snd h)) then e :: h :: t
      else h :: insert_stat e t
  end.

(** [team_stats.sort_values('mean')] *)
Definition sort_by_mean (l : list (string * TeamStat))
    : list (string * TeamStat) :=
  fold_right insert_stat [] l.

(** [df.groupby(team)[pos].agg(['mean', 'std', 'count'])], sorted by the
    mean and cut to the teams with at least three positions. *)
Definition team_stats (team_of : WeatherRow -> option string)
    (pos : WeatherRow -> option Z) (df : list WeatherRow)
    : list (string * TeamStat) :=
  filter (fun e => (3 <=? stat_count (snd e))%nat)
    (sort_by_mean
       (map (fun k =>
               let positions := map pos (filter (in_group team_of k) df) in
               (k, {| stat_mean := mean positions;
                      stat_std := std positions;
                      stat_count := count positions |}))
            (unique_keys (dropna_cells (map team_of df))))).

Section Files.
(** [plt.savefig(path)] *)
Variable savefig : string -> Exc unit.

(** In the two functions below the columns found by name are read
    through their typed accessors; the branch for a name without one
    stands for a position column that is not numeric, which the header
    above does not have. *)

Definition create_team_performance_chart (df : list WeatherRow)
    : Exc (option TeamChart) :=
  match Dashboard.position_cols day3_columns,
        Dashboard.team_cols day3_columns with
  | p :: _, t :: _ =>
      match numeric_column p, text_column t with
      | Some pos, Some team_of =>
          let groups := box_groups team_of pos df in
          let avg_performance := sort_values (groupby_mean team_of pos df) in
          _ <- savefig "visualizations/team_performance_analysis.png" ;;
          Returned (Some {| box_names := map fst groups;
                            box_values := map snd groups;
                            bars := avg_performance |})
      | _, _ => Raised (Exception "TypeError")
      end
  | _, _ => Returned None
  end.

Definition create_summary_visualization (df : list WeatherRow)
    : Exc (option (list (string * TeamStat))) :=
  match Dashboard.team_cols day3_columns,
        Dashboard.position_cols day3_columns with
  | t :: _, p :: _ =>
      match numeric_column p, text_column t with
      | Some pos, Some team_of =>
          let shown := team_stats team_of pos df in
          _ <- savefig "visualizations/performance_summary.png" ;;
          Returned (Some shown)
      | _, _ => Raised (Exception "TypeError")
      end
  | _, _ => Returned None
  end.
End Files.

End Day4.

(* ================================================================== *)
(** ** src/ergast_api.py *)
(* ================================================================== *)

Module Ergast.
Import Py PyStr.

(** A decoded JSON document. *)
#[warnings="-register-all"]
Inductive json : Type :=
| JNull
| JBool (b : bool)
| JNumber (n : Q)
| JString (s : string)
| JArray (items : list json)
| JObject (fields : list (string * json)).

(** The value a decoded object holds for a key: of two fields with the
    same name the decoder keeps the later one. *)
Fixpoint lookup (k : string) (fields : list (string * json)) : option json :=
  match fields with
  | [] => None
  | (k', v) :: rest =>
      match lookup k rest with
      | Some later => Some later
      | None => if String.eqb k' k then Some v else None
      end
  end.

(** [v[k]] for a string [k] *)
Definition getitem (v : json) (k : string) : Exc json :=
  match v with
  | JObject fields =>
      match lookup k fields with
      | Some x => Returned x
      | None => Raised (Exception "KeyError")
      end
  | _ => Raised (Exception "TypeError")
  end.

(** [v[i]] for an index [i >= 0] *)
Definition getindex (v : json) (i : nat) : Exc json :=
  match v with
  | JArray items =>
      match nth_error items i with
      | Some x => Returned x
      | None => Raised (Exception "IndexError")
      end
  | JString s =>
      match String.get i s with
      | Some c => Returned (JString (String c EmptyString))
      | None => Raised (Exception "IndexError")
      end
  | JObject _ => Raised (Exception "KeyError")
  | _ => Raised (Exception "TypeError")
  end.

(** [k in v] for a string [k] *)
Definition contains_item (k : string) (v : json) : Exc bool :=
  match v with
  | JObject fields =>
      Returned (match lookup k fields with Some _ => true | None => false end)
  | JArray items =>
      Returned (existsb (fun x => match x with
                                  | JString s => String.eqb s k
                                  | _ => false
                                  end) items)
  | JString s => Returned (contains k s)
  | _ => Raised (Exception "TypeError")
  end.

(** The exceptions of [requests.exceptions], all of them subclasses of
    [RequestException]; a class is named with its module. *)
Definition is_request_exception (cls : string) : bool :=
  String.prefix "requests.exceptions." cls.

(** [try: body  except requests.exceptions.RequestException: handler] *)
Definition try_except_RequestException {A : Type}
    (body : Exc A) (handler : Exc A) : Exc A :=
  match body with
  | Raised (Exception cls) =>
      if is_request_exception cls then handler else body
  | other => other
  end.

(** What [requests.get] returns: the status code and what
    [response.json()] does. *)
Record Response : Type := {
  status_code : Z;
  json_body : Exc json
}.

(** [response.raise_for_status()] *)
Definition raise_for_status (response : Response) : Exc unit :=
  if (400 <=? status_code response)%Z && (status_code response <? 600)%Z
  then Raised (Exception "requests.exceptions.HTTPError")
  else Returned tt.

Definition base_url : string := "http://ergast.com/api/f1".

Definition results_file : string := "data/raw/sample_race_results.json".

Definition qualifying_file : string :=
  "data/raw/sample_qualifying_results.json".

Section Web.
(** [requests.get(url)] *)
Variable get : string -> Exc Response.
(** [open(path, 'w')] *)
Variable open_for_writing : string -> Exc unit.

Definition test_ergast_connection : Exc bool :=
  try_except_RequestException
    (response <- get (base_url ++ "/current.json") ;;
     _ <- raise_for_status response ;;
     data <- json_body response ;;
     mrdata <- getitem data "MRData" ;;
     season_info <- getitem mrdata "RaceTable" ;;
     _ <- getitem season_info "season" ;;
     _ <- getitem season_info "total" ;;
     Returned true)
    (Returned false).

(** The first race of a results or qualifying document:
    [data['MRData']['RaceTable']['Races'][0]]. *)
Definition first_race (data : json) : Exc json :=
  mrdata <- getitem data "MRData" ;;
  table <- getitem mrdata "RaceTable" ;;
  all_races <- getitem table "Races" ;;
  getindex all_races 0.

(** One line of the top three in qualifying: the family name and the
    Q3 time of entry [i]. *)
Definition qualifying_line (qualifying_results : json) (i : nat)
    : Exc (json * json) :=
  entry <- getindex qualifying_results i ;;
  who <- getitem entry "Driver" ;;
  name <- getitem who "familyName" ;;
  entry' <- getindex qualifying_results i ;;
  time <- getitem entry' "Q3" ;;
  Returned (name, time).

(** One line of the top three of the race: the family name and the
    time, or N/A for an entry without one. *)
Definition race_line (race_results : json) (i : nat) : Exc (json * json) :=
  entry <- getindex race_results i ;;
  who <- getitem entry "Driver" ;;
  name <- getitem who "familyName" ;;
  entry' <- getindex race_results i ;;
  timed <- contains_item "Time" entry' ;;
  if (timed : bool) then
    entry'' <- getindex race_results i ;;
    time <- getitem entry'' "Time" ;;
    text <- getitem time "time" ;;
    Returned (name, text)
  else Returned (name, JString "N/A").

(** The part of [get_sample_race_data] after the two files are saved:
    the lines it prints. *)
Definition basic_analysis (race_data qualifying_data : json)
    : Exc (list (json * json)) :=
  race0 <- first_race race_data ;;
  race_results <- getitem race0 "Results" ;;
  quali0 <- first_race qualifying_data ;;
  qualifying_results <- getitem quali0 "QualifyingResults" ;;
  race0' <- first_race race_data ;;
  race_name <- getitem race0' "raceName" ;;
  race0'' <- first_race race_data ;;
  race_date <- getitem race0'' "date" ;;
  q0 <- qualifying_line qualifying_results 0 ;;
  q1 <- qualifying_line qualifying_results 1 ;;
  q2 <- qualifying_line qualifying_results 2 ;;
  r0 <- race_line race_results 0 ;;
  r1 <- race_line race_results 1 ;;
  r2 <- race_line race_results 2 ;;
  Returned [q0; q1; q2; r0; r1; r2].

(** The two downloads at the head of the [try]. *)
Definition download_both : Exc (json * json) :=
  response <- get (base_url ++ "/2024/1/results.json") ;;
  race_data <- json_body response ;;
  response' <- get (base_url ++ "/2024/1/qualifying.json") ;;
  qualifying_data <- json_body response' ;;
  Returned (race_data, qualifying_data).

(** What the handler of [get_sample_race_data] makes of an exception. *)
Definition contained (e : raised) : Exc bool :=
  match e with
  | Exception _ => Returned false
  | KeyboardInterrupt => Raised KeyboardInterrupt
  end.

(** [get_sample_race_data]: its outcome, and the files it has written
    with their content. *)
Definition get_sample_race_data : Exc bool * list (string * json) :=
  match download_both with
  | Raised e => (contained e, [])
  | Returned (race_data, qualifying_data) =>
      match open_for_writing results_file with
      | Raised e => (contained e, [])
      | Returned _ =>
          match open_for_writing qualifying_file with
          | Raised e => (contained e, [(results_file, race_data)])
          | Returned _ =>
              (match basic_analysis race_data qualifying_data with
               | Returned _ => Returned true
               | Raised e => contained e
               end,
               [(results_file, race_data);
                (qualifying_file, qualifying_data)])
          end
      end
  end.
End Web.

End Ergast.

(* ================================================================== *)
(** ** src/f1_dashboard.py and src/day4_visualizations.py: loading and
    selecting the data *)
(* ================================================================== *)

Module DashboardMain.
Import Py Pandas Frames PyStr DataCollection Day3.

Section Files.
(** [pd.read_csv("data/processed/day3_full_analysis.csv")] *)
Variable read_main_csv : Exc (list WeatherRow).
(** [pd.read_csv("data/processed/day2_analysis_data.csv")] *)
Variable read_day2_csv : Exc (list CombinedRow).

(** The body of the [try] of [load_f1_data] and of [load_data]. *)
Definition read_both
    : Exc (option (list WeatherRow) * option (list CombinedRow)) :=
  main_df <- read_main_csv ;;
  day2_df <- read_day2_csv ;;
  Returned (Some main_df, Some day2_df).

(** [load_f1_data] of the dashboard: the pair it returns, and the
    messages it passes to [st.error]. *)
Definition load_f1_data
    : Exc (option (list WeatherRow) * option (list CombinedRow))
      * list string :=
  match read_both with
  | Raised (Exception cls) =>
      if String.eqb cls "FileNotFoundError"
      then (Returned (None, None),
            ["Data files not found! Make sure you've run the data collection scripts first."])
      else (Raised (Exception cls), [])
  | other => (other, [])
  end.

(** [load_data] of [day4_visualizations.py]: the same, the message being
    printed. *)
Definition load_data
    : Exc (option (list WeatherRow) * option (list CombinedRow)) :=
  match read_both with
  | Raised (Exception cls) =>
      if String.eqb cls "FileNotFoundError" then Returned (None, None)
      else Raised (Exception cls)
  | other => other
  end.
End Files.

(** The columns [main] takes for race columns. *)
Definition race_cols (columns : list string) : list string :=
  filter (fun col =>
            existsb (fun keyword => contains keyword (lower col))
                    ["race"; "event"; "session"; "grand"; "gp"]
            && negb (contains "position" (lower col)))
         columns.

(** The choice made in the sidebar: all races, or the race at a place of
    the select box. *)
Inductive Scope : Type :=
| AllRacesCombined
| IndividualRaceAnalysis (choice : nat).

(** [sorted(main_data[race_col].dropna().unique())] *)
Definition race_options (race_of : WeatherRow -> option string)
    (main_data : list WeatherRow) : list string :=
  sort_keys (unique String.eqb (dropna_cells (map race_of main_data))).

Record View : Type := {
  filtered_data : list WeatherRow;
  race_info : string;
  sidebar_warnings : list string
}.

(** The data [main] shows for a choice.  A select box without options
    returns [None]; comparing the column with it keeps no row. *)
Definition select_view (main_data : list WeatherRow) (scope : Scope) : View :=
  match scope with
  | AllRacesCombined =>
      {| filtered_data := main_data;
         race_info := "All Races Combined";
         sidebar_warnings := [] |}
  | IndividualRaceAnalysis choice =>
      match race_cols Day4.day3_columns with
      | race_col :: _ =>
          match Day4.text_column race_col with
          | Some race_of =>
              match nth_error (race_options race_of main_data) choice with
              | Some selected_race =>
                  {| filtered_data :=
                       filter (fun r => cell_eqb (race_of r)
                                                 (Some selected_race))
                              main_data;
                     race_info := selected_race;
                     sidebar_warnings := [] |}
              | None =>
                  {| filtered_data := [];
                     race_info := "None";
                     sidebar_warnings := [] |}
              end
          | None =>
              {| filtered_data := [];
                 race_info := "None";
                 sidebar_warnings := [] |}
          end
      | [] =>
          {| filtered_data := main_data;
             race_info := "All Races Combined";
             sidebar_warnings := ["No race data found"] |}
      end
  end.

(** [s.replace(' ', '_')] *)
Fixpoint replace_spaces (s : string) : string :=
  match s with
  | EmptyString => EmptyString
  | String c t =>
      String (if Ascii.eqb c " " then "_"%char else c) (replace_spaces t)
  end.

(** The name of the file the download button offers. *)
Definition download_filename (v : View) (scope : Scope) : string :=
  match scope with
  | IndividualRaceAnalysis _ =>
      "f1_data_" ++ replace_spaces (race_info v) ++ ".csv"
  | AllRacesCombined => "f1_data_all.csv"
  end.

(** The page: stopped after the loading, or shown for a choice. *)
Inductive Page : Type :=
| Stopped (errors : list string)
| Shown (v : View).

Section Main.
Variable read_main_csv : Exc (list WeatherRow).
Variable read_day2_csv : Exc (list CombinedRow).

(** The body of [main] up to the tabs, as it runs when the cache that
    wraps [main] holds no entry for it. *)
Definition main (scope : Scope) : Exc Page :=
  loaded <- fst (load_f1_data read_main_csv read_day2_csv) ;;
  match fst loaded with
  | None => Returned (Stopped (snd (load_f1_data read_main_csv read_day2_csv)))
  | Some main_data => Returned (Shown (select_view main_data scope))
  end.
End Main.

End DashboardMain.

(* ================================================================== *)
(** ** Example data *)
(* ================================================================== *)

Module Examples.
Import Py Pandas DataCollection.

(** A qualifying row of one driver with the three round times given. *)
Definition timed_row (q1 q2 q3 : option Timedelta) : ResultRow :=
  {| Position := Some 1%Z; Abbreviation := "VER";
     TeamName := Some "Red Bull Racing";
     Q1 := q1; Q2 := q2; Q3 := q3;
     Points := None; Status := None |}.

(** A result row with a position only. *)
Definition placed (code : string) (team_name : string) (pos : option Z)
    : ResultRow :=
  {| Position := pos; Abbreviation := code; TeamName := Some team_name;
     Q1 := None; Q2 := None; Q3 := None;
     Points := None; Status := Some "Finished" |}.

Definition bahrain : RaceInfo :=
  {| info_year := 2024%Z; info_race := "Bahrain";
     info_event_name := "Bahrain Grand Prix"; info_date := 20240302%Z |}.

(** A weekend in which SAR only qualified and BEA only raced. *)
Definition weekend : RaceData :=
  {| quali_results :=
       [placed "VER" "Red Bull Racing" (Some 1%Z);
        placed "HAM" "Mercedes" (Some 2%Z);
        placed "SAR" "Williams" (Some 3%Z)];
     race_results :=
       [placed "HAM" "Mercedes" (Some 1%Z);
        placed "VER" "Red Bull Racing" (Some 2%Z);
        placed "BEA" "Ferrari" (Some 3%Z)];
     race_info := bahrain |}.

(** One driver who qualified [q]-th and finished [r]-th. *)
Definition one_driver (q r : Z) : RaceData :=
  {| quali_results := [placed "VER" "Red Bull Racing" (Some q)];
     race_results := [placed "VER" "Red Bull Racing" (Some r)];
     race_info := bahrain |}.

(** A row of the dataset with its team and its two positions. *)
Definition entry (code team_name : string) (q r : option Z) : CombinedRow :=
  {| quali_position := q; driver := code; team := Some team_name;
     quali_time := None; race_position := r; points := None;
     status := Some "Finished"; position_change := sub_cell r q;
     year := 2024%Z; race := "Bahrain";
     event_name := "Bahrain Grand Prix" |}.

(** Three teams that qualified 1-2-3, 4-5-6 and 7-8-9. *)
Definition three_teams : list Day3.WeatherRow :=
  Day3.with_weather "Dry"
    [entry "A1" "Alpha" (Some 1%Z) (Some 2%Z);
     entry "B1" "Bravo" (Some 4%Z) (Some 4%Z);
     entry "C1" "Charlie" (Some 7%Z) (Some 9%Z);
     entry "A2" "Alpha" (Some 2%Z) (Some 1%Z);
     entry "B2" "Bravo" (Some 5%Z) (Some 3%Z);
     entry "C2" "Charlie" (Some 8%Z) (Some 7%Z);
     entry "A3" "Alpha" (Some 3%Z) (Some 5%Z);
     entry "B3" "Bravo" (Some 6%Z) (Some 6%Z);
     entry "C3" "Charlie" (Some 9%Z) (Some 8%Z)].

(** Three classified drivers, and two rows without a comparable pair. *)
Definition classified : list CombinedRow :=
  [entry "VER" "Red Bull Racing" (Some 1%Z) (Some 2%Z);
   entry "HAM" "Mercedes" (Some 2%Z) (Some 1%Z);
   entry "LEC" "Ferrari" (Some 3%Z) (Some 3%Z)].

Definition unclassified : list CombinedRow :=
  [entry "SAR" "Williams" (Some 4%Z) None;
   entry "BEA" "Ferrari" None (Some 4%Z)].

(** A provider for which the sessions of Australia cannot be loaded. *)
Definition without_australia (year : Z) (name kind : string)
    : Exc Session :=
  Returned
    {| EventName := name ++ " Grand Prix";
       session_date := year;
       load :=
         if String.eqb name "Australia"
         then Raised (Exception "ProviderUnavailable")
         else Returned [placed "VER" "Red Bull Racing" (Some 1%Z)] |}.

Definition five_events : list (string * string) :=
  [("Bahrain", "Dry"); ("Saudi Arabia", "Dry"); ("Australia", "Dry");
   ("Japan", "Wet"); ("China", "Dry")].

(** Loaded files, over the rational floats. *)
Definition text (s : string) : Dashboard.Cell Dashboard.exact_floats :=
  Some (Dashboard.VStr s).

Definition number (q : Q) : Dashboard.Cell Dashboard.exact_floats :=
  Some (Dashboard.VNum (F := Dashboard.exact_floats) q).

(** A file with both positions, a driver whose time converts, one whose
    time does not, and one without a time. *)
Definition loaded : Dashboard.DataFrame Dashboard.exact_floats :=
  {| Dashboard.columns :=
       ["quali_position"; "driver"; "team"; "quali_time"; "race_position"];
     Dashboard.rows :=
       [[number 1; text "VER"; text "Red Bull Racing";
         text "0 days 00:01:29.179000"; number 2];
        [number 2; text "HAM"; text "Mercedes"; text "no time set";
         number 1];
        [None; text "BEA"; text "Ferrari"; None; number 3]] |}.

(** The no-break space U+00A0, and a time with one before its
    seconds. *)
Definition no_break_space : string :=
  String (ascii_of_nat 194) (String (ascii_of_nat 160) EmptyString).

Definition broken_time : string :=
  "0 days 00:01:" ++ no_break_space ++ "29.5".

(** A file without any position column. *)
Definition no_positions : Dashboard.DataFrame Dashboard.exact_floats :=
  {| Dashboard.columns := ["driver"; "team"; "quali_time"];
     Dashboard.rows :=
       [[text "VER"; text "Red Bull Racing";
         text "0 days 00:01:29.179000"]] |}.

(** A file without the team column. *)
Definition no_team : Dashboard.DataFrame Dashboard.exact_floats :=
  {| Dashboard.columns :=
       ["quali_position"; "driver"; "quali_time"; "race_position"];
     Dashboard.rows :=
       [[number 1; text "VER"; text "0 days 00:01:29.179000";
         number 2]] |}.

(** A file without the driver column. *)
Definition no_driver : Dashboard.DataFrame Dashboard.exact_floats :=
  {| Dashboard.columns :=
       ["quali_position"; "team"; "quali_time"; "race_position"];
     Dashboard.rows :=
       [[number 1; text "Red Bull Racing"; text "0 days 00:01:29.179000";
         number 2]] |}.

(** Decoded documents of the results service: the nesting of every
    document, a driver, a qualifying entry and a race entry. *)
Definition document (all_races : list Ergast.json) : Ergast.json :=
  Ergast.JObject
    [("MRData",
      Ergast.JObject
        [("RaceTable",
          Ergast.JObject [("season", Ergast.JString "2024");
                          ("Races", Ergast.JArray all_races)])])].

Definition named (family_name : string) : Ergast.json :=
  Ergast.JObject [("familyName", Ergast.JString family_name)].

Definition qualifier (family_name q3 : string) : Ergast.json :=
  Ergast.JObject [("Driver", named family_name);
                  ("Q1", Ergast.JString "1:30.031");
                  ("Q3", Ergast.JString q3)].

Definition finisher (family_name : string) (time : option string)
    : Ergast.json :=
  Ergast.JObject
    (("Driver", named family_name)
     :: match time with
        | Some t => [("Time", Ergast.JObject [("time", Ergast.JString t)])]
        | None => []
        end).

(** A race document with three entries, the third without a time. *)
Definition race_document : Ergast.json :=
  document
    [Ergast.JObject
       [("raceName", Ergast.JString "Bahrain Grand Prix");
        ("date", Ergast.JString "2024-03-02");
        ("Results",
         Ergast.JArray [finisher "Verstappen" (Some "1:31:44.742");
                        finisher "Perez" (Some "+22.457");
                        finisher "Sainz" None])]].

(** A qualifying document with two entries only. *)
Definition short_qualifying : Ergast.json :=
  document
    [Ergast.JObject
       [("raceName", Ergast.JString "Bahrain Grand Prix");
        ("QualifyingResults",
         Ergast.JArray [qualifier "Verstappen" "1:29.179";
                        qualifier "Leclerc" "1:29.407"])]].

(** A service that answers the results address with the race document
    and any other address with the short qualifying document. *)
Definition service (url : string) : Exc Ergast.Response :=
  if String.eqb url "http://ergast.com/api/f1/2024/1/results.json"
  then Returned {| Ergast.status_code := 200%Z;
                   Ergast.json_body := Returned race_document |}
  else Returned {| Ergast.status_code := 200%Z;
                   Ergast.json_body := Returned short_qualifying |}.

(** A service that answers with an error document that is not the
    expected one. *)
Definition other_service (url : string) : Exc Ergast.Response :=
  Returned {| Ergast.status_code := 200%Z;
              Ergast.json_body :=
                Returned (Ergast.JObject
                            [("error", Ergast.JString "moved")]) |}.

(** A folder every file of which can be opened for writing. *)
Definition writable (path : string) : Exc unit := Returned tt.

(** Two teams of three rows each, one row of the first without a
    qualifying position. *)
Definition incomplete_team : list Day3.WeatherRow :=
  Day3.with_weather "Dry"
    [entry "A1" "Alpha" (Some 1%Z) (Some 2%Z);
     entry "B1" "Bravo" (Some 3%Z) (Some 3%Z);
     entry "A2" "Alpha" (Some 2%Z) (Some 1%Z);
     entry "B2" "Bravo" (Some 4%Z) (Some 5%Z);
     entry "A3" "Alpha" None (Some 4%Z);
     entry "B3" "Bravo" (Some 5%Z) (Some 6%Z)].

End Examples.

(* ================================================================== *)
(** ** The vocabulary of the specification *)
(* ================================================================== *)

Module Spec.
Import Py Pandas DataCollection.

(** "First non-null of (third-round, second-round, first-round)". *)
Fixpoint first_non_null {A : Type} (cells : list (option A)) : option A :=
  match cells with
  | [] => None
  | Some v :: _ => Some v
  | None :: rest => first_non_null rest
  end.

(** "race_position - qualifying_position; null if either side is null". *)
Definition race_minus_qualifying (qualifying race : option Z) : option Z :=
  match qualifying, race with
  | Some q, Some r => Some (r - q)%Z
  | _, _ => None
  end.

(** "Rows where both qualifying and race position are non-null". *)
Definition both_positions (r : CombinedRow) : bool :=
  match quali_position r, race_position r with
  | Some _, Some _ => true
  | _, _ => false
  end.

(** The (qualifying position, race position) pairs of a dataset. *)
Definition position_pairs (df : list CombinedRow) : list (Z * Z) :=
  flat_map (fun r => match quali_position r, race_position r with
                     | Some q, Some p => [(q, p)]
                     | _, _ => []
                     end)
           df.

(** The arithmetic mean of a list of integers: their sum over their
    number, as a fraction in lowest terms. *)
Definition arithmetic_mean (l : list Z) : option Q :=
  if (length l =? 0)%nat then None
  else Some (Qred (inject_Z (fold_right Z.add 0%Z l)
                   / inject_Z (Z.of_nat (length l))))%Q.

(** The qualifying positions recorded for a team. *)
Definition team_positions (t : string) (df : list CombinedRow) : list Z :=
  flat_map (fun r => match team r, quali_position r with
                     | Some t', Some p => if String.eqb t' t then [p] else []
                     | _, _ => []
                     end)
           df.

(** The frames of the events whose sessions were fetched, in the order
    the events were requested. *)
Definition fetched_frames
    (get_session : Z -> string -> string -> Exc Session)
    (races : list (string * string)) : list (list Day3.WeatherRow) :=
  flat_map
    (fun rw =>
       match fetch_sessions get_session 2024%Z (fst rw) with
       | Returned rd =>
           match create_combined_dataframe (Some rd) with
           | Some df => [Day3.with_weather (snd rw) df]
           | None => []
           end
       | Raised _ => []
       end)
    races.

(** The fields of a day-prefixed time such as 0 days 00:01:29.179000:
    the text mentions days and its last blank-separated part has three
    fields between colons. *)
Definition day_prefixed_fields (text : string)
    : option (string * string * string) :=
  if PyStr.contains "days" text then
    match rev (PyStr.split text) with
    | last :: _ =>
        match PyStr.split_on ":" last with
        | [h; m; s] => Some (h, m, s)
        | _ => None
        end
    | [] => None
    end
  else None.

(** What the conversion of a qualifying time is expected to give: minutes
    and seconds of a day-prefixed time, else the value as a plain float;
    nothing when the parts do not parse. *)
Definition expected_seconds (F : Dashboard.FloatOps)
    (v : Dashboard.Value F) : option (Dashboard.float F) :=
  match day_prefixed_fields (Dashboard.py_str v) with
  | Some (_, m, s) =>
      match Dashboard.float_of_str F m, Dashboard.float_of_str F s with
      | Some mins, Some secs =>
          Some (Dashboard.fadd F
                  (Dashboard.fmul F mins (Dashboard.of_int F 60%Z)) secs)
      | _, _ => None
      end
  | None =>
      match v with
      | Dashboard.VNum x => Some x
      | Dashboard.VStr s => Dashboard.float_of_str F s
      end
  end.

(** The rows of a loaded file the qualifying chart plots: those with a
    time and a team whose time converts to a number. *)
Definition plotted_rows (F : Dashboard.FloatOps)
    (df : Dashboard.DataFrame F)
    : list (list (Dashboard.Cell F) * Dashboard.float F) :=
  flat_map
    (fun row =>
       match Dashboard.cell df "quali_time" row with
       | Some v =>
           match expected_seconds F v with
           | Some x => if Dashboard.isnan F x then [] else [(row, x)]
           | None => []
           end
       | None => []
       end)
    (Dashboard.dropna_subset df ["quali_time"; "team"]).

(** The combined frames of the events whose sessions were fetched, in the
    order of the list of races. *)
Definition fetched_combined
    (get_session : Z -> string -> string -> Exc Session)
    (races : list string) : list (list CombinedRow) :=
  flat_map
    (fun race =>
       match fetch_sessions get_session 2024%Z race with
       | Returned rd =>
           match create_combined_dataframe (Some rd) with
           | Some df => [df]
           | None => []
           end
       | Raised _ => []
       end)
    races.

(** The dataset made of the combined frames of several events, one after
    the other ([pd.concat]). *)
Definition dataset_of (events : list RaceData) : list CombinedRow :=
  flat_map (fun rd => match create_combined_dataframe (Some rd) with
                      | Some df => df
                      | None => []
                      end)
           events.

(** The qualifying positions recorded under a weather condition. *)
Definition condition_positions (c : string) (df : list Day3.WeatherRow)
    : list Z :=
  flat_map (fun r => if String.eqb (Day3.weather_condition r) c
                     then match quali_position (Day3.base r) with
                          | Some p => [p]
                          | None => []
                          end
                     else [])
           df.

(** The same event data under another event date. *)
Definition with_date (d : Z) (rd : RaceData) : RaceData :=
  {| race_results := race_results rd;
     quali_results := quali_results rd;
     race_info :=
       {| info_year := info_year (race_info rd);
          info_race := info_race (race_info rd);
          info_event_name := info_event_name (race_info rd);
          info_date := d |} |}.

(** The rows of a team. *)
Definition team_rows (t : string) (df : list Day3.WeatherRow)
    : list Day3.WeatherRow :=
  filter (fun r => Frames.cell_eqb (team (Day3.base r)) (Some t)) df.

(** A service whose responses carry other status codes. *)
Definition with_status (status : Ergast.Response -> Z)
    (get : string -> Exc Ergast.Response) (url : string)
    : Exc Ergast.Response :=
  response <- get url ;;
  Returned {| Ergast.status_code := status response;
              Ergast.json_body := Ergast.json_body response |}.

End Spec.

(* ================================================================== *)
(** ** Properties *)
(* ================================================================== *)

Import Py Pandas DataCollection Spec.

(** Case analysis on the two positions of a row. *)
Ltac by_positions r :=
  destruct (quali_position r), (race_position r);
  try discriminate; try reflexivity.

(** *** Columns and rows *)

Lemma combine_map_same {A B C : Type} (f : A -> B) (g : A -> C) (l : list A) :
  combine (map f l) (map g l) = map (fun x => (f x, g x)) l.
Proof.
  induction l as [|x l IH]; simpl; [reflexivity | now rewrite IH].
Qed.

Lemma fillna_rowwise {X A : Type} (f g : X -> option A) (l : list X) :
  fillna (map f l) (map g l) = map (fun x => fillna_cell (f x) (g x)) l.
Proof.
  unfold fillna. rewrite combine_map_same, map_map. reflexivity.
Qed.

Lemma quali_time_column_rowwise (quali_results : list ResultRow) :
  quali_time_column quali_results
  = map (fun r => fillna_cell (Q3 r) (fillna_cell (Q2 r) (Q1 r)))
        quali_results.
Proof.
  unfold quali_time_column. now rewrite !fillna_rowwise.
Qed.

Lemma combine_map_r {A B : Type} (g : A -> B) (l : list A) :
  combine l (map g l) = map (fun x => (x, g x)) l.
Proof.
  induction l as [|x l IH]; simpl; [reflexivity | now rewrite IH].
Qed.

Lemma make_quali_df_rowwise (quali_results : list ResultRow) :
  make_quali_df quali_results
  = map (fun r =>
           {| q_Position := Position r;
              q_Abbreviation := Abbreviation r;
              q_TeamName := TeamName r;
              q_quali_time := fillna_cell (Q3 r) (fillna_cell (Q2 r) (Q1 r)) |})
        quali_results.
Proof.
  unfold make_quali_df.
  rewrite quali_time_column_rowwise, combine_map_r, map_map. reflexivity.
Qed.

Lemma make_quali_df_keys (quali_results : list ResultRow) :
  map q_Abbreviation (make_quali_df quali_results)
  = map Abbreviation quali_results.
Proof.
  rewrite make_quali_df_rowwise, map_map. reflexivity.
Qed.

Lemma make_race_df_keys (results : list ResultRow) :
  map r_Abbreviation (make_race_df results) = map Abbreviation results.
Proof.
  unfold make_race_df. rewrite map_map. reflexivity.
Qed.

Lemma fillna_first_non_null {A : Type} (a b c : option A) :
  fillna_cell a (fillna_cell b c) = first_non_null [a; b; c].
Proof.
  destruct a, b, c; reflexivity.
Qed.

(** C2: the derived [quali_time] of every qualifying row is the first
    non-null of its Q3, Q2 and Q1 times, in that order, and is null exactly
    when the three are; the time [explore_race_session_data] prints is the
    same one; (Q1=90.1, -, -) gives 90.1, (Q1=90.1, Q2=89.5, -) gives 89.5
    and three nulls give null. *)
Theorem best_qualifying_time_selection :
  (forall quali_results : list ResultRow,
      map q_quali_time (make_quali_df quali_results)
      = map (fun r => first_non_null [Q3 r; Q2 r; Q1 r]) quali_results)
  /\ (forall r : ResultRow,
         first_non_null [Q3 r; Q2 r; Q1 r] = None
         <-> Q1 r = None /\ Q2 r = None /\ Q3 r = None)
  /\ (forall r : ResultRow,
         FastF1Collector.displayed_time r = first_non_null [Q3 r; Q2 r; Q1 r])
  /\ map q_quali_time
         (make_quali_df [Examples.timed_row (Some 90.1%Q) None None;
                         Examples.timed_row (Some 90.1%Q) (Some 89.5%Q) None;
                         Examples.timed_row None None None])
     = [Some 90.1%Q; Some 89.5%Q; None].
Proof.
  split; [|split; [|split]].
  - intros qr. rewrite make_quali_df_rowwise, map_map.
    apply map_ext. intros r. simpl. apply fillna_first_non_null.
  - intros r. simpl.
    destruct (Q3 r), (Q2 r), (Q1 r); split;
      try discriminate; try (intros (H1 & H2 & H3); discriminate); auto.
  - intros r. unfold FastF1Collector.displayed_time. simpl.
    destruct (Q3 r), (Q2 r), (Q1 r); reflexivity.
  - reflexivity.
Qed.


(** *** Join keys *)

Lemma insert_key_perm (k : string) (l : list string) :
  Permutation (insert_key k l) (k :: l).
Proof.
  induction l as [|h t IH]; simpl.
  - apply Permutation_refl.
  - destruct (String.leb k h).
    + apply Permutation_refl.
    + eapply perm_trans; [apply perm_skip, IH | apply perm_swap].
Qed.

Lemma sort_keys_perm (l : list string) : Permutation (sort_keys l) l.
Proof.
  induction l as [|k l IH]; simpl.
  - apply perm_nil.
  - eapply perm_trans; [apply insert_key_perm | apply perm_skip, IH].
Qed.

Lemma unique_keys_perm (l : list string) :
  Permutation (unique_keys l) (nodup string_dec l).
Proof. apply sort_keys_perm. Qed.

Lemma unique_keys_In (l : list string) (k : string) :
  In k (unique_keys l) <-> In k l.
Proof.
  rewrite <- (nodup_In string_dec l k).
  split; apply Permutation_in;
    [apply unique_keys_perm | apply Permutation_sym, unique_keys_perm].
Qed.

Lemma unique_keys_NoDup (l : list string) : NoDup (unique_keys l).
Proof.
  eapply Permutation_NoDup;
    [apply Permutation_sym, unique_keys_perm | apply NoDup_nodup].
Qed.

Lemma unique_keys_length (l : list string) :
  length (unique_keys l) = length (nodup string_dec l).
Proof. apply Permutation_length, unique_keys_perm. Qed.

Lemma nodup_length_le (l : list string) :
  length (nodup string_dec l) <= length l.
Proof.
  apply NoDup_incl_length; [apply NoDup_nodup |].
  intros x Hx. now apply nodup_In in Hx.
Qed.

(** *** The outer join *)

Section MergeFacts.
Context {A B : Type}.
Variable key_left : A -> string.
Variable key_right : B -> string.

Lemma rows_with_In {X : Type} (key : X -> string) (k : string)
    (l : list X) (x : X) :
  In x (rows_with key k l) <-> In x l /\ key x = k.
Proof.
  unfold rows_with. rewrite filter_In, String.eqb_eq. reflexivity.
Qed.

Lemma rows_with_nil {X : Type} (key : X -> string) (k : string)
    (l : list X) :
  rows_with key k l = [] <-> ~ In k (map key l).
Proof.
  split.
  - intros Hnil Hin. apply in_map_iff in Hin as (x & Hk & Hx).
    assert (Hx' : In x (rows_with key k l)) by now apply rows_with_In.
    rewrite Hnil in Hx'. exact Hx'.
  - intros Hnot. destruct (rows_with key k l) as [|x t] eqn:E; [reflexivity|].
    exfalso. apply Hnot.
    assert (Hx : In x (rows_with key k l)) by (rewrite E; now left).
    apply rows_with_In in Hx as (Hx & Hk).
    apply in_map_iff. now exists x.
Qed.

Lemma rows_with_distinct {X : Type} (key : X -> string) (k : string)
    (l : list X) :
  NoDup (map key l) ->
  rows_with key k l = [] \/ exists x, rows_with key k l = [x].
Proof.
  induction l as [|x t IH]; simpl; intros Hnd; [now left|].
  inversion Hnd as [|? ? Hnotin Hnd']; subst.
  destruct (String.eqb (key x) k) eqn:E.
  - right. exists x. f_equal.
    apply String.eqb_eq in E. subst k.
    now apply rows_with_nil.
  - now apply IH.
Qed.

(** Where the two sides of a merged row come from, whatever the keys. *)
Lemma merge_outer_sides (left : list A) (right : list B)
    (k : string) (oa : option A) (ob : option B) :
  In (k, oa, ob) (merge_outer key_left key_right left right) ->
  match oa with
  | Some a => In a left /\ key_left a = k
  | None => ~ In k (map key_left left)
  end
  /\ match ob with
     | Some b => In b right /\ key_right b = k
     | None => ~ In k (map key_right right)
     end.
Proof.
  unfold merge_outer. rewrite in_flat_map. intros (k' & _ & Hin).
  unfold joined in Hin.
  destruct (rows_with key_left k' left) as [|a ls] eqn:El.
  - apply in_map_iff in Hin as (b & Heq & Hb). inversion Heq; subst.
    split; [now apply rows_with_nil | now apply rows_with_In in Hb].
  - destruct (rows_with key_right k' right) as [|b rs] eqn:Er.
    + apply in_map_iff in Hin as (a' & Heq & Ha). inversion Heq; subst.
      rewrite <- El in Ha.
      split; [now apply rows_with_In in Ha | now apply rows_with_nil].
    + apply in_flat_map in Hin as (a' & Ha & Hin).
      apply in_map_iff in Hin as (b' & Heq & Hb). inversion Heq; subst.
      rewrite <- El in Ha. rewrite <- Er in Hb.
      split; [now apply rows_with_In in Ha | now apply rows_with_In in Hb].
Qed.

Lemma flat_map_singletons {X Y : Type} (f : X -> list Y) (g : Y -> X)
    (l : list X) :
  (forall x, In x l -> exists y, f x = [y] /\ g y = x) ->
  map g (flat_map f l) = l.
Proof.
  induction l as [|x t IH]; simpl; intros H; [reflexivity|].
  destruct (H x (or_introl eq_refl)) as (y & Hf & Hg).
  rewrite Hf. simpl. rewrite Hg. f_equal.
  apply IH. intros x' Hx'. apply H. now right.
Qed.

(** With distinct keys on each side the key column of the result is the
    sorted union of the keys. *)
Lemma merge_outer_keys (left : list A) (right : list B) :
  NoDup (map key_left left) ->
  NoDup (map key_right right) ->
  map (fun m => fst (fst m)) (merge_outer key_left key_right left right)
  = unique_keys (map key_left left ++ map key_right right).
Proof.
  intros Hl Hr. unfold merge_outer.
  apply flat_map_singletons. intros k Hk.
  apply unique_keys_In, in_app_or in Hk.
  unfold joined.
  destruct (rows_with_distinct key_left k left Hl) as [El | (a & El)];
    destruct (rows_with_distinct key_right k right Hr) as [Er | (b & Er)];
    rewrite El, Er; simpl; eauto.
  exfalso. apply rows_with_nil in El, Er. tauto.
Qed.
End MergeFacts.

Lemma joined_nonempty {A B : Type} (k : string) (ls : list A) (rs : list B) :
  ls <> [] \/ rs <> [] -> joined k ls rs <> [].
Proof.
  unfold joined. destruct ls as [|a ls], rs as [|b rs]; simpl;
    intros [H | H]; congruence.
Qed.

Lemma merge_outer_nil {A B : Type} (key_left : A -> string)
    (key_right : B -> string) (left : list A) (right : list B) :
  merge_outer key_left key_right left right = [] ->
  left = [] /\ right = [].
Proof.
  intros Hnil.
  assert (Hkeys : forall k,
             In k (map key_left left ++ map key_right right) -> False).
  { intros k Hk.
    assert (Hne : joined k (rows_with key_left k left)
                           (rows_with key_right k right) <> []).
    { apply joined_nonempty. apply in_app_or in Hk.
      destruct Hk as [Hk | Hk]; [left | right]; intros E;
        apply rows_with_nil in E; contradiction. }
    destruct (joined k (rows_with key_left k left)
                       (rows_with key_right k right)) as [|m ms] eqn:E;
      [congruence|].
    assert (Hin : In m (merge_outer key_left key_right left right)).
    { unfold merge_outer. apply in_flat_map. exists k.
      split; [now apply unique_keys_In | rewrite E; now left]. }
    rewrite Hnil in Hin. exact Hin. }
  destruct left as [|a left']; [destruct right as [|b right']|].
  - now split.
  - exfalso. apply (Hkeys (key_right b)). simpl. now left.
  - exfalso. apply (Hkeys (key_left a)). simpl. now left.
Qed.

(** C7: with an empty qualifying table and an empty race table the
    reconciliation returns the empty frame, not [None] and not an error;
    and it is only then that the frame it returns is empty. *)
Theorem reconcile_empty_inputs :
  (forall info : RaceInfo,
      create_combined_dataframe
        (Some {| race_results := []; quali_results := []; race_info := info |})
      = Some [])
  /\ (forall rd : RaceData,
         create_combined_dataframe (Some rd) = Some [] <->
         quali_results rd = [] /\ race_results rd = []).
Proof.
  split; [reflexivity|].
  intros rd. split.
  - intros H. simpl in H. injection H as H.
    apply map_eq_nil, merge_outer_nil in H as (Hq & Hr).
    split.
    + apply (f_equal (@length _)) in Hq.
      rewrite make_quali_df_rowwise, length_map in Hq.
      now apply length_zero_iff_nil.
    + apply (f_equal (@length _)) in Hr.
      unfold make_race_df in Hr. rewrite length_map in Hr.
      now apply length_zero_iff_nil.
  - intros (Hq & Hr). destruct rd as [rr qr info]. simpl in *. subst.
    reflexivity.
Qed.

Lemma combined_row_driver (info : RaceInfo)
    (m : string * option QualiRow * option RaceRow) :
  driver (combined_row info m) = fst (fst m).
Proof. destruct m as [[k q] r]. reflexivity. Qed.

Lemma combined_driver_column (rd : RaceData) (out : list CombinedRow) :
  create_combined_dataframe (Some rd) = Some out ->
  NoDup (map Abbreviation (quali_results rd)) ->
  NoDup (map Abbreviation (race_results rd)) ->
  map driver out
  = unique_keys (map Abbreviation (quali_results rd)
                 ++ map Abbreviation (race_results rd)).
Proof.
  intros Hout Hq Hr. simpl in Hout. injection Hout as <-.
  rewrite map_map.
  rewrite (map_ext _ (fun m => fst (fst m)) (combined_row_driver _)).
  rewrite merge_outer_keys.
  - now rewrite make_quali_df_keys, make_race_df_keys.
  - now rewrite make_quali_df_keys.
  - now rewrite make_race_df_keys.
Qed.

(** C1: when the driver codes of each input are distinct, the combined frame
    has at least max(|qualifying|, |race|) and at most |qualifying| + |race|
    rows, every driver code of either input is the driver of exactly one
    row, and the row of a driver absent from one session has that session's
    columns null. *)
Theorem reconcile_outer_join (rd : RaceData) :
  NoDup (map Abbreviation (quali_results rd)) ->
  NoDup (map Abbreviation (race_results rd)) ->
  exists out,
    create_combined_dataframe (Some rd) = Some out
    /\ Nat.max (length (quali_results rd)) (length (race_results rd))
       <= length out
       <= length (quali_results rd) + length (race_results rd)
    /\ (forall code,
           In code (map Abbreviation (quali_results rd))
           \/ In code (map Abbreviation (race_results rd)) ->
           count_occ string_dec (map driver out) code = 1)
    /\ (forall row,
           In row out ->
           ~ In (driver row) (map Abbreviation (race_results rd)) ->
           race_position row = None /\ points row = None
           /\ status row = None)
    /\ (forall row,
           In row out ->
           ~ In (driver row) (map Abbreviation (quali_results rd)) ->
           quali_position row = None /\ team row = None
           /\ quali_time row = None).
Proof.
  intros Hq Hr.
  destruct (create_combined_dataframe (Some rd)) as [out|] eqn:Hout;
    [|discriminate].
  exists out. split; [reflexivity|].
  pose proof (combined_driver_column rd out Hout Hq Hr) as Hcol.
  set (qk := map Abbreviation (quali_results rd)) in *.
  set (rk := map Abbreviation (race_results rd)) in *.
  assert (Hlen : length out = length (nodup string_dec (qk ++ rk))).
  { rewrite <- (length_map driver out), Hcol. apply unique_keys_length. }
  split; [|split; [|split]].
  - rewrite Hlen. split.
    + apply Nat.max_lub.
      * rewrite <- (length_map Abbreviation (quali_results rd)).
        apply NoDup_incl_length; [exact Hq|].
        intros x Hx. apply nodup_In, in_or_app. now left.
      * rewrite <- (length_map Abbreviation (race_results rd)).
        apply NoDup_incl_length; [exact Hr|].
        intros x Hx. apply nodup_In, in_or_app. now right.
    + etransitivity; [apply nodup_length_le|].
      unfold qk, rk. rewrite length_app, !length_map. reflexivity.
  - intros code Hcode. rewrite Hcol.
    apply NoDup_count_occ'; [apply unique_keys_NoDup|].
    apply unique_keys_In, in_or_app. exact Hcode.
  - intros row Hrow Hnot. simpl in Hout. injection Hout as <-.
    apply in_map_iff in Hrow as ([[k oq] or] & <- & Hm).
    apply merge_outer_sides in Hm as (_ & Hright).
    destruct or as [b|]; [|now repeat split].
    exfalso. apply Hnot. simpl. destruct Hright as (Hb & Hk).
    unfold rk. rewrite <- Hk, <- make_race_df_keys. now apply in_map.
  - intros row Hrow Hnot. simpl in Hout. injection Hout as <-.
    apply in_map_iff in Hrow as ([[k oq] or] & <- & Hm).
    apply merge_outer_sides in Hm as (Hleft & _).
    destruct oq as [a|]; [|now repeat split].
    exfalso. apply Hnot. simpl. destruct Hleft as (Ha & Hk).
    unfold qk. rewrite <- Hk, <- make_quali_df_keys. now apply in_map.
Qed.

Lemma NoDup_strings_by_count (l : list string) :
  forallb (fun k => count_occ string_dec l k =? 1) l = true -> NoDup l.
Proof.
  intros H. apply (NoDup_count_occ' string_dec). intros k Hk.
  rewrite forallb_forall in H. now apply Nat.eqb_eq, H.
Qed.

Lemma reconcile_outer_join_witness :
  NoDup (map Abbreviation (quali_results Examples.weekend))
  /\ NoDup (map Abbreviation (race_results Examples.weekend))
  /\ exists out,
       create_combined_dataframe (Some Examples.weekend) = Some out
       /\ Nat.max (length (quali_results Examples.weekend))
                  (length (race_results Examples.weekend))
          <= length out
          <= length (quali_results Examples.weekend)
             + length (race_results Examples.weekend)
       /\ (forall code,
              In code (map Abbreviation (quali_results Examples.weekend))
              \/ In code (map Abbreviation (race_results Examples.weekend)) ->
              count_occ string_dec (map driver out) code = 1)
       /\ (forall row,
              In row out ->
              ~ In (driver row)
                   (map Abbreviation (race_results Examples.weekend)) ->
              race_position row = None /\ points row = None
              /\ status row = None)
       /\ (forall row,
              In row out ->
              ~ In (driver row)
                   (map Abbreviation (quali_results Examples.weekend)) ->
              quali_position row = None /\ team row = None
              /\ quali_time row = None).
Proof.
  assert (Hq : NoDup (map Abbreviation (quali_results Examples.weekend)))
    by (apply NoDup_strings_by_count; reflexivity).
  assert (Hr : NoDup (map Abbreviation (race_results Examples.weekend)))
    by (apply NoDup_strings_by_count; reflexivity).
  split; [exact Hq | split; [exact Hr |]].
  exact (reconcile_outer_join Examples.weekend Hq Hr).
Defined.

(** *** Position change *)

(** C3: in the combined frame the position change is race position minus
    qualifying position, null when either is null: qualified 3rd and
    finished 7th gives +4, qualified 7th and finished 2nd gives -5.  The
    [PositionChange] column of [analyze_sample_data] is the opposite
    difference, qualifying minus race: -4 and +5 on the same two cases. *)
Theorem position_change_sign_convention :
  (forall rd : RaceData,
      exists out,
        create_combined_dataframe (Some rd) = Some out
        /\ Forall (fun row =>
                     position_change row
                     = race_minus_qualifying (quali_position row)
                                             (race_position row))
                  out)
  /\ option_map (map position_change)
       (create_combined_dataframe (Some (Examples.one_driver 3 7)))
     = Some [Some 4%Z]
  /\ option_map (map position_change)
       (create_combined_dataframe (Some (Examples.one_driver 7 2)))
     = Some [Some (-5)%Z]
  /\ (forall quali_results race_results : list ResultRow,
         Forall (fun row =>
                   FastF1Collector.PositionChange row
                   = race_minus_qualifying (FastF1Collector.RacePos row)
                                           (FastF1Collector.QualiPos row))
                (FastF1Collector.comparison quali_results race_results))
  /\ map FastF1Collector.PositionChange
         (FastF1Collector.comparison
            (quali_results (Examples.one_driver 3 7))
            (race_results (Examples.one_driver 3 7)))
     = [Some (-4)%Z]
  /\ map FastF1Collector.PositionChange
         (FastF1Collector.comparison
            (quali_results (Examples.one_driver 7 2))
            (race_results (Examples.one_driver 7 2)))
     = [Some 5%Z].
Proof.
  split; [|split; [|split; [|split; [|split]]]]; try reflexivity.
  - intros rd. eexists. split; [reflexivity|].
    apply Forall_forall. intros row Hrow.
    apply in_map_iff in Hrow as ([[k q] r] & <- & _). simpl.
    destruct q as [q|], r as [r|]; simpl; try reflexivity;
      repeat match goal with
             | |- context [q_Position ?x] => destruct (q_Position x)
             | |- context [r_Position ?x] => destruct (r_Position x)
             end; reflexivity.
  - intros q r. apply Forall_forall. intros row Hrow.
    unfold FastF1Collector.comparison in Hrow.
    apply in_map_iff in Hrow as ([[k a] b] & <- & _). simpl.
    destruct (Position a), (Position b); reflexivity.
Qed.

(** *** Event metadata *)

Lemma combined_row_metadata (info : RaceInfo)
    (m : string * option QualiRow * option RaceRow) :
  year (combined_row info m) = info_year info
  /\ race (combined_row info m) = info_race info
  /\ event_name (combined_row info m) = info_event_name info.
Proof. destruct m as [[k q] r]. now repeat split. Qed.

(** C6, as stated, fails: no reading of the rows gives back the event
    date, since two events that differ in their date only (18 and 19 May
    here) have the same combined frame. *)
Lemma event_date_not_stamped :
  ~ exists date_of : CombinedRow -> Z,
      forall rd out row,
        create_combined_dataframe (Some rd) = Some out ->
        In row out ->
        year row = info_year (race_info rd)
        /\ race row = info_race (race_info rd)
        /\ event_name row = info_event_name (race_info rd)
        /\ date_of row = info_date (race_info rd).
Proof.
  intros (date_of & H).
  pose (a := with_date 20240518 (Examples.one_driver 3 7)).
  pose (b := with_date 20240519 (Examples.one_driver 3 7)).
  destruct (create_combined_dataframe (Some a)) as [out|] eqn:Ha;
    [|discriminate].
  assert (Hb : create_combined_dataframe (Some b) = Some out)
    by (rewrite <- Ha; reflexivity).
  destruct out as [|row out]; [discriminate|].
  destruct (H a _ row Ha (or_introl eq_refl)) as (_ & _ & _ & Hda).
  destruct (H b _ row Hb (or_introl eq_refl)) as (_ & _ & _ & Hdb).
  rewrite Hda in Hdb. discriminate.
Qed.

(** C6, amended: every row of the combined frame carries the season year,
    the race name and the event display name of the event; the frame does
    not depend on the event date. *)
Theorem reconcile_stamps_event_metadata (rd : RaceData) :
  exists out,
    create_combined_dataframe (Some rd) = Some out
    /\ Forall (fun row =>
                 year row = info_year (race_info rd)
                 /\ race row = info_race (race_info rd)
                 /\ event_name row = info_event_name (race_info rd))
              out
    /\ forall d : Z, create_combined_dataframe (Some (with_date d rd)) = Some out.
Proof.
  eexists. split; [reflexivity|]. split.
  - apply Forall_forall. intros row Hrow.
    apply in_map_iff in Hrow as (m & <- & _). apply combined_row_metadata.
  - intros d. reflexivity.
Qed.

(** *** Statistics over the rows with both positions *)

Lemma flat_map_nil_on {X Y : Type} (f : X -> list Y) (l : list X) :
  Forall (fun x => f x = []) l -> flat_map f l = [].
Proof.
  induction 1 as [|x l Hx _ IH]; simpl; [reflexivity|].
  now rewrite Hx, IH.
Qed.

Lemma flat_map_filter {X Y : Type} (f : X -> list Y) (p : X -> bool)
    (l : list X) :
  (forall x, p x = false -> f x = []) ->
  flat_map f (filter p l) = flat_map f l.
Proof.
  intros H. induction l as [|x l IH]; simpl; [reflexivity|].
  destruct (p x) eqn:E; simpl; rewrite IH; [reflexivity|].
  now rewrite (H x E).
Qed.

Lemma complete_pairs_rows {X : Type} (f g : X -> option Z) (l : list X) :
  complete_pairs (map f l) (map g l)
  = flat_map (fun x => match f x, g x with
                       | Some a, Some b => [(a, b)]
                       | _, _ => []
                       end) l.
Proof.
  unfold complete_pairs. rewrite combine_map_same.
  induction l as [|x l IH]; simpl; [reflexivity|]. now rewrite IH.
Qed.

Lemma dropna_cells_map {X A : Type} (f : X -> option A) (l : list X) :
  dropna_cells (map f l)
  = flat_map (fun x => match f x with Some v => [v] | None => [] end) l.
Proof.
  unfold dropna_cells. induction l as [|x l IH]; simpl; [reflexivity|].
  now rewrite IH.
Qed.

Lemma dropna_cells_In {A : Type} (s : Series A) (v : A) :
  In v (dropna_cells s) <-> In (Some v) s.
Proof.
  unfold dropna_cells. rewrite in_flat_map. split.
  - intros ([w|] & Hin & Hv); simpl in Hv; [|contradiction].
    destruct Hv as [<- | []]. exact Hin.
  - intros Hin. exists (Some v). split; [exact Hin | now left].
Qed.

Lemma dropna_positions_spec (df : list CombinedRow) :
  dropna_positions df = filter both_positions df.
Proof.
  apply filter_ext. intros r. unfold both_positions. by_positions r.
Qed.

Lemma incomplete_not_both (r : CombinedRow) :
  quali_position r = None \/ race_position r = None ->
  both_positions r = false.
Proof.
  unfold both_positions. intros [-> | ->]; [reflexivity|].
  destruct (quali_position r); reflexivity.
Qed.

Lemma dropna_positions_app_incomplete (df extra : list CombinedRow) :
  Forall (fun r => quali_position r = None \/ race_position r = None) extra ->
  dropna_positions (df ++ extra) = dropna_positions df.
Proof.
  intros H. rewrite !dropna_positions_spec, filter_app.
  replace (filter both_positions extra) with (@nil CombinedRow);
    [apply app_nil_r|].
  symmetry. induction H as [|r l Hr _ IH]; simpl; [reflexivity|].
  now rewrite (incomplete_not_both r Hr).
Qed.

Lemma clean_pairs (df : list CombinedRow) :
  complete_pairs (map quali_position (dropna_positions df))
                 (map race_position (dropna_positions df))
  = position_pairs df.
Proof.
  rewrite complete_pairs_rows, dropna_positions_spec.
  apply flat_map_filter. intros r. unfold both_positions.
  by_positions r.
Qed.

Lemma position_pairs_app (a b : list CombinedRow) :
  position_pairs (a ++ b) = position_pairs a ++ position_pairs b.
Proof. apply flat_map_app. Qed.

Lemma position_pairs_incomplete (extra : list CombinedRow) :
  Forall (fun r => quali_position r = None \/ race_position r = None) extra ->
  position_pairs extra = [].
Proof.
  intros H. apply flat_map_nil_on.
  eapply Forall_impl; [|exact H]. intros r [-> | ->]; [reflexivity|].
  destruct (quali_position r); reflexivity.
Qed.

Lemma position_pairs_concat (groups : list (list CombinedRow)) :
  position_pairs (concat groups) = concat (map position_pairs groups).
Proof.
  induction groups as [|g groups IH]; simpl; [reflexivity|].
  now rewrite position_pairs_app, IH.
Qed.

(** What [analyze_qualifying_performance] computes, in the words of the
    specification. *)
Lemma analyze_qualifying_performance_spec (df : list CombinedRow) :
  match analyze_qualifying_performance df with
  | Some (stats, clean_df) =>
      clean_df = filter both_positions df
      /\ sample_size stats = length (filter both_positions df)
      /\ correlation stats = pearson (position_pairs df)
      /\ r_squared stats
         = option_map (fun c => c ^ 2)%R (pearson (position_pairs df))
      /\ mean_position_change stats
         = mean (map position_change (filter both_positions df))
      /\ std_position_change stats
         = std (map position_change (filter both_positions df))
  | None => filter both_positions df = []
  end.
Proof.
  unfold analyze_qualifying_performance.
  rewrite <- (clean_pairs df), <- (dropna_positions_spec df).
  destruct (dropna_positions df) as [|r clean]; [reflexivity|].
  now repeat split.
Qed.

Lemma calculate_metrics_nonempty (df : list CombinedRow) :
  df <> [] ->
  Dashboard.calculate_metrics df
  = Some
      {| Dashboard.position_metrics :=
           Some
             {| Dashboard.qualifying_correlation :=
                  corr (map quali_position df) (map race_position df);
                Dashboard.metrics_r_squared :=
                  option_map (fun c => c ^ 2)%R
                    (corr (map quali_position df) (map race_position df));
                Dashboard.avg_position_change :=
                  mean (map (fun r => sub_cell (race_position r)
                                               (quali_position r)) df);
                Dashboard.biggest_gain :=
                  min_values
                    (dropna_cells
                       (map (fun r => sub_cell (race_position r)
                                               (quali_position r)) df));
                Dashboard.biggest_loss :=
                  max_values
                    (dropna_cells
                       (map (fun r => sub_cell (race_position r)
                                               (quali_position r)) df)) |};
         Dashboard.total_teams := Some (nunique (map team df));
         Dashboard.total_records := length df |}.
Proof.
  destruct df as [|x t]; [contradiction | reflexivity].
Qed.

Lemma corr_positions (df : list CombinedRow) :
  corr (map quali_position df) (map race_position df)
  = pearson (position_pairs df).
Proof. unfold corr. now rewrite complete_pairs_rows. Qed.

Lemma position_changes_app_incomplete (df extra : list CombinedRow) :
  Forall (fun r => quali_position r = None \/ race_position r = None) extra ->
  dropna_cells
    (map (fun r => sub_cell (race_position r) (quali_position r))
         (df ++ extra))
  = dropna_cells
      (map (fun r => sub_cell (race_position r) (quali_position r)) df).
Proof.
  intros H. rewrite !dropna_cells_map, flat_map_app.
  rewrite (flat_map_nil_on _ extra); [apply app_nil_r|].
  eapply Forall_impl; [|exact H]. intros r [-> | ->]; [|reflexivity].
  destruct (race_position r); reflexivity.
Qed.

(** C4: the statistics are computed over the rows with both positions
    non-null only: sample size, correlation, its square, and the mean and
    standard deviation of the position change are those of that subset, and
    appending rows in which a position is null changes none of them.  The
    same holds for the correlation and the position-change metrics the
    dashboard computes over a non-empty dataset. *)
Theorem statistics_ignore_incomplete_rows (df extra : list CombinedRow) :
  Forall (fun r => quali_position r = None \/ race_position r = None) extra ->
  analyze_qualifying_performance (df ++ extra)
  = analyze_qualifying_performance df
  /\ match analyze_qualifying_performance df with
     | Some (stats, clean_df) =>
         clean_df = filter both_positions df
         /\ sample_size stats = length (filter both_positions df)
         /\ correlation stats = pearson (position_pairs df)
         /\ r_squared stats
            = option_map (fun c => c ^ 2)%R (pearson (position_pairs df))
         /\ mean_position_change stats
            = mean (map position_change (filter both_positions df))
         /\ std_position_change stats
            = std (map position_change (filter both_positions df))
     | None => filter both_positions df = []
     end
  /\ (df <> [] ->
      exists m m' pm,
        Dashboard.calculate_metrics df = Some m
        /\ Dashboard.calculate_metrics (df ++ extra) = Some m'
        /\ Dashboard.position_metrics m = Some pm
        /\ Dashboard.position_metrics m' = Some pm
        /\ Dashboard.qualifying_correlation pm = pearson (position_pairs df)
        /\ Dashboard.avg_position_change pm
           = mean (map (fun r => race_minus_qualifying (quali_position r)
                                                       (race_position r))
                       (filter both_positions df))).
Proof.
  intros Hextra. split; [|split].
  - unfold analyze_qualifying_performance.
    now rewrite dropna_positions_app_incomplete.
  - apply analyze_qualifying_performance_spec.
  - intros Hne.
    assert (Hne' : df ++ extra <> [])
      by (intros E; apply app_eq_nil in E; tauto).
    rewrite (calculate_metrics_nonempty df Hne).
    rewrite (calculate_metrics_nonempty (df ++ extra) Hne').
    do 3 eexists. split; [reflexivity|]. split; [reflexivity|].
    split; [reflexivity|]. split; [|split].
    + simpl. unfold mean.
      rewrite (position_changes_app_incomplete df extra Hextra).
      rewrite !corr_positions, position_pairs_app.
      rewrite (position_pairs_incomplete extra Hextra), app_nil_r.
      reflexivity.
    + simpl. apply corr_positions.
    + simpl. unfold mean. f_equal.
      rewrite !dropna_cells_map.
      rewrite (flat_map_filter _ both_positions).
      * apply flat_map_ext. intros r. by_positions r.
      * intros r. unfold both_positions.
        by_positions r.
Qed.

Lemma statistics_ignore_incomplete_rows_witness :
  Forall (fun r => quali_position r = None \/ race_position r = None)
         Examples.unclassified
  /\ analyze_qualifying_performance
       (Examples.classified ++ Examples.unclassified)
     = analyze_qualifying_performance Examples.classified
  /\ option_map (fun p => sample_size (fst p))
       (analyze_qualifying_performance
          (Examples.classified ++ Examples.unclassified))
     = Some 3.
Proof.
  assert (H : Forall (fun r => quali_position r = None \/ race_position r = None)
                     Examples.unclassified)
    by (repeat constructor; simpl; auto).
  split; [exact H|].
  destruct (statistics_ignore_incomplete_rows
              Examples.classified Examples.unclassified H) as (Heq & _).
  split; [exact Heq|].
  rewrite Heq. reflexivity.
Defined.

(** *** Grouped means *)

Lemma insert_value_perm (e : string * option Q)
    (l : list (string * option Q)) :
  Permutation (insert_value e l) (e :: l).
Proof.
  induction l as [|h t IH]; simpl.
  - apply Permutation_refl.
  - destruct (value_le (snd e) (snd h)).
    + apply Permutation_refl.
    + eapply perm_trans; [apply perm_skip, IH | apply perm_swap].
Qed.

Lemma sort_values_perm (l : list (string * option Q)) :
  Permutation (sort_values l) l.
Proof.
  induction l as [|e l IH]; simpl.
  - apply perm_nil.
  - eapply perm_trans; [apply insert_value_perm | apply perm_skip, IH].
Qed.

Lemma mean_values_arithmetic (l : list Z) :
  mean_values l = arithmetic_mean l.
Proof.
  unfold mean_values, arithmetic_mean.
  destruct l as [|x t]; [reflexivity|].
  change (length (x :: t) =? 0) with false. cbv iota.
  f_equal. apply Qred_complete.
  rewrite Qmake_Qdiv. unfold Zsum.
  replace (Z.pos (Pos.of_nat (length (x :: t))))
    with (Z.of_nat (length (x :: t))); [reflexivity|].
  simpl length. now rewrite <- Pos.of_nat_succ.
Qed.

Lemma group_positions {X : Type} (key : X -> option string)
    (value : X -> option Z) (k : string) (df : list X) :
  dropna_cells (map value (filter (in_group key k) df))
  = flat_map (fun x => match key x, value x with
                       | Some k', Some p => if String.eqb k' k then [p] else []
                       | _, _ => []
                       end) df.
Proof.
  rewrite dropna_cells_map.
  induction df as [|x df IH]; simpl; [reflexivity|].
  unfold in_group at 1.
  destruct (key x) as [k'|]; [destruct (String.eqb k' k)|]; simpl;
    rewrite IH; destruct (value x); reflexivity.
Qed.

Lemma team_positions_base (t : string) (df : list Day3.WeatherRow) :
  team_positions t (map Day3.base df)
  = flat_map (fun r => match team (Day3.base r), quali_position (Day3.base r) with
                       | Some t', Some p => if String.eqb t' t then [p] else []
                       | _, _ => []
                       end) df.
Proof.
  unfold team_positions. induction df as [|r df IH]; simpl; [reflexivity|].
  now rewrite IH.
Qed.

Lemma team_performance_perm (df : list Day3.WeatherRow) :
  Permutation
    (Day3.team_performance df)
    (map (fun t => (t, arithmetic_mean (team_positions t (map Day3.base df))))
         (unique_keys
            (dropna_cells (map (fun r => team (Day3.base r)) df)))).
Proof.
  unfold Day3.team_performance.
  eapply perm_trans; [apply sort_values_perm|].
  unfold groupby_mean.
  erewrite map_ext; [apply Permutation_refl|].
  intros t. simpl. f_equal. unfold mean.
  now rewrite group_positions, mean_values_arithmetic, team_positions_base.
Qed.

(** C8: the per-team summary has one entry per team, whose value is the
    arithmetic mean of the qualifying positions recorded for that team;
    teams that qualified 1-2-3, 4-5-6 and 7-8-9 get 2, 5 and 8; and the
    correlation over a dataset made of several groups of rows is Pearson's
    r of the concatenation of the groups' position pairs. *)
Theorem grouped_means_and_overall_correlation :
  (forall df : list Day3.WeatherRow,
      Forall (fun e =>
                snd e
                = arithmetic_mean (team_positions (fst e) (map Day3.base df)))
             (Day3.team_performance df)
      /\ NoDup (map fst (Day3.team_performance df))
      /\ forall t : string,
           In t (map fst (Day3.team_performance df))
           <-> In (Some t) (map (fun r => team (Day3.base r)) df))
  /\ Day3.team_performance Examples.three_teams
     = [("Alpha", Some 2%Q); ("Bravo", Some 5%Q); ("Charlie", Some 8%Q)]
  /\ (forall groups : list (list CombinedRow),
         match analyze_qualifying_performance (concat groups) with
         | Some (stats, _) =>
             correlation stats = pearson (concat (map position_pairs groups))
         | None => concat (map position_pairs groups) = []
         end).
Proof.
  split; [|split].
  - intros df. pose proof (team_performance_perm df) as Hperm.
    assert (Hkeys : Permutation
                      (map fst (Day3.team_performance df))
                      (unique_keys
                         (dropna_cells
                            (map (fun r => team (Day3.base r)) df)))).
    { eapply perm_trans; [apply Permutation_map, Hperm|].
      rewrite map_map. simpl. rewrite map_id. apply Permutation_refl. }
    split; [|split].
    + eapply Permutation_Forall; [apply Permutation_sym, Hperm|].
      apply Forall_forall. intros e He.
      apply in_map_iff in He as (t & <- & _). reflexivity.
    + eapply Permutation_NoDup;
        [apply Permutation_sym, Hkeys | apply unique_keys_NoDup].
    + intros t. split; intros Hin.
      * apply dropna_cells_In, unique_keys_In.
        eapply Permutation_in; [exact Hkeys | exact Hin].
      * eapply Permutation_in; [apply Permutation_sym, Hkeys|].
        apply unique_keys_In, dropna_cells_In, Hin.
  - vm_compute. reflexivity.
  - intros groups. rewrite <- position_pairs_concat.
    pose proof (analyze_qualifying_performance_spec (concat groups)) as H.
    destruct (analyze_qualifying_performance (concat groups))
      as [[stats clean]|].
    + tauto.
    + unfold position_pairs.
      rewrite <- (flat_map_filter _ both_positions).
      * now rewrite H.
      * intros r. unfold both_positions.
        by_positions r.
Qed.

(** *** Failures of the provider *)

Section ProviderFacts.
Variable get_session : Z -> string -> string -> Exc Session.

Lemma collect_race_data_outcome (year : Z) (race_name : string) :
  collect_race_data get_session year race_name
  = match fetch_sessions get_session year race_name with
    | Returned rd => Returned (Some rd)
    | Raised (Exception _) => Returned None
    | Raised KeyboardInterrupt => Raised KeyboardInterrupt
    end.
Proof.
  unfold collect_race_data.
  destruct (fetch_sessions get_session year race_name) as [rd | [msg|]];
    reflexivity.
Qed.

Lemma season_loop_cons (race_name weather : string)
    (rest : list (string * string)) (acc : list (list Day3.WeatherRow)) :
  Day3.season_loop get_session ((race_name, weather) :: rest) acc
  = (race_data <- collect_race_data get_session 2024%Z race_name ;;
     match race_data with
     | Some _ =>
         match create_combined_dataframe race_data with
         | Some df =>
             Day3.season_loop get_session rest
               (acc ++ [Day3.with_weather weather df])
         | None => Day3.season_loop get_session rest acc
         end
     | None => Day3.season_loop get_session rest acc
     end).
Proof. reflexivity. Qed.

Lemma fetched_frames_cons (rw : string * string)
    (rest : list (string * string)) :
  fetched_frames get_session (rw :: rest)
  = match fetch_sessions get_session 2024%Z (fst rw) with
    | Returned rd =>
        match create_combined_dataframe (Some rd) with
        | Some df => [Day3.with_weather (snd rw) df]
        | None => []
        end
    | Raised _ => []
    end ++ fetched_frames get_session rest.
Proof. reflexivity. Qed.

(** The loop never stops early on a failure the fetch reports as an
    [Exception]: it ends with the frames of the events fetched. *)
Lemma season_loop_frames (races : list (string * string)) :
  Forall (fun rw => fetch_sessions get_session 2024%Z (fst rw)
                    <> Raised KeyboardInterrupt) races ->
  forall acc,
    Day3.season_loop get_session races acc
    = Returned (acc ++ fetched_frames get_session races).
Proof.
  induction 1 as [|[race_name weather] rest Hrw _ IH]; intros acc.
  - simpl. now rewrite app_nil_r.
  - rewrite season_loop_cons, collect_race_data_outcome, fetched_frames_cons.
    simpl fst in *. simpl snd.
    destruct (fetch_sessions get_session 2024%Z race_name)
      as [rd | [msg|]]; [| |congruence].
    + cbn [bind].
      destruct (create_combined_dataframe (Some rd)) as [df|].
      * rewrite IH, <- app_assoc. reflexivity.
      * apply IH.
    + cbn [bind]. apply IH.
Qed.
End ProviderFacts.

(** C5: a fetch that raises an [Exception] makes [collect_race_data]
    return [None]; the season loop then goes on with the next event, and,
    whenever the failures of the fetches are such exceptions, ends with the
    dataset made of the frames of the events that were fetched, in order;
    with five events of which the third fails, of the other four. *)
Theorem partial_failure_tolerance
    (get_session : Z -> string -> string -> Exc Session) :
  (forall (year : Z) (race_name msg : string),
      fetch_sessions get_session year race_name = Raised (Exception msg) ->
      collect_race_data get_session year race_name = Returned None)
  /\ (forall races : list (string * string),
         Forall (fun rw => fetch_sessions get_session 2024%Z (fst rw)
                           <> Raised KeyboardInterrupt) races ->
         Day3.collect_season get_session races
         = Returned match fetched_frames get_session races with
                    | [] => None
                    | f :: fs => Some (concat (f :: fs))
                    end)
  /\ (forall (e1 e2 e3 e4 e5 : string * string)
             (rd1 rd2 rd4 rd5 : RaceData) (msg : string),
         fetch_sessions get_session 2024%Z (fst e1) = Returned rd1 ->
         fetch_sessions get_session 2024%Z (fst e2) = Returned rd2 ->
         fetch_sessions get_session 2024%Z (fst e3) = Raised (Exception msg) ->
         fetch_sessions get_session 2024%Z (fst e4) = Returned rd4 ->
         fetch_sessions get_session 2024%Z (fst e5) = Returned rd5 ->
         exists df1 df2 df4 df5,
           create_combined_dataframe (Some rd1) = Some df1
           /\ create_combined_dataframe (Some rd2) = Some df2
           /\ create_combined_dataframe (Some rd4) = Some df4
           /\ create_combined_dataframe (Some rd5) = Some df5
           /\ Day3.collect_season get_session [e1; e2; e3; e4; e5]
              = Returned
                  (Some (Day3.with_weather (snd e1) df1
                         ++ Day3.with_weather (snd e2) df2
                         ++ Day3.with_weather (snd e4) df4
                         ++ Day3.with_weather (snd e5) df5))).
Proof.
  assert (Hloop : forall races : list (string * string),
             Forall (fun rw => fetch_sessions get_session 2024%Z (fst rw)
                               <> Raised KeyboardInterrupt) races ->
             Day3.collect_season get_session races
             = Returned match fetched_frames get_session races with
                        | [] => None
                        | f :: fs => Some (concat (f :: fs))
                        end).
  { intros races H. unfold Day3.collect_season.
    rewrite (season_loop_frames get_session races H). cbn [bind app].
    destruct (fetched_frames get_session races); reflexivity. }
  split; [|split].
  - intros year race_name msg H.
    now rewrite collect_race_data_outcome, H.
  - exact Hloop.
  - intros e1 e2 e3 e4 e5 rd1 rd2 rd4 rd5 msg H1 H2 H3 H4 H5.
    do 4 eexists. repeat (split; [reflexivity|]).
    rewrite Hloop.
    + unfold fetched_frames. cbn [flat_map].
      rewrite H1, H2, H3, H4, H5. cbn [create_combined_dataframe].
      cbn [app concat]. now rewrite !app_nil_r.
    + repeat constructor; congruence.
Qed.

Lemma partial_failure_tolerance_witness :
  Forall (fun rw => fetch_sessions Examples.without_australia 2024%Z (fst rw)
                    <> Raised KeyboardInterrupt) Examples.five_events
  /\ collect_race_data Examples.without_australia 2024%Z "Australia"
     = Returned None
  /\ option_map (map (fun r => (race (Day3.base r), driver (Day3.base r))))
       match Day3.collect_season Examples.without_australia
               Examples.five_events with
       | Returned dataset => dataset
       | Raised _ => None
       end
     = Some [("Bahrain", "VER"); ("Saudi Arabia", "VER");
             ("Japan", "VER"); ("China", "VER")].
Proof.
  assert (H : Forall (fun rw =>
                        fetch_sessions Examples.without_australia 2024%Z (fst rw)
                        <> Raised KeyboardInterrupt) Examples.five_events)
    by (repeat constructor; discriminate).
  destruct (partial_failure_tolerance Examples.without_australia)
    as (Hfetch & Hloop & _).
  split; [exact H | split].
  - apply (Hfetch 2024%Z "Australia" "ProviderUnavailable"). reflexivity.
  - rewrite (Hloop Examples.five_events H). reflexivity.
Defined.

(** *** The dashboard's conversion of qualifying times *)

Lemma fields_cons_space (c : ascii) (u : string) :
  PyStr.is_space c = true ->
  filter (fun t => negb (String.eqb t ""))
         (PyStr.split_by PyStr.is_space (String c u))
  = filter (fun t => negb (String.eqb t ""))
           (PyStr.split_by PyStr.is_space u).
Proof.
  intros E. simpl. now rewrite E.
Qed.

Lemma fields_cons_nonspace (c : ascii) (u : string) :
  PyStr.is_space c = false ->
  filter (fun t => negb (String.eqb t ""))
         (PyStr.split_by PyStr.is_space (String c u)) <> [].
Proof.
  intros E. simpl. rewrite E.
  destruct (PyStr.split_by PyStr.is_space u); simpl; discriminate.
Qed.

Lemma contains_days_cons (c : ascii) (t : string) :
  PyStr.contains "days" (String c t) = true ->
  c = "d"%char \/ PyStr.contains "days" t = true.
Proof.
  intros H.
  change (PyStr.contains "days" (String c t))
    with (if (if ascii_dec "d" c then String.prefix "ays" t else false)
          then true else PyStr.contains "days" t) in H.
  destruct (ascii_dec "d" c) as [<- | _]; [now left | now right].
Qed.

Lemma blank2_bytes (a b : ascii) :
  PyStr.blank2 a b = true ->
  nat_of_ascii a = 194 /\ 128 <= nat_of_ascii b.
Proof.
  unfold PyStr.blank2, PyStr.byte_is.
  rewrite andb_true_iff, orb_true_iff, !Nat.eqb_eq. lia.
Qed.

Lemma blank3_bytes (a b c : ascii) :
  PyStr.blank3 a b c = true ->
  225 <= nat_of_ascii a /\ 128 <= nat_of_ascii b /\ 128 <= nat_of_ascii c.
Proof.
  unfold PyStr.blank3, PyStr.byte_is.
  rewrite !orb_true_iff, !andb_true_iff, !orb_true_iff, !andb_true_iff,
    !Nat.eqb_eq, !Nat.leb_le. lia.
Qed.

(** A text that holds the word has a field: the letter d is no part of
    a whitespace character. *)
Lemma split_of_days_within (n : nat) (s : string) :
  String.length s <= n ->
  PyStr.contains "days" s = true -> PyStr.split s <> [].
Proof.
  revert s. induction n as [|n IH]; intros s Hlen H.
  - destruct s; [discriminate H | simpl in Hlen; lia].
  - destruct s as [|a t]; [discriminate H|].
    cbn [String.length] in Hlen.
    unfold PyStr.split in *.
    apply contains_days_cons in H as [-> | H].
    + assert (E : PyStr.spaced (String "d" t)
                  = String "d" (PyStr.spaced t)).
      { destruct t as [|b [|c t'']]; reflexivity. }
      rewrite E. now apply fields_cons_nonspace.
    + destruct t as [|b t']; [discriminate H|].
      cbn [String.length] in Hlen. cbn [PyStr.spaced].
      destruct (PyStr.blank2 a b) eqn:E2.
      * apply blank2_bytes in E2 as (_ & Hb).
        apply contains_days_cons in H as [-> | H];
          [vm_compute in Hb; lia|].
        rewrite fields_cons_space by reflexivity.
        apply IH; [lia | exact H].
      * assert (Hplain :
                  filter (fun t => negb (String.eqb t ""))
                    (PyStr.split_by PyStr.is_space
                       (String a (PyStr.spaced (String b t')))) <> []).
        { destruct (PyStr.is_space a) eqn:Ea.
          - rewrite fields_cons_space by exact Ea.
            apply IH; [cbn [String.length]; lia | exact H].
          - now apply fields_cons_nonspace. }
        destruct t' as [|c t'']; [exact Hplain|].
        destruct (PyStr.blank3 a b c) eqn:E3; [|exact Hplain].
        apply blank3_bytes in E3 as (_ & Hb & Hc).
        apply contains_days_cons in H as [-> | H];
          [vm_compute in Hb; lia|].
        apply contains_days_cons in H as [-> | H];
          [vm_compute in Hc; lia|].
        cbn [String.length] in Hlen.
        rewrite fields_cons_space by reflexivity.
        apply IH; [lia | exact H].
Qed.

Lemma split_of_days (s : string) :
  PyStr.contains "days" s = true -> PyStr.split s <> [].
Proof. apply (split_of_days_within (String.length s)), Nat.le_refl. Qed.

Section ConversionFacts.
Variable F : Dashboard.FloatOps.

Lemma time_to_seconds_expected (v : Dashboard.Value F) :
  Dashboard.time_to_seconds v = Returned (expected_seconds F v).
Proof.
  unfold Dashboard.time_to_seconds, Dashboard.time_to_seconds_body,
    expected_seconds, day_prefixed_fields, PyStr.last_item.
  destruct (PyStr.contains "days" (Dashboard.py_str v)) eqn:C.
  - pose proof (split_of_days _ C) as Hne.
    destruct (rev (PyStr.split (Dashboard.py_str v))) as [|last rest] eqn:R.
    + exfalso. apply Hne.
      rewrite <- (rev_involutive (PyStr.split _)), R. reflexivity.
    + cbn [bind].
      destruct (PyStr.split_on ":" last) as [|h [|m [|s [|x xs]]]];
        cbn [bind Dashboard.py_float try_except];
        try (destruct v as [x' | s'];
             cbn [Dashboard.py_float bind try_except];
             try destruct (Dashboard.float_of_str F s');
             reflexivity).
      destruct (Dashboard.float_of_str F m); cbn [bind try_except];
        [destruct (Dashboard.float_of_str F s) |]; reflexivity.
  - cbn [bind]. destruct v as [x | s]; cbn [Dashboard.py_float bind];
      [reflexivity|].
    destruct (Dashboard.float_of_str F s); reflexivity.
Qed.

Lemma mapM_returned {A B : Type} (f : A -> Exc B) (g : A -> B)
    (l : list A) :
  (forall x, f x = Returned (g x)) ->
  Dashboard.mapM f l = Returned (map g l).
Proof.
  intros H. induction l as [|x l IH]; simpl; [reflexivity|].
  now rewrite H, IH.
Qed.

Lemma converted_rows_plotted (df : Dashboard.DataFrame F) :
  Dashboard.converted_rows df = Returned (plotted_rows F df).
Proof.
  unfold Dashboard.converted_rows, plotted_rows.
  rewrite (mapM_returned _
             (fun row =>
                (row,
                 match Dashboard.cell df "quali_time" row with
                 | Some v =>
                     match expected_seconds F v with
                     | Some x => if Dashboard.isnan F x then None else Some x
                     | None => None
                     end
                 | None => None
                 end))).
  - cbn [bind]. f_equal.
    induction (Dashboard.dropna_subset df ["quali_time"; "team"])
      as [|row l IH]; simpl; [reflexivity|].
    rewrite IH.
    destruct (Dashboard.cell df "quali_time" row) as [v|]; [|reflexivity].
    destruct (expected_seconds F v) as [x|]; [|reflexivity].
    destruct (Dashboard.isnan F x); reflexivity.
  - intros row. unfold Dashboard.quali_seconds.
    destruct (Dashboard.cell df "quali_time" row) as [v|]; [|reflexivity].
    rewrite time_to_seconds_expected. reflexivity.
Qed.

Lemma has_column_In (df : Dashboard.DataFrame F) (col : string) :
  Dashboard.has_column df col = true <-> In col (Dashboard.columns df).
Proof.
  unfold Dashboard.has_column. rewrite existsb_exists. split.
  - intros (c & Hc & E). apply String.eqb_eq in E. now subst.
  - intros H. exists col. split; [exact H | apply String.eqb_refl].
Qed.
End ConversionFacts.

(** C10: [time_to_seconds] never raises: on every string or number it
    returns the minutes and seconds of a day-prefixed time, else the value
    as a plain float, and [None] when the text does not parse.  The rows
    of the qualifying chart are exactly the rows with a time and a team
    whose time converts to a number that is not NaN: a row whose time
    gives [None] is left out and does not fail the chart.  On a file with
    the three columns the chart names, a figure over these rows is
    returned whenever one remains; no figure is returned, with a warning,
    only when a column is missing or no row remains. *)
Theorem time_to_seconds_never_raises (F : Dashboard.FloatOps) :
  (forall v : Dashboard.Value F,
      Dashboard.time_to_seconds v = Returned (expected_seconds F v))
  /\ (forall v : Dashboard.Value F,
         raises (Dashboard.time_to_seconds v) = false)
  /\ (forall df : Dashboard.DataFrame F,
         Dashboard.converted_rows df = Returned (plotted_rows F df)
         /\ Forall (fun p =>
                      exists v,
                        Dashboard.cell df "quali_time" (fst p) = Some v
                        /\ Dashboard.time_to_seconds v = Returned (Some (snd p)))
                   (plotted_rows F df))
  /\ (forall (df : Dashboard.DataFrame F) row x,
         In (row, x) (plotted_rows F df)
         <-> In row (Dashboard.dropna_subset df ["quali_time"; "team"])
             /\ exists v,
                  Dashboard.cell df "quali_time" row = Some v
                  /\ Dashboard.time_to_seconds v = Returned (Some x)
                  /\ Dashboard.isnan F x = false)
  /\ (forall df : Dashboard.DataFrame F,
         Dashboard.has_column df "driver" = true ->
         Dashboard.has_column df "quali_time" = true ->
         Dashboard.has_column df "team" = true ->
         plotted_rows F df <> [] ->
         Dashboard.create_qualifying_chart df
         = (Returned (Some (Dashboard.Scatter (plotted_rows F df))), []))
  /\ (forall df : Dashboard.DataFrame F,
         Dashboard.has_column df "driver" = true ->
         exists fig warnings,
           Dashboard.create_qualifying_chart df = (Returned fig, warnings)
           /\ match fig with
              | Some shown =>
                  shown = Dashboard.Scatter (plotted_rows F df)
                  /\ plotted_rows F df <> [] /\ warnings = []
              | None =>
                  warnings <> []
                  /\ (Dashboard.has_column df "quali_time" = false
                      \/ Dashboard.has_column df "team" = false
                      \/ plotted_rows F df = [])
              end).
Proof.
  assert (Hrows : forall (df : Dashboard.DataFrame F) row x,
             In (row, x) (plotted_rows F df)
             <-> In row (Dashboard.dropna_subset df ["quali_time"; "team"])
                 /\ exists v,
                      Dashboard.cell df "quali_time" row = Some v
                      /\ Dashboard.time_to_seconds v = Returned (Some x)
                      /\ Dashboard.isnan F x = false).
  { intros df row x. unfold plotted_rows. rewrite in_flat_map. split.
    - intros (row' & Hclean & Hin).
      destruct (Dashboard.cell df "quali_time" row') as [v|] eqn:Ecell;
        [|contradiction].
      destruct (expected_seconds F v) as [y|] eqn:Eexp; [|contradiction].
      destruct (Dashboard.isnan F y) eqn:Enan; [contradiction|].
      destruct Hin as [Heq | []]. injection Heq as -> ->.
      split; [exact Hclean|]. exists v.
      now rewrite time_to_seconds_expected, Eexp.
    - intros (Hclean & v & Ecell & Hconv & Enan).
      rewrite time_to_seconds_expected in Hconv.
      injection Hconv as Hconv.
      exists row. split; [exact Hclean|].
      rewrite Ecell, Hconv, Enan. now left. }
  assert (Hshown : forall df : Dashboard.DataFrame F,
             Dashboard.has_column df "driver" = true ->
             Dashboard.has_column df "quali_time" = true ->
             Dashboard.has_column df "team" = true ->
             plotted_rows F df <> [] ->
             Dashboard.create_qualifying_chart df
             = (Returned (Some (Dashboard.Scatter (plotted_rows F df))), [])).
  { intros df Hdriver Etime Eteam Hplot.
    unfold Dashboard.create_qualifying_chart.
    rewrite Etime, Eteam. cbn [negb orb].
    destruct (Dashboard.dropna_subset df ["quali_time"; "team"]) eqn:Eclean.
    { exfalso. apply Hplot. unfold plotted_rows. now rewrite Eclean. }
    rewrite converted_rows_plotted.
    destruct (plotted_rows F df) as [|p ps] eqn:Eplot; [now elim Hplot|].
    unfold Dashboard.px_scatter. cbn [forallb].
    rewrite Eteam, Hdriver, Etime. reflexivity. }
  split; [|split; [|split; [|split; [|split]]]].
  - apply time_to_seconds_expected.
  - intros v. now rewrite time_to_seconds_expected.
  - intros df. split; [apply converted_rows_plotted|].
    apply Forall_forall. intros [row x] Hin.
    apply Hrows in Hin as (_ & v & Ecell & Hconv & _).
    exists v. now split.
  - exact Hrows.
  - exact Hshown.
  - intros df Hdriver.
    destruct (Dashboard.has_column df "quali_time") eqn:Etime.
    2:{ unfold Dashboard.create_qualifying_chart. rewrite Etime.
        do 2 eexists. split; [reflexivity|].
        split; [discriminate | now left]. }
    destruct (Dashboard.has_column df "team") eqn:Eteam.
    2:{ unfold Dashboard.create_qualifying_chart. rewrite Etime, Eteam.
        do 2 eexists. split; [reflexivity|].
        split; [discriminate | right; now left]. }
    destruct (plotted_rows F df) as [|p ps] eqn:Eplot.
    + unfold Dashboard.create_qualifying_chart.
      rewrite Etime, Eteam. cbn [negb orb].
      destruct (Dashboard.dropna_subset df ["quali_time"; "team"]);
        [do 2 eexists; split; [reflexivity|];
         split; [discriminate | now do 2 right]|].
      rewrite converted_rows_plotted, Eplot.
      do 2 eexists. split; [reflexivity|].
      split; [discriminate | now do 2 right].
    + rewrite <- Eplot.
      assert (Hne : plotted_rows F df <> []) by (rewrite Eplot; discriminate).
      exists (Some (Dashboard.Scatter (plotted_rows F df))), [].
      split; [now apply Hshown|].
      split; [reflexivity | split; [exact Hne | reflexivity]].
Qed.

Lemma time_to_seconds_never_raises_witness :
  Dashboard.has_column Examples.loaded "driver" = true
  /\ Dashboard.time_to_seconds
       (Dashboard.VStr (F := Dashboard.exact_floats) "no time set")
     = Returned None
  /\ Dashboard.time_to_seconds
       (Dashboard.VStr (F := Dashboard.exact_floats) "0 days 00:01:29.179000")
     = Returned (Some 89.179%Q)
  /\ PyStr.split Examples.broken_time = ["0"; "days"; "00:01:"; "29.5"]
  /\ Dashboard.time_to_seconds
       (Dashboard.VStr (F := Dashboard.exact_floats) Examples.broken_time)
     = Returned None
  /\ Dashboard.create_qualifying_chart Examples.loaded
     = (Returned
          (Some (Dashboard.Scatter
                   [([Examples.number 1; Examples.text "VER";
                      Examples.text "Red Bull Racing";
                      Examples.text "0 days 00:01:29.179000";
                      Examples.number 2],
                     89.179%Q)])),
        []).
Proof.
  destruct (time_to_seconds_never_raises Dashboard.exact_floats)
    as (Hconv & _ & _ & _ & Hshown & _).
  split; [reflexivity|]. split; [|split; [|split; [|split]]].
  - rewrite Hconv. reflexivity.
  - rewrite Hconv. reflexivity.
  - reflexivity.
  - rewrite Hconv. reflexivity.
  - rewrite (Hshown Examples.loaded eq_refl eq_refl eq_refl);
      [reflexivity | discriminate].
Defined.

(** *** Charts over files with missing columns *)

(** C9: of the chart functions, [create_qualifying_chart] warns when the
    time or the team column is missing and returns no figure.  The
    position-change histogram and the team chart return no figure on a
    file without position columns, and never pass a message to
    [st.warning]; and on a file that has the time and team columns but no
    driver column, the plotting call of [create_qualifying_chart] raises,
    which ends the rendering of the tabs. *)
Theorem chart_guards_on_missing_columns :
  (forall (F : Dashboard.FloatOps) (df : Dashboard.DataFrame F),
      snd (Dashboard.create_position_change_histogram df) = []
      /\ snd (Dashboard.create_team_performance_chart df) = [])
  /\ Dashboard.create_position_change_histogram Examples.no_positions
     = (Returned None, [])
  /\ Dashboard.create_team_performance_chart Examples.no_positions
     = (Returned None, [])
  /\ Dashboard.create_weather_chart Examples.no_positions
     = (Returned None, ["No weather data found"])
  /\ Dashboard.create_qualifying_chart Examples.no_team
     = (Returned None, ["Missing qualifying time or team data"])
  /\ Dashboard.create_qualifying_chart Examples.no_driver
     = (Raised (Exception "ValueError"), [])
  /\ fst (Dashboard.render_tabs Examples.no_driver)
     = Raised (Exception "ValueError").
Proof.
  split; [|repeat split; vm_compute; reflexivity].
  intros F df. split.
  - unfold Dashboard.create_position_change_histogram.
    destruct (Dashboard.position_cols (Dashboard.columns df)) as [|c0 [|c1 l]];
      reflexivity.
  - unfold Dashboard.create_team_performance_chart.
    destruct (Dashboard.position_cols (Dashboard.columns df)) as [|p l];
      [reflexivity|].
    destruct (Dashboard.team_cols (Dashboard.columns df)); reflexivity.
Qed.

(** *** Further properties *)

(** The definition of Pearson's r on ranks that agree, that are reversed,
    and that do not vary. *)
Lemma pearson_of_ranks :
  pearson [(1, 1); (2, 2); (3, 3)]%Z = Some 1%R
  /\ pearson [(1, 3); (2, 2); (3, 1)]%Z = Some (-1)%R
  /\ pearson [(1, 2); (1, 3)]%Z = None.
Proof.
  assert (H36 : sqrt (IZR 36) = 6%R).
  { replace (IZR 36) with (6 * 6)%R by lra. apply sqrt_square. lra. }
  repeat split.
  - unfold pearson. cbn -[IZR sqrt Rdiv]. rewrite H36. f_equal. lra.
  - unfold pearson. cbn -[IZR sqrt Rdiv]. rewrite H36. f_equal. lra.
Qed.

Lemma NoDup_map_injective {X Y : Type} (f : X -> Y) (l : list X) (a b : X) :
  NoDup (map f l) -> In a l -> In b l -> f a = f b -> a = b.
Proof.
  induction l as [|x l IH]; simpl; intros Hnd Ha Hb Hf; [contradiction|].
  inversion Hnd as [|? ? Hnotin Hnd']; subst.
  destruct Ha as [<- | Ha], Hb as [<- | Hb]; auto.
  - exfalso. apply Hnotin. rewrite Hf. now apply in_map.
  - exfalso. apply Hnotin. rewrite <- Hf. now apply in_map.
Qed.

Lemma merged_row_of_key (rd : RaceData) (k : string) :
  NoDup (map Abbreviation (quali_results rd)) ->
  NoDup (map Abbreviation (race_results rd)) ->
  In k (map Abbreviation (quali_results rd)
        ++ map Abbreviation (race_results rd)) ->
  exists oq or,
    In (k, oq, or)
       (merge_outer q_Abbreviation r_Abbreviation
          (make_quali_df (quali_results rd)) (make_race_df (race_results rd))).
Proof.
  intros Hq Hr Hk.
  assert (Hcol : In k (map (fun m => fst (fst m))
                           (merge_outer q_Abbreviation r_Abbreviation
                              (make_quali_df (quali_results rd))
                              (make_race_df (race_results rd))))).
  { rewrite merge_outer_keys.
    - rewrite make_quali_df_keys, make_race_df_keys.
      now apply unique_keys_In.
    - now rewrite make_quali_df_keys.
    - now rewrite make_race_df_keys. }
  apply in_map_iff in Hcol as ([[k' oq] or] & Hk' & Hin).
  simpl in Hk'. subst k'. now exists oq, or.
Qed.

(** X1: each session's values reach the combined frame: the row of a driver
    has the position, team and best time of the driver's qualifying row,
    and the position, points and status of the driver's race row. *)
Theorem combined_rows_carry_session_values (rd : RaceData) :
  NoDup (map Abbreviation (quali_results rd)) ->
  NoDup (map Abbreviation (race_results rd)) ->
  exists out,
    create_combined_dataframe (Some rd) = Some out
    /\ (forall q,
           In q (quali_results rd) ->
           exists row,
             In row out /\ driver row = Abbreviation q
             /\ quali_position row = Position q /\ team row = TeamName q
             /\ quali_time row = first_non_null [Q3 q; Q2 q; Q1 q])
    /\ (forall r,
           In r (race_results rd) ->
           exists row,
             In row out /\ driver row = Abbreviation r
             /\ race_position row = Position r /\ points row = Points r
             /\ status row = Status r).
Proof.
  intros Hq Hr. eexists. split; [reflexivity|]. split.
  - intros q Hin.
    destruct (merged_row_of_key rd (Abbreviation q) Hq Hr) as (oq & or & Hm).
    { apply in_or_app. left. now apply in_map. }
    exists (combined_row (race_info rd) (Abbreviation q, oq, or)).
    split; [now apply in_map|].
    apply merge_outer_sides in Hm as (Hleft & _).
    destruct oq as [a|].
    + destruct Hleft as (Ha & Hk).
      rewrite make_quali_df_rowwise in Ha.
      apply in_map_iff in Ha as (q' & <- & Hq').
      simpl in Hk.
      assert (q' = q) as -> by
        (eapply NoDup_map_injective; [exact Hq | assumption..]).
      simpl. repeat split. destruct (Q3 q), (Q2 q), (Q1 q); reflexivity.
    + exfalso. apply Hleft. rewrite make_quali_df_keys. now apply in_map.
  - intros r Hin.
    destruct (merged_row_of_key rd (Abbreviation r) Hq Hr) as (oq & or & Hm).
    { apply in_or_app. right. now apply in_map. }
    exists (combined_row (race_info rd) (Abbreviation r, oq, or)).
    split; [now apply in_map|].
    apply merge_outer_sides in Hm as (_ & Hright).
    destruct or as [b|].
    + destruct Hright as (Hb & Hk).
      unfold make_race_df in Hb.
      apply in_map_iff in Hb as (r' & <- & Hr').
      simpl in Hk.
      assert (r' = r) as -> by
        (eapply NoDup_map_injective; [exact Hr | assumption..]).
      simpl. now repeat split.
    + exfalso. apply Hright. rewrite make_race_df_keys. now apply in_map.
Qed.

Lemma combined_rows_carry_session_values_witness :
  NoDup (map Abbreviation (quali_results Examples.weekend))
  /\ NoDup (map Abbreviation (race_results Examples.weekend))
  /\ exists out,
       create_combined_dataframe (Some Examples.weekend) = Some out
       /\ (forall q,
              In q (quali_results Examples.weekend) ->
              exists row,
                In row out /\ driver row = Abbreviation q
                /\ quali_position row = Position q /\ team row = TeamName q
                /\ quali_time row = first_non_null [Q3 q; Q2 q; Q1 q])
       /\ (forall r,
              In r (race_results Examples.weekend) ->
              exists row,
                In row out /\ driver row = Abbreviation r
                /\ race_position row = Position r /\ points row = Points r
                /\ status row = Status r).
Proof.
  assert (Hq : NoDup (map Abbreviation (quali_results Examples.weekend)))
    by (apply NoDup_strings_by_count; reflexivity).
  assert (Hr : NoDup (map Abbreviation (race_results Examples.weekend)))
    by (apply NoDup_strings_by_count; reflexivity).
  split; [exact Hq | split; [exact Hr |]].
  exact (combined_rows_carry_session_values Examples.weekend Hq Hr).
Defined.

Section MainBlockFacts.
Variable get_session : Z -> string -> string -> Exc Session.

Lemma collect_loop_cons (race : string) (rest : list string)
    (acc : list (list CombinedRow)) :
  collect_loop get_session (race :: rest) acc
  = (race_data <- collect_race_data get_session 2024%Z race ;;
     match race_data with
     | Some _ =>
         match create_combined_dataframe race_data with
         | Some combined_df =>
             collect_loop get_session rest (acc ++ [combined_df])
         | None => collect_loop get_session rest acc
         end
     | None => collect_loop get_session rest acc
     end).
Proof. reflexivity. Qed.

Lemma collect_loop_frames (races : list string) :
  Forall (fun race => fetch_sessions get_session 2024%Z race
                      <> Raised KeyboardInterrupt) races ->
  forall acc,
    collect_loop get_session races acc
    = Returned (acc ++ fetched_combined get_session races).
Proof.
  induction 1 as [|race rest Hrace _ IH]; intros acc.
  - simpl. now rewrite app_nil_r.
  - rewrite collect_loop_cons, collect_race_data_outcome.
    unfold fetched_combined. cbn [flat_map]. fold (fetched_combined get_session rest).
    destruct (fetch_sessions get_session 2024%Z race)
      as [rd | [msg|]]; [| |congruence].
    + cbn [bind].
      destruct (create_combined_dataframe (Some rd)) as [df|].
      * rewrite IH, <- app_assoc. reflexivity.
      * apply IH.
    + cbn [bind]. apply IH.
Qed.
End MainBlockFacts.

(** X2: the main block of [data_collection.py]: when the connection test
    fails nothing is collected; when it passes and the failures of the
    fetches are exceptions of class [Exception], the dataset saved is made
    of the frames of the events fetched, in order. *)
Theorem main_block_dataset
    (get_session : Z -> string -> string -> Exc Session)
    (races : list string) :
  Forall (fun race => fetch_sessions get_session 2024%Z race
                      <> Raised KeyboardInterrupt) races ->
  main_on get_session races
  = match get_session 2024%Z "Bahrain" "R" with
    | Returned _ =>
        Returned match fetched_combined get_session races with
                 | [] => None
                 | f :: fs => Some (concat (f :: fs))
                 end
    | Raised (Exception _) => Returned None
    | Raised KeyboardInterrupt => Raised KeyboardInterrupt
    end.
Proof.
  intros H. unfold main_on, test_fastf1_connection.
  destruct (get_session 2024%Z "Bahrain" "R") as [race | [msg|]];
    cbn [bind try_except_Exception]; try reflexivity.
  rewrite (collect_loop_frames get_session races H). cbn [bind app].
  destruct (fetched_combined get_session races); reflexivity.
Qed.

Lemma main_block_dataset_witness :
  Forall (fun race => fetch_sessions Examples.without_australia 2024%Z race
                      <> Raised KeyboardInterrupt) races
  /\ option_map (map (fun r => (race r, driver r)))
       match main Examples.without_australia with
       | Returned dataset => dataset
       | Raised _ => None
       end
     = Some [("Bahrain", "VER"); ("Saudi Arabia", "VER");
             ("Japan", "VER"); ("China", "VER")].
Proof.
  assert (H : Forall (fun race =>
                        fetch_sessions Examples.without_australia 2024%Z race
                        <> Raised KeyboardInterrupt) races)
    by (repeat constructor; discriminate).
  split; [exact H|].
  unfold main.
  rewrite (main_block_dataset Examples.without_australia races H).
  reflexivity.
Defined.

(* ================================================================== *)
(** ** Properties of the rest of the code *)
(* ================================================================== *)

(** *** Bounds on the statistics *)

Section SumsOfProducts.
Local Open Scope Z_scope.

Lemma Zsum_cons (x : Z) (l : list Z) : Zsum (x :: l) = (x + Zsum l)%Z.
Proof. reflexivity. Qed.

Lemma cross_terms_nonneg (a b : Z) (ps : list (Z * Z)) :
  (0 <= a * a * Zsum (map (fun p => snd p * snd p) ps)
        - 2 * a * b * Zsum (map (fun p => fst p * snd p) ps)
        + b * b * Zsum (map (fun p => fst p * fst p) ps))%Z.
Proof.
  induction ps as [|[x y] ps IH]; [simpl; lia|].
  rewrite !map_cons, !Zsum_cons. cbn [fst snd].
  pose proof (Z.square_nonneg (a * y - b * x)). nia.
Qed.

Lemma cauchy_schwarz (ps : list (Z * Z)) :
  (Zsum (map (fun p => fst p * snd p) ps)
   * Zsum (map (fun p => fst p * snd p) ps)
   <= Zsum (map (fun p => fst p * fst p) ps)
      * Zsum (map (fun p => snd p * snd p) ps))%Z.
Proof.
  induction ps as [|[x y] ps IH]; [simpl; lia|].
  rewrite !map_cons, !Zsum_cons. cbn [fst snd].
  pose proof (cross_terms_nonneg x y ps). nia.
Qed.

Lemma centred_products (c s t : Z) (ps : list (Z * Z)) :
  Zsum (map (fun p => (c * fst p - s) * (c * snd p - t)) ps)
  = (c * c * Zsum (map (fun p => fst p * snd p) ps)
     - c * t * Zsum (map fst ps) - c * s * Zsum (map snd ps)
     + Z.of_nat (length ps) * s * t)%Z.
Proof.
  induction ps as [|[x y] ps IH]; [simpl; ring|].
  rewrite !map_cons, !Zsum_cons. cbn [fst snd length].
  rewrite IH, Nat2Z.inj_succ. ring.
Qed.

Lemma Zsum_map_pairs (f : Z -> Z -> Z) (g : Z -> Z) (h : Z * Z -> Z)
    (ps : list (Z * Z)) :
  (forall p, h p = f (fst p) (snd p)) ->
  Zsum (map h ps) = Zsum (map (fun p => f (fst p) (snd p)) ps).
Proof.
  intros H. f_equal. apply map_ext. exact H.
Qed.

(** The covariance term of Pearson's r is bounded by the two variance
    terms. *)
Lemma covariance_bound (ps : list (Z * Z)) :
  let n := Z.of_nat (length ps) in
  let sx := Zsum (map fst ps) in
  let sy := Zsum (map snd ps) in
  let sxx := Zsum (map (fun x => x * x) (map fst ps)) in
  let syy := Zsum (map (fun y => y * y) (map snd ps)) in
  let sxy := Zsum (map (fun p => fst p * snd p) ps) in
  ((n * sxy - sx * sy) * (n * sxy - sx * sy)
   <= (n * sxx - sx * sx) * (n * syy - sy * sy))%Z.
Proof.
  intros n sx sy sxx syy sxy.
  destruct ps as [|p0 ps']; [reflexivity|].
  set (ps := p0 :: ps') in *.
  assert (Hn : (0 < n)%Z) by (unfold n, ps; simpl length; lia).
  pose proof (cauchy_schwarz
                (map (fun p => (n * fst p - sx, n * snd p - sy)%Z) ps)) as CS.
  rewrite !map_map in CS. cbn [fst snd] in CS.
  pose proof (centred_products n sx sy ps) as Hxy.
  pose proof (centred_products n sx sx (map (fun p => (fst p, fst p)) ps))
    as Hxx.
  pose proof (centred_products n sy sy (map (fun p => (snd p, snd p)) ps))
    as Hyy.
  rewrite !map_map, !length_map in Hxx, Hyy. cbn [fst snd] in Hxx, Hyy.
  fold n sx sy sxy in Hxy.
  assert (Exx : Zsum (map (fun p : Z * Z => (fst p * fst p)%Z) ps) = sxx)
    by (unfold sxx; now rewrite map_map).
  assert (Eyy : Zsum (map (fun p : Z * Z => (snd p * snd p)%Z) ps) = syy)
    by (unfold syy; now rewrite map_map).
  rewrite Exx in Hxx. rewrite Eyy in Hyy.
  change (Zsum (map (fun x : Z * Z => fst x) ps)) with sx in Hxx.
  change (Zsum (map (fun x : Z * Z => snd x) ps)) with sy in Hyy.
  fold n in Hxx, Hyy.
  rewrite Hxy, Hxx, Hyy in CS.
  assert (CS' : (n * n * ((n * sxy - sx * sy) * (n * sxy - sx * sy))
                 <= n * n * ((n * sxx - sx * sx) * (n * syy - sy * sy)))%Z)
    by (ring_simplify; ring_simplify in CS; lia).
  apply Z.mul_le_mono_pos_l in CS'; [exact CS' | nia].
Qed.
End SumsOfProducts.

Lemma pearson_in_range (ps : list (Z * Z)) (r : R) :
  pearson ps = Some r -> (-1 <= r <= 1)%R.
Proof.
  unfold pearson. pose proof (covariance_bound ps) as Hb. cbv zeta in Hb.
  set (cov := (Z.of_nat (length ps) * Zsum (map (fun p => fst p * snd p) ps)
               - Zsum (map fst ps) * Zsum (map snd ps))%Z) in *.
  set (d := ((Z.of_nat (length ps)
              * Zsum (map (fun x => x * x) (map fst ps))
              - Zsum (map fst ps) * Zsum (map fst ps))
             * (Z.of_nat (length ps)
                * Zsum (map (fun y => y * y) (map snd ps))
                - Zsum (map snd ps) * Zsum (map snd ps)))%Z) in *.
  destruct (d =? 0)%Z eqn:E; [discriminate|].
  intros H. injection H as <-.
  apply Z.eqb_neq in E.
  assert (Hd : (0 < d)%Z) by (pose proof (Z.square_nonneg cov); nia).
  assert (Hs : (0 < sqrt (IZR d))%R) by (apply sqrt_lt_R0, IZR_lt; exact Hd).
  assert (Habs : (Rabs (IZR cov) <= sqrt (IZR d))%R).
  { rewrite <- sqrt_Rsqr_abs. apply sqrt_le_1_alt.
    unfold Rsqr. rewrite <- mult_IZR. apply IZR_le. exact Hb. }
  pose proof (Rle_abs (IZR cov)) as Hhi.
  pose proof (Rle_abs (- IZR cov)) as Hlo. rewrite Rabs_Ropp in Hlo.
  split.
  - apply Rmult_le_reg_r with (sqrt (IZR d)); [exact Hs|].
    unfold Rdiv. rewrite Rmult_assoc, Rinv_l; lra.
  - apply Rmult_le_reg_r with (sqrt (IZR d)); [exact Hs|].
    unfold Rdiv. rewrite Rmult_assoc, Rinv_l; lra.
Qed.

Lemma pearson_of_one_pair (p : Z * Z) : pearson [p] = None.
Proof.
  unfold pearson. destruct p as [x y]. cbn [length map fst snd Zsum fold_right].
  replace ((Z.of_nat 1 * (x * x + 0) - (x + 0) * (x + 0))
           * (Z.of_nat 1 * (y * y + 0) - (y + 0) * (y + 0)))%Z with 0%Z
    by (change (Z.of_nat 1) with 1%Z; ring).
  reflexivity.
Qed.

Lemma position_pairs_length (df : list CombinedRow) :
  length (position_pairs df) = length (filter both_positions df).
Proof.
  unfold position_pairs, both_positions.
  induction df as [|r df IH]; simpl; [reflexivity|].
  destruct (quali_position r), (race_position r); simpl; now rewrite IH.
Qed.

Lemma dropna_cells_length {A : Type} (s : Series A) :
  length (dropna_cells s) <= length s.
Proof.
  unfold dropna_cells. induction s as [|[v|] s IH]; simpl; lia.
Qed.

Lemma std_of_few (s : Series Z) : length s <= 1 -> std s = None.
Proof.
  intros H. unfold std, std_values.
  pose proof (dropna_cells_length s) as Hl.
  destruct (Z.of_nat (length (dropna_cells s)) <? 2)%Z eqn:E;
    [reflexivity|].
  apply Z.ltb_ge in E. lia.
Qed.

Lemma analysis_sample_not_empty (df : list CombinedRow)
    (stats : Stats) (clean_df : list CombinedRow) :
  analyze_qualifying_performance df = Some (stats, clean_df) ->
  clean_df <> [].
Proof.
  unfold analyze_qualifying_performance.
  destruct (dropna_positions df) as [|r clean]; [discriminate|].
  intros H. injection H as _ <-. discriminate.
Qed.

(** X3: when [analyze_qualifying_performance] returns statistics, the
    sample is not empty and not larger than the dataset, the correlation
    (when it is a number) lies between -1 and 1 and its square between 0
    and 1, and with a single complete row correlation, its square and the
    standard deviation are all NaN; it returns none exactly when no row
    has both positions. *)
Theorem analysis_statistics_bounds (df : list CombinedRow) :
  match analyze_qualifying_performance df with
  | Some (stats, clean_df) =>
      1 <= sample_size stats <= length df
      /\ length clean_df = sample_size stats
      /\ (forall r, correlation stats = Some r -> (-1 <= r <= 1)%R)
      /\ (forall q, r_squared stats = Some q -> (0 <= q <= 1)%R)
      /\ (sample_size stats = 1 ->
          correlation stats = None /\ r_squared stats = None
          /\ std_position_change stats = None)
  | None =>
      forall r, In r df -> quali_position r = None \/ race_position r = None
  end
  /\ ((forall r, In r df ->
                 quali_position r = None \/ race_position r = None) ->
      analyze_qualifying_performance df = None).
Proof.
  pose proof (analyze_qualifying_performance_spec df) as Hspec.
  pose proof (analysis_sample_not_empty df) as Hne.
  split.
  2:{ intros Hall.
      destruct (analyze_qualifying_performance df) as [[stats clean]|];
        [|reflexivity].
      exfalso. destruct Hspec as (Hclean & _).
      specialize (Hne stats clean eq_refl).
      destruct clean as [|r clean']; [now apply Hne|].
      assert (Hin : In r (filter both_positions df))
        by (rewrite <- Hclean; now left).
      apply filter_In in Hin as (Hin & Hb). unfold both_positions in Hb.
      destruct (Hall r Hin) as [H | H]; rewrite H in Hb;
        [|destruct (quali_position r)]; discriminate Hb. }
  destruct (analyze_qualifying_performance df) as [[stats clean]|].
  - destruct Hspec as (Hclean & Hsize & Hcorr & Hsq & _ & Hstd).
    specialize (Hne stats clean eq_refl).
    assert (Hlen : length clean = sample_size stats)
      by (now rewrite Hsize, Hclean).
    split; [|split; [|split; [|split]]].
    + split.
      * rewrite <- Hlen. destruct clean; [contradiction | simpl; lia].
      * rewrite Hsize. apply filter_length_le.
    + exact Hlen.
    + intros r Hr. rewrite Hcorr in Hr. now apply pearson_in_range in Hr.
    + intros q Hq. rewrite Hsq in Hq.
      destruct (pearson (position_pairs df)) as [r|] eqn:Er; [|discriminate].
      injection Hq as <-. apply pearson_in_range in Er. nra.
    + intros Hone.
      assert (Hpairs : length (position_pairs df) = 1)
        by (rewrite position_pairs_length, <- Hsize; exact Hone).
      assert (Hp : pearson (position_pairs df) = None).
      { destruct (position_pairs df) as [|p [|p' l]]; try discriminate.
        apply pearson_of_one_pair. }
      rewrite Hcorr, Hsq, Hp. repeat split.
      rewrite Hstd. apply std_of_few. rewrite length_map, <- Hsize. lia.
  - intros r Hr.
    assert (Hb : both_positions r = false).
    { destruct (both_positions r) eqn:Eb; [|reflexivity].
      assert (Hin : In r (filter both_positions df))
        by (apply filter_In; split; assumption).
      rewrite Hspec in Hin. contradiction. }
    unfold both_positions in Hb.
    destruct (quali_position r); [|now left].
    destruct (race_position r); [discriminate | now right].
Qed.

(** *** The dashboard's metrics and the pipeline's statistics *)

Lemma dataset_position_change (events : list RaceData) :
  Forall (fun row => position_change row
                     = sub_cell (race_position row) (quali_position row))
         (dataset_of events).
Proof.
  unfold dataset_of. apply Forall_flat_map, Forall_forall. intros rd _.
  simpl. apply Forall_forall. intros row Hrow.
  apply in_map_iff in Hrow as ([[k q] r] & <- & _). reflexivity.
Qed.

Lemma clean_position_changes (df : list CombinedRow) :
  Forall (fun row => position_change row
                     = sub_cell (race_position row) (quali_position row)) df ->
  dropna_cells (map position_change (filter both_positions df))
  = dropna_cells
      (map (fun r => sub_cell (race_position r) (quali_position r)) df).
Proof.
  rewrite !dropna_cells_map.
  induction 1 as [|r df Hr _ IH]; [reflexivity|].
  cbn [filter flat_map]. unfold both_positions at 1.
  destruct (quali_position r) as [q|] eqn:Eq;
    destruct (race_position r) as [p|] eqn:Ep;
    cbn [flat_map sub_cell app]; rewrite ?Hr; cbn [app]; rewrite ?IH;
    reflexivity.
Qed.

Lemma no_complete_row (df : list CombinedRow) :
  filter both_positions df = [] ->
  forall r, In r df -> quali_position r = None \/ race_position r = None.
Proof.
  intros Hnil r Hr.
  assert (Hb : both_positions r = false).
  { destruct (both_positions r) eqn:Eb; [|reflexivity].
    assert (Hin : In r (filter both_positions df))
      by (apply filter_In; split; assumption).
    rewrite Hnil in Hin. contradiction. }
  unfold both_positions in Hb.
  destruct (quali_position r); [|now left].
  destruct (race_position r); [discriminate | now right].
Qed.

Lemma position_changes_of_none (df : list CombinedRow) :
  filter both_positions df = [] ->
  dropna_cells
    (map (fun r => sub_cell (race_position r) (quali_position r)) df) = [].
Proof.
  intros Hnil. rewrite dropna_cells_map. apply flat_map_nil_on.
  apply Forall_forall. intros r Hr.
  destruct (no_complete_row df Hnil r Hr) as [-> | ->]; [|reflexivity].
  destruct (race_position r); reflexivity.
Qed.

(** X4: on a dataset made of combined frames, the correlation, its
    square and the average position change the dashboard computes are the
    correlation, its square and the mean position change of
    [analyze_qualifying_performance]; when no row has both positions the
    dashboard's position metrics are all NaN. *)
Theorem dashboard_metrics_agree_with_analysis (events : list RaceData) :
  match analyze_qualifying_performance (dataset_of events) with
  | Some (stats, _) =>
      exists m pm,
        Dashboard.calculate_metrics (dataset_of events) = Some m
        /\ Dashboard.position_metrics m = Some pm
        /\ Dashboard.qualifying_correlation pm = correlation stats
        /\ Dashboard.metrics_r_squared pm = r_squared stats
        /\ Dashboard.avg_position_change pm = mean_position_change stats
  | None =>
      forall m pm,
        Dashboard.calculate_metrics (dataset_of events) = Some m ->
        Dashboard.position_metrics m = Some pm ->
        Dashboard.qualifying_correlation pm = None
        /\ Dashboard.metrics_r_squared pm = None
        /\ Dashboard.avg_position_change pm = None
        /\ Dashboard.biggest_gain pm = None
        /\ Dashboard.biggest_loss pm = None
  end.
Proof.
  pose proof (dataset_position_change events) as Hpc.
  set (df := dataset_of events) in *.
  pose proof (analyze_qualifying_performance_spec df) as Hspec.
  pose proof (analysis_sample_not_empty df) as Hne.
  destruct (analyze_qualifying_performance df) as [[stats clean]|].
  - destruct Hspec as (Hclean & _ & Hcorr & Hsq & Hmean & _).
    specialize (Hne stats clean eq_refl).
    assert (Hdf : df <> []).
    { intros E. apply Hne. rewrite Hclean, E. reflexivity. }
    rewrite (calculate_metrics_nonempty df Hdf).
    do 2 eexists. split; [reflexivity|]. split; [reflexivity|].
    cbn [Dashboard.qualifying_correlation Dashboard.metrics_r_squared
         Dashboard.avg_position_change].
    rewrite corr_positions, Hcorr, Hsq, Hmean. repeat split.
    unfold mean. now rewrite (clean_position_changes df Hpc).
  - intros m pm Hm Hpm.
    destruct df as [|r0 df'] eqn:Edf; [discriminate|].
    rewrite <- Edf in *.
    assert (Hdf : df <> []) by (rewrite Edf; discriminate).
    rewrite (calculate_metrics_nonempty df Hdf) in Hm.
    injection Hm as <-. cbn [Dashboard.position_metrics] in Hpm.
    injection Hpm as <-.
    cbn [Dashboard.qualifying_correlation Dashboard.metrics_r_squared
         Dashboard.avg_position_change
         Dashboard.biggest_gain Dashboard.biggest_loss].
    unfold mean. rewrite (position_changes_of_none df Hspec).
    rewrite corr_positions.
    assert (Hp : position_pairs df = []).
    { apply length_zero_iff_nil.
      now rewrite position_pairs_length, Hspec. }
    rewrite Hp. repeat split.
Qed.

(** *** Extremes of the position change *)

Lemma min_values_least (l : list Z) :
  match min_values l with
  | Some m => In m l /\ forall y, In y l -> (m <= y)%Z
  | None => l = []
  end.
Proof.
  destruct l as [|x t]; [reflexivity|]. cbn [min_values].
  induction t as [|z t IH]; cbn [fold_right].
  - split; [now left|]. intros y [<- | []]. lia.
  - destruct IH as (Hin & Hle). split.
    + destruct (Z.min_spec z (fold_right Z.min x t)) as [[_ ->] | [_ ->]].
      * right. now left.
      * destruct Hin as [<- | Hin]; [now left | right; now right].
    + intros y Hy.
      assert (Hy' : z = y \/ In y (x :: t)) by (simpl in *; tauto).
      destruct Hy' as [<- | Hy']; [lia|].
      specialize (Hle y Hy'). lia.
Qed.

Lemma max_values_greatest (l : list Z) :
  match max_values l with
  | Some m => In m l /\ forall y, In y l -> (y <= m)%Z
  | None => l = []
  end.
Proof.
  destruct l as [|x t]; [reflexivity|]. cbn [max_values].
  induction t as [|z t IH]; cbn [fold_right].
  - split; [now left|]. intros y [<- | []]. lia.
  - destruct IH as (Hin & Hle). split.
    + destruct (Z.max_spec z (fold_right Z.max x t)) as [[_ ->] | [_ ->]].
      * destruct Hin as [<- | Hin]; [now left | right; now right].
      * right. now left.
    + intros y Hy.
      assert (Hy' : z = y \/ In y (x :: t)) by (simpl in *; tauto).
      destruct Hy' as [<- | Hy']; [lia|].
      specialize (Hle y Hy'). lia.
Qed.

Lemma Zsum_between (lo hi : Z) (l : list Z) :
  (forall y, In y l -> (lo <= y <= hi)%Z) ->
  (Z.of_nat (length l) * lo <= Zsum l <= Z.of_nat (length l) * hi)%Z.
Proof.
  induction l as [|x t IH]; intros H; [simpl; lia|].
  rewrite Zsum_cons. cbn [length]. rewrite Nat2Z.inj_succ.
  pose proof (H x (or_introl eq_refl)).
  assert (Ht : forall y, In y t -> (lo <= y <= hi)%Z)
    by (intros y Hy; apply H; now right).
  specialize (IH Ht). lia.
Qed.

Lemma mean_values_between (lo hi : Z) (l : list Z) (a : Q) :
  (forall y, In y l -> (lo <= y <= hi)%Z) ->
  mean_values l = Some a ->
  (inject_Z lo <= a <= inject_Z hi)%Q.
Proof.
  intros H Hmean. pose proof (Zsum_between lo hi l H) as Hsum.
  destruct l as [|x t]; [discriminate|].
  cbn [mean_values] in Hmean. injection Hmean as <-.
  assert (Hn : Z.pos (Pos.of_nat (length (x :: t)))
               = Z.of_nat (length (x :: t)))
    by (simpl length; now rewrite <- Pos.of_nat_succ).
  split.
  - rewrite (Qred_correct (Zsum (x :: t) # Pos.of_nat (length (x :: t)))).
    unfold Qle. cbn [Qnum Qden inject_Z]. rewrite Hn. lia.
  - rewrite (Qred_correct (Zsum (x :: t) # Pos.of_nat (length (x :: t)))).
    unfold Qle. cbn [Qnum Qden inject_Z]. rewrite Hn. lia.
Qed.

(** X5: on a non-empty dataset the dashboard's biggest gain, average
    position change and biggest loss are either all NaN, when no row has
    both positions, or all numbers with
    biggest gain <= average <= biggest loss, the two extremes being the
    position changes of rows of the dataset. *)
Theorem position_change_extremes (df : list CombinedRow) :
  match Dashboard.calculate_metrics df with
  | Some m =>
      exists pm,
        Dashboard.position_metrics m = Some pm
        /\ match Dashboard.biggest_gain pm, Dashboard.avg_position_change pm,
                 Dashboard.biggest_loss pm with
           | Some g, Some a, Some l =>
               (inject_Z g <= a <= inject_Z l)%Q
               /\ (exists r, In r df
                             /\ race_minus_qualifying (quali_position r)
                                                      (race_position r)
                                = Some g)
               /\ (exists r, In r df
                             /\ race_minus_qualifying (quali_position r)
                                                      (race_position r)
                                = Some l)
           | None, None, None =>
               forall r, In r df ->
                         quali_position r = None \/ race_position r = None
           | _, _, _ => False
           end
  | None => df = []
  end.
Proof.
  destruct df as [|r0 df'] eqn:Edf; [reflexivity|]. rewrite <- Edf.
  assert (Hdf : df <> []) by (rewrite Edf; discriminate).
  rewrite (calculate_metrics_nonempty df Hdf).
  eexists. split; [reflexivity|].
  cbn [Dashboard.biggest_gain Dashboard.avg_position_change
       Dashboard.biggest_loss].
  unfold mean.
  set (changes := dropna_cells
                    (map (fun r => sub_cell (race_position r)
                                            (quali_position r)) df)).
  assert (Hsrc : forall c, In c changes ->
             exists r, In r df
                       /\ race_minus_qualifying (quali_position r)
                                                (race_position r) = Some c).
  { intros c Hc. unfold changes in Hc.
    apply dropna_cells_In, in_map_iff in Hc as (r & Hr & Hin).
    exists r. split; [exact Hin|]. rewrite <- Hr.
    destruct (quali_position r), (race_position r); reflexivity. }
  pose proof (min_values_least changes) as Hmin.
  pose proof (max_values_greatest changes) as Hmax.
  destruct changes as [|c cs] eqn:Ec.
  - cbn [min_values max_values mean_values].
    intros r Hr.
    destruct (quali_position r) as [q|] eqn:Eq; [|now left].
    destruct (race_position r) as [p|] eqn:Ep; [|now right].
    exfalso.
    assert (Hin : In (p - q)%Z changes).
    { unfold changes. apply dropna_cells_In, in_map_iff.
      exists r. split; [now rewrite Eq, Ep | exact Hr]. }
    rewrite Ec in Hin. contradiction.
  - rewrite <- Ec in *.
    destruct (min_values changes) as [g|] eqn:Eg;
      [|rewrite Hmin in Ec; discriminate].
    destruct (max_values changes) as [l|] eqn:El;
      [|rewrite Hmax in Ec; discriminate].
    destruct (mean_values changes) as [a|] eqn:Ea;
      [|rewrite Ec in Ea; discriminate].
    destruct Hmin as (Hgin & Hgle), Hmax as (Hlin & Hlge).
    split; [|split; [now apply Hsrc | now apply Hsrc]].
    apply (mean_values_between g l changes a); [|exact Ea].
    intros y Hy. split; [now apply Hgle | now apply Hlge].
Qed.

(** *** The comparison of [analyze_sample_data] *)

Lemma existsb_eqb_In (d : string) (l : list string) :
  existsb (String.eqb d) l = true <-> In d l.
Proof.
  rewrite existsb_exists. split.
  - intros (x & Hx & E). apply String.eqb_eq in E. now subst.
  - intros H. exists d. split; [exact H | apply String.eqb_refl].
Qed.

Lemma comparison_cons (a : ResultRow) (quali_results race_results : list ResultRow) :
  FastF1Collector.comparison (a :: quali_results) race_results
  = map (fun b =>
           {| FastF1Collector.QualiPos := Position a;
              FastF1Collector.Driver := Abbreviation a;
              FastF1Collector.RacePos := Position b;
              FastF1Collector.PositionChange :=
                sub_cell (Position a) (Position b) |})
        (rows_with Abbreviation (Abbreviation a) race_results)
    ++ FastF1Collector.comparison quali_results race_results.
Proof.
  unfold FastF1Collector.comparison, merge_inner.
  cbn [flat_map]. rewrite map_app, map_map. reflexivity.
Qed.

Lemma comparison_drivers (quali_results race_results : list ResultRow) :
  NoDup (map Abbreviation race_results) ->
  map FastF1Collector.Driver
      (FastF1Collector.comparison quali_results race_results)
  = filter (fun d => existsb (String.eqb d) (map Abbreviation race_results))
           (map Abbreviation quali_results).
Proof.
  intros Hr. induction quali_results as [|a l IH]; [reflexivity|].
  rewrite comparison_cons, map_app, map_map, IH. cbn [map filter].
  destruct (rows_with_distinct Abbreviation (Abbreviation a) race_results Hr)
    as [E | (b & E)]; rewrite E.
  - apply rows_with_nil in E.
    destruct (existsb (String.eqb (Abbreviation a))
                      (map Abbreviation race_results)) eqn:Ex;
      [|reflexivity].
    apply existsb_eqb_In in Ex. contradiction.
  - assert (Hin : In (Abbreviation a) (map Abbreviation race_results)).
    { assert (Hb : In b (rows_with Abbreviation (Abbreviation a) race_results))
        by (rewrite E; now left).
      apply rows_with_In in Hb as (Hb & Hk). rewrite <- Hk.
      now apply in_map. }
    apply existsb_eqb_In in Hin. rewrite Hin. reflexivity.
Qed.

(** X6: the comparison of [analyze_sample_data] is an inner merge: with
    distinct driver codes in each session its drivers are the qualifying
    drivers that also raced, in qualifying order, so it has at most
    min(|qualifying|, |race|) rows and a driver of one session only has
    no row; each row holds the two positions of its driver. *)
Theorem comparison_keeps_common_drivers
    (quali_results race_results : list ResultRow) :
  NoDup (map Abbreviation quali_results) ->
  NoDup (map Abbreviation race_results) ->
  map FastF1Collector.Driver
      (FastF1Collector.comparison quali_results race_results)
  = filter (fun d => existsb (String.eqb d) (map Abbreviation race_results))
           (map Abbreviation quali_results)
  /\ length (FastF1Collector.comparison quali_results race_results)
     <= Nat.min (length quali_results) (length race_results)
  /\ Forall (fun row =>
               exists q r,
                 In q quali_results /\ In r race_results
                 /\ Abbreviation q = FastF1Collector.Driver row
                 /\ Abbreviation r = FastF1Collector.Driver row
                 /\ FastF1Collector.QualiPos row = Position q
                 /\ FastF1Collector.RacePos row = Position r)
            (FastF1Collector.comparison quali_results race_results).
Proof.
  intros Hq Hr.
  pose proof (comparison_drivers quali_results race_results Hr) as Hd.
  split; [exact Hd | split].
  - rewrite <- (length_map FastF1Collector.Driver), Hd.
    apply Nat.min_glb.
    + rewrite <- (length_map Abbreviation quali_results).
      apply filter_length_le.
    + rewrite <- (length_map Abbreviation race_results).
      apply NoDup_incl_length; [now apply NoDup_filter|].
      intros d Hin. apply filter_In in Hin as (_ & Hin).
      now apply existsb_eqb_In.
  - apply Forall_forall. intros row Hrow.
    unfold FastF1Collector.comparison in Hrow.
    apply in_map_iff in Hrow as ([[k q] r] & <- & Hm).
    unfold merge_inner in Hm. apply in_flat_map in Hm as (a & Ha & Hm).
    apply in_map_iff in Hm as (b & Heq & Hb). injection Heq as <- <- <-.
    apply rows_with_In in Hb as (Hb & Hk).
    exists a, b. now repeat split.
Qed.

Lemma comparison_keeps_common_drivers_witness :
  NoDup (map Abbreviation (quali_results Examples.weekend))
  /\ NoDup (map Abbreviation (race_results Examples.weekend))
  /\ map FastF1Collector.Driver
       (FastF1Collector.comparison (quali_results Examples.weekend)
                                   (race_results Examples.weekend))
     = ["VER"; "HAM"].
Proof.
  assert (Hq : NoDup (map Abbreviation (quali_results Examples.weekend)))
    by (apply NoDup_strings_by_count; reflexivity).
  assert (Hr : NoDup (map Abbreviation (race_results Examples.weekend)))
    by (apply NoDup_strings_by_count; reflexivity).
  split; [exact Hq | split; [exact Hr |]].
  destruct (comparison_keeps_common_drivers _ _ Hq Hr) as (Hd & _).
  rewrite Hd. reflexivity.
Defined.

(** *** The rows of the season dataset *)

Lemma fetch_sessions_info
    (get_session : Z -> string -> string -> Exc Session)
    (y : Z) (race_name : string) (rd : RaceData) :
  fetch_sessions get_session y race_name = Returned rd ->
  info_year (race_info rd) = y /\ info_race (race_info rd) = race_name.
Proof.
  unfold fetch_sessions.
  destruct (get_session y race_name "R") as [s1|]; [|discriminate].
  cbn [bind]. destruct (load s1); [|discriminate].
  cbn [bind]. destruct (get_session y race_name "Q") as [s2|]; [|discriminate].
  cbn [bind]. destruct (load s2); [|discriminate].
  cbn [bind]. intros H. injection H as <-. now split.
Qed.

Lemma season_loop_rows
    (get_session : Z -> string -> string -> Exc Session)
    (all : list (string * string)) (races : list (string * string)) :
  incl races all ->
  forall acc res,
    Day3.season_loop get_session races acc = Returned res ->
    Forall (Forall (fun row =>
                      year (Day3.base row) = 2024%Z
                      /\ In (race (Day3.base row), Day3.weather_condition row)
                            all)) acc ->
    Forall (Forall (fun row =>
                      year (Day3.base row) = 2024%Z
                      /\ In (race (Day3.base row), Day3.weather_condition row)
                            all)) res.
Proof.
  induction races as [|[race_name weather] rest IH]; intros Hincl acc res.
  - simpl. intros H Hacc. injection H as <-. exact Hacc.
  - rewrite season_loop_cons, collect_race_data_outcome.
    assert (Hrest : incl rest all)
      by (intros x Hx; apply Hincl; now right).
    destruct (fetch_sessions get_session 2024%Z race_name)
      as [rd | [msg|]] eqn:Efetch; cbn [bind]; [| |discriminate].
    + destruct (create_combined_dataframe (Some rd)) as [df|] eqn:Edf;
        [|now apply IH].
      intros H Hacc. apply (IH Hrest _ _ H).
      apply Forall_app. split; [exact Hacc|].
      constructor; [|constructor].
      apply fetch_sessions_info in Efetch as (Hy & Hn).
      simpl in Edf. injection Edf as <-.
      unfold Day3.with_weather. rewrite map_map.
      apply Forall_forall. intros row Hrow.
      apply in_map_iff in Hrow as (m & <- & _).
      cbn [Day3.base Day3.weather_condition].
      destruct (combined_row_metadata (race_info rd) m) as (Hyear & Hrace & _).
      rewrite Hyear, Hrace, Hy, Hn. split; [reflexivity|].
      apply Hincl. now left.
    + now apply IH.
Qed.

(** X7: every row of the dataset [collect_full_season_data] builds is a
    row of the season 2024 whose race is one of the requested races and
    whose weather condition is a label listed with that race. *)
Theorem season_rows_are_labelled
    (get_session : Z -> string -> string -> Exc Session)
    (races : list (string * string)) (dataset : list Day3.WeatherRow) :
  Day3.collect_season get_session races = Returned (Some dataset) ->
  Forall (fun row =>
            year (Day3.base row) = 2024%Z
            /\ In (race (Day3.base row), Day3.weather_condition row) races)
         dataset.
Proof.
  unfold Day3.collect_season. intros H.
  destruct (Day3.season_loop get_session races []) as [frames|] eqn:Eloop;
    [|discriminate].
  cbn [bind] in H.
  pose proof (season_loop_rows get_session races races (incl_refl _) [] frames
                Eloop (Forall_nil _)) as Hrows.
  destruct frames as [|f fs]; [discriminate|]. injection H as <-.
  change (Forall (fun row =>
                    year (Day3.base row) = 2024%Z
                    /\ In (race (Day3.base row), Day3.weather_condition row)
                          races)
                 (concat (f :: fs))).
  apply Forall_concat. exact Hrows.
Qed.

Lemma season_rows_are_labelled_witness :
  match Day3.collect_season Examples.without_australia Examples.five_events with
  | Returned (Some dataset) =>
      dataset <> []
      /\ Forall (fun row =>
                   year (Day3.base row) = 2024%Z
                   /\ In (race (Day3.base row), Day3.weather_condition row)
                         Examples.five_events)
                dataset
  | _ => False
  end.
Proof.
  destruct (Day3.collect_season Examples.without_australia Examples.five_events)
    as [[dataset|]|e] eqn:E.
  - split.
    + intros ->. vm_compute in E. discriminate.
    + exact (season_rows_are_labelled _ _ _ E).
  - vm_compute in E. discriminate.
  - vm_compute in E. discriminate.
Defined.

(** *** Groups by weather condition *)

Lemma unique_In (l : list string) (x : string) :
  In x (Frames.unique String.eqb l) <-> In x l.
Proof.
  induction l as [|a l IH]; simpl; [reflexivity|].
  rewrite filter_In, IH. split.
  - intros [-> | (H & _)]; auto.
  - intros [-> | H]; [now left|].
    destruct (String.eqb x a) eqn:E.
    + apply String.eqb_eq in E. now left.
    + right. split; [exact H | reflexivity].
Qed.

Lemma unique_NoDup (l : list string) : NoDup (Frames.unique String.eqb l).
Proof.
  induction l as [|a l IH]; simpl; constructor.
  - intros H. apply filter_In in H as (_ & H).
    now rewrite String.eqb_refl in H.
  - now apply NoDup_filter.
Qed.

Lemma unique_length_nodup (l : list string) :
  length (Frames.unique String.eqb l) = length (nodup string_dec l).
Proof.
  apply Permutation_length, NoDup_Permutation.
  - apply unique_NoDup.
  - apply NoDup_nodup.
  - intros x. now rewrite unique_In, nodup_In.
Qed.

Lemma indicator_sum (a : string) (keys : list string) :
  NoDup keys -> In a keys ->
  fold_right Nat.add 0
    (map (fun k => if String.eqb a k then 1 else 0) keys) = 1.
Proof.
  induction 1 as [|k keys Hnot _ IH]; [contradiction|].
  intros [-> | Hin]; cbn [map fold_right].
  - rewrite String.eqb_refl. f_equal.
    clear IH. induction keys as [|k' keys IH']; [reflexivity|].
    cbn [map fold_right].
    destruct (String.eqb a k') eqn:E.
    + apply String.eqb_eq in E. subst. exfalso. apply Hnot. now left.
    + apply IH'. intros H. apply Hnot. now right.
  - destruct (String.eqb a k) eqn:E.
    + apply String.eqb_eq in E. subst. contradiction.
    + now apply IH.
Qed.

Lemma sum_map_add {X : Type} (f g : X -> nat) (l : list X) :
  fold_right Nat.add 0 (map (fun x => f x + g x) l)
  = fold_right Nat.add 0 (map f l) + fold_right Nat.add 0 (map g l).
Proof.
  induction l as [|x l IH]; simpl; [reflexivity | rewrite IH; lia].
Qed.

(** The groups of a column partition the rows. *)
Lemma groups_partition {X : Type} (key : X -> string) (keys : list string)
    (l : list X) :
  NoDup keys ->
  (forall x, In x l -> In (key x) keys) ->
  fold_right Nat.add 0
    (map (fun k => length (filter (fun x => String.eqb (key x) k) l)) keys)
  = length l.
Proof.
  intros Hnd. induction l as [|x l IH]; intros Hkeys.
  - clear Hnd Hkeys. induction keys as [|k keys IHk]; [reflexivity|].
    exact IHk.
  - change (length (x :: l)) with (1 + length l).
    rewrite <- IH by (intros y Hy; apply Hkeys; now right).
    rewrite <- (indicator_sum (key x) keys Hnd) at 1
      by (apply Hkeys; now left).
    rewrite <- sum_map_add. f_equal. apply map_ext. intros k.
    cbn [filter]. destruct (String.eqb (key x) k); reflexivity.
Qed.

Lemma dropna_cells_all {X A : Type} (f : X -> A) (l : list X) :
  dropna_cells (map (fun x => Some (f x)) l) = map f l.
Proof.
  unfold dropna_cells. induction l as [|x l IH]; simpl; [reflexivity|].
  now rewrite IH.
Qed.

Lemma nunique_le {X : Type} (f : X -> option string) (l : list X) :
  nunique (map f l) <= length l.
Proof.
  unfold nunique. etransitivity; [apply nodup_length_le|].
  etransitivity; [apply dropna_cells_length|]. now rewrite length_map.
Qed.

Lemma condition_positions_rows (c : string) (df : list Day3.WeatherRow) :
  dropna_cells
    (map (fun r => quali_position (Day3.base r))
         (Day3Analysis.condition_rows c df))
  = condition_positions c df.
Proof.
  rewrite dropna_cells_map.
  unfold Day3Analysis.condition_rows, condition_positions.
  induction df as [|r df IH]; simpl; [reflexivity|].
  destruct (String.eqb (Day3.weather_condition r) c); simpl; now rewrite IH.
Qed.

(** X8: [weather_impact_analysis] has one entry per weather condition of
    the dataset; its row counts are positive and add up to the number of
    records, and each average is the arithmetic mean of the qualifying
    positions recorded under that condition.  In [create_summary_stats]
    the number of weather conditions is the number of those entries, and
    no count of distinct values exceeds the number of records. *)
Theorem weather_groups_partition (df : list Day3.WeatherRow) :
  NoDup (map fst (Day3Analysis.weather_impact_analysis df))
  /\ (forall c,
         In c (map fst (Day3Analysis.weather_impact_analysis df))
         <-> In c (map Day3.weather_condition df))
  /\ fold_right Nat.add 0
       (map (fun e => Day3Analysis.races (snd e))
            (Day3Analysis.weather_impact_analysis df))
     = Day3Analysis.total_records (Day3Analysis.create_summary_stats df)
  /\ Forall (fun e =>
               1 <= Day3Analysis.races (snd e)
               /\ Day3Analysis.avg_position (snd e)
                  = arithmetic_mean (condition_positions (fst e) df))
            (Day3Analysis.weather_impact_analysis df)
  /\ length (Day3Analysis.weather_impact_analysis df)
     = Day3Analysis.weather_conditions (Day3Analysis.create_summary_stats df)
  /\ Day3Analysis.unique_teams (Day3Analysis.create_summary_stats df)
     <= length df
  /\ Day3Analysis.unique_drivers (Day3Analysis.create_summary_stats df)
     <= length df
  /\ Day3Analysis.races_analyzed (Day3Analysis.create_summary_stats df)
     <= length df
  /\ Day3Analysis.weather_conditions (Day3Analysis.create_summary_stats df)
     <= length df.
Proof.
  assert (Hkeys : map fst (Day3Analysis.weather_impact_analysis df)
                  = Frames.unique String.eqb (map Day3.weather_condition df)).
  { unfold Day3Analysis.weather_impact_analysis.
    rewrite map_map. cbn [fst]. apply map_id. }
  split; [|split; [|split; [|split; [|split]]]].
  - rewrite Hkeys. apply unique_NoDup.
  - intros c. rewrite Hkeys. apply unique_In.
  - unfold Day3Analysis.weather_impact_analysis. rewrite map_map.
    cbn [snd Day3Analysis.races Day3Analysis.create_summary_stats
         Day3Analysis.total_records].
    unfold Day3Analysis.condition_rows.
    apply groups_partition; [apply unique_NoDup|].
    intros r Hr. apply unique_In. now apply in_map.
  - apply Forall_forall. intros e He.
    unfold Day3Analysis.weather_impact_analysis in He.
    apply in_map_iff in He as (c & <- & Hc).
    cbn [fst snd Day3Analysis.races Day3Analysis.avg_position]. split.
    + apply unique_In, in_map_iff in Hc as (r & Hr & Hin).
      assert (Hrow : In r (Day3Analysis.condition_rows c df)).
      { apply filter_In. split; [exact Hin|]. rewrite Hr.
        apply String.eqb_refl. }
      destruct (Day3Analysis.condition_rows c df); [contradiction|].
      simpl. lia.
    + unfold mean.
      now rewrite condition_positions_rows, mean_values_arithmetic.
  - unfold Day3Analysis.weather_impact_analysis. rewrite length_map.
    cbn [Day3Analysis.create_summary_stats Day3Analysis.weather_conditions].
    unfold nunique. rewrite dropna_cells_all. apply unique_length_nodup.
  - cbn [Day3Analysis.create_summary_stats Day3Analysis.unique_teams
         Day3Analysis.unique_drivers Day3Analysis.races_analyzed
         Day3Analysis.weather_conditions].
    repeat split; apply nunique_le.
Qed.

(** *** The teams listed first *)

Lemma value_le_total (a b : option Q) :
  value_le a b = true \/ value_le b a = true.
Proof.
  destruct a as [x|], b as [y|]; simpl; auto.
  rewrite !Qle_bool_iff. destruct (Qlt_le_dec x y) as [H | H]; auto.
  left. now apply Qlt_le_weak.
Qed.

Lemma value_le_trans (a b c : option Q) :
  value_le a b = true -> value_le b c = true -> value_le a c = true.
Proof.
  destruct a as [x|], b as [y|], c as [z|]; simpl; try discriminate; auto.
  rewrite !Qle_bool_iff. apply Qle_trans.
Qed.

Lemma insert_value_sorted (e : string * option Q)
    (l : list (string * option Q)) :
  StronglySorted (fun a b => value_le (snd a) (snd b) = true) l ->
  StronglySorted (fun a b => value_le (snd a) (snd b) = true)
                 (insert_value e l).
Proof.
  induction 1 as [|h t Hsorted IH Hall]; simpl.
  - constructor; [constructor | constructor].
  - destruct (value_le (snd e) (snd h)) eqn:E.
    + constructor; [constructor; assumption|].
      constructor; [exact E|].
      eapply Forall_impl; [|exact Hall].
      intros x Hx. simpl in Hx. eapply value_le_trans; eassumption.
    + constructor; [exact IH|].
      assert (Hhe : value_le (snd h) (snd e) = true)
        by (destruct (value_le_total (snd h) (snd e)); congruence).
      eapply Permutation_Forall;
        [apply Permutation_sym, insert_value_perm|].
      constructor; assumption.
Qed.

Lemma sort_values_sorted (l : list (string * option Q)) :
  StronglySorted (fun a b => value_le (snd a) (snd b) = true)
                 (sort_values l).
Proof.
  induction l as [|e l IH]; simpl; [constructor|].
  now apply insert_value_sorted.
Qed.

Lemma sorted_head_before_rest {X : Type} (R : X -> X -> Prop) (n : nat)
    (l : list X) :
  StronglySorted R l ->
  StronglySorted R (firstn n l)
  /\ forall a b, In a (firstn n l) -> In b (skipn n l) -> R a b.
Proof.
  intros H. revert n.
  induction H as [|h t Hsorted IH Hall]; intros n.
  - rewrite firstn_nil, skipn_nil. split; [constructor|]. intros a b [].
  - destruct n as [|n]; simpl.
    + split; [constructor|]. intros a b [].
    + destruct (IH n) as (Hs & Hb). split.
      * constructor; [exact Hs|].
        rewrite Forall_forall in *. intros x Hx. apply Hall.
        rewrite <- (firstn_skipn n t). apply in_or_app. now left.
      * intros a b [<- | Ha] Hbin.
        -- rewrite Forall_forall in Hall. apply Hall.
           rewrite <- (firstn_skipn n t). apply in_or_app. now right.
        -- now apply Hb.
Qed.

Section Rankings.
Context {X : Type}.
Variable key : X -> option string.
Variable value : X -> option Z.

Lemma ranking_perm (df : list X) :
  Permutation (sort_values (groupby_mean key value df))
              (groupby_mean key value df).
Proof. apply sort_values_perm. Qed.

Lemma ranking_entry (df : list X) (t : string) (m : option Q) :
  In (t, m) (sort_values (groupby_mean key value df)) <->
  In (Some t) (map key df)
  /\ m = mean (map value (filter (in_group key t) df)).
Proof.
  split.
  - intros H. apply (Permutation_in _ (ranking_perm df)) in H.
    unfold groupby_mean in H. apply in_map_iff in H as (k & Heq & Hk).
    injection Heq as <- <-. split; [|reflexivity].
    now apply dropna_cells_In, unique_keys_In.
  - intros (Hin & ->).
    apply (Permutation_in _ (Permutation_sym (ranking_perm df))).
    unfold groupby_mean. apply in_map_iff. exists t. split; [reflexivity|].
    now apply unique_keys_In, dropna_cells_In.
Qed.

Lemma ranking_keys_NoDup (df : list X) :
  NoDup (map fst (sort_values (groupby_mean key value df))).
Proof.
  eapply Permutation_NoDup.
  - apply Permutation_sym, Permutation_map, ranking_perm.
  - unfold groupby_mean. rewrite map_map. cbn [fst]. rewrite map_id.
    apply unique_keys_NoDup.
Qed.

(** The first [n] entries of the ranking are in ascending order of the
    mean (NaN last), and every group outside them has a mean that is not
    smaller than theirs. *)
Lemma head_of_ranking (n : nat) (df : list X) :
  StronglySorted (fun a b => value_le (snd a) (snd b) = true)
                 (Frames.head n (sort_values (groupby_mean key value df)))
  /\ length (Frames.head n (sort_values (groupby_mean key value df)))
     = Nat.min n (length (nodup string_dec (dropna_cells (map key df))))
  /\ forall e t,
       In e (Frames.head n (sort_values (groupby_mean key value df))) ->
       In (Some t) (map key df) ->
       ~ In t (map fst
                 (Frames.head n (sort_values (groupby_mean key value df)))) ->
       value_le (snd e) (mean (map value (filter (in_group key t) df)))
       = true.
Proof.
  unfold Frames.head.
  destruct (sorted_head_before_rest _ n _
              (sort_values_sorted (groupby_mean key value df)))
    as (Hsorted & Hbefore).
  split; [exact Hsorted | split].
  - rewrite length_firstn. f_equal.
    rewrite (Permutation_length (ranking_perm df)).
    unfold groupby_mean. rewrite length_map. apply unique_keys_length.
  - intros e t He Ht Hnot.
    assert (Hin : In (t, mean (map value (filter (in_group key t) df)))
                     (sort_values (groupby_mean key value df)))
      by (apply ranking_entry; split; [exact Ht | reflexivity]).
    rewrite <- (firstn_skipn n (sort_values (groupby_mean key value df)))
      in Hin.
    apply in_app_or in Hin as [Hin | Hin].
    + exfalso. apply Hnot.
      apply in_map_iff. eexists. split; [|exact Hin]. reflexivity.
    + apply (Hbefore e _ He Hin).
Qed.
End Rankings.

(** X9: the three teams [analyze_qualifying_data] prints and the five
    teams [analyze_qualifying_performance] of day 3 prints come in
    ascending order of their mean qualifying position, teams without any
    position last; there are as many as there are teams, up to three and
    five; each is listed with the mean of its positions; and no team left
    out has a smaller mean than a team listed. *)
Theorem printed_teams_are_the_best :
  (forall df : list CombinedRow,
      StronglySorted (fun a b => value_le (snd a) (snd b) = true)
                     (Day2.top_teams df)
      /\ length (Day2.top_teams df)
         = Nat.min 3 (nunique (map team df))
      /\ Forall (fun e => snd e
                          = arithmetic_mean (team_positions (fst e) df))
                (Day2.top_teams df)
      /\ forall e t,
           In e (Day2.top_teams df) ->
           In (Some t) (map team df) ->
           ~ In t (map fst (Day2.top_teams df)) ->
           value_le (snd e) (arithmetic_mean (team_positions t df)) = true)
  /\ (forall df : list Day3.WeatherRow,
         StronglySorted (fun a b => value_le (snd a) (snd b) = true)
                        (Day3Analysis.printed_teams df)
         /\ length (Day3Analysis.printed_teams df)
            = Nat.min 5 (nunique (map (fun r => team (Day3.base r)) df))
         /\ Day3Analysis.deep_dive_teams df
            = map fst (Frames.head 3 (Day3Analysis.printed_teams df))
         /\ Forall (fun e =>
                      snd e = arithmetic_mean
                                (team_positions (fst e) (map Day3.base df)))
                   (Day3Analysis.printed_teams df)
         /\ forall e t,
              In e (Day3Analysis.printed_teams df) ->
              In (Some t) (map (fun r => team (Day3.base r)) df) ->
              ~ In t (map fst (Day3Analysis.printed_teams df)) ->
              value_le (snd e)
                (arithmetic_mean (team_positions t (map Day3.base df)))
              = true).
Proof.
  split.
  - intros df.
    destruct (head_of_ranking team quali_position 3 df)
      as (Hsorted & Hlen & Hbest).
    split; [exact Hsorted | split; [exact Hlen | split]].
    + apply Forall_forall. intros [t m] He.
      unfold Day2.top_teams, Frames.head in He.
      assert (Hin : In (t, m)
                       (sort_values (groupby_mean team quali_position df))).
      { rewrite <- (firstn_skipn 3). apply in_or_app. left. exact He. }
      apply ranking_entry in Hin as (_ & ->). cbn [fst snd]. unfold mean.
      rewrite group_positions, mean_values_arithmetic. reflexivity.
    + intros e t He Ht Hnot.
      specialize (Hbest e t He Ht Hnot). unfold mean in Hbest.
      now rewrite group_positions, mean_values_arithmetic in Hbest.
  - intros df.
    destruct (head_of_ranking (fun r => team (Day3.base r))
                (fun r => quali_position (Day3.base r)) 5 df)
      as (Hsorted & Hlen & Hbest).
    split; [exact Hsorted | split; [exact Hlen | split; [|split]]].
    + unfold Day3Analysis.deep_dive_teams, Day3Analysis.printed_teams,
        Frames.head.
      rewrite firstn_firstn. reflexivity.
    + apply Forall_forall. intros [t m] He.
      unfold Day3Analysis.printed_teams, Frames.head in He.
      assert (Hin : In (t, m)
                       (sort_values
                          (groupby_mean (fun r => team (Day3.base r))
                             (fun r => quali_position (Day3.base r)) df))).
      { rewrite <- (firstn_skipn 5). apply in_or_app. left. exact He. }
      apply ranking_entry in Hin as (_ & ->). cbn [fst snd]. unfold mean.
      rewrite group_positions, mean_values_arithmetic,
        <- team_positions_base. reflexivity.
    + intros e t He Ht Hnot.
      specialize (Hbest e t He Ht Hnot). unfold mean in Hbest.
      now rewrite group_positions, mean_values_arithmetic,
        <- team_positions_base in Hbest.
Qed.

(** *** Loading the files and choosing a race in the dashboard *)

(** X10: the dashboard needs both exported files although its page only
    shows the first: when that one is read, a missing second file makes
    [load_f1_data] return no data and [main] stop with an error message,
    any other failure of the second read is raised out of [main], and
    when both are read the page shown does not depend on the second. *)
Theorem dashboard_needs_both_files
    (read_main_csv : Exc (list Day3.WeatherRow))
    (read_day2_csv : Exc (list CombinedRow))
    (main_df : list Day3.WeatherRow) (scope : DashboardMain.Scope) :
  read_main_csv = Returned main_df ->
  match read_day2_csv with
  | Returned _ =>
      DashboardMain.main read_main_csv read_day2_csv scope
      = Returned (DashboardMain.Shown (DashboardMain.select_view main_df scope))
  | Raised (Exception cls) =>
      if String.eqb cls "FileNotFoundError" then
        (exists message,
            DashboardMain.main read_main_csv read_day2_csv scope
            = Returned (DashboardMain.Stopped [message]))
        /\ DashboardMain.load_data read_main_csv read_day2_csv
           = Returned (None, None)
      else
        DashboardMain.main read_main_csv read_day2_csv scope
        = Raised (Exception cls)
        /\ DashboardMain.load_data read_main_csv read_day2_csv
           = Raised (Exception cls)
  | Raised KeyboardInterrupt =>
      DashboardMain.main read_main_csv read_day2_csv scope
      = Raised KeyboardInterrupt
  end.
Proof.
  intros ->.
  unfold DashboardMain.main, DashboardMain.load_f1_data,
    DashboardMain.load_data, DashboardMain.read_both.
  destruct read_day2_csv as [day2 | [cls|]]; cbn [bind fst snd];
    try reflexivity.
  destruct (String.eqb cls "FileNotFoundError"); cbn [bind fst snd].
  - split; [eexists|]; reflexivity.
  - split; reflexivity.
Qed.

Lemma dashboard_needs_both_files_witness :
  Returned Examples.three_teams = Returned Examples.three_teams
  /\ (exists message,
         DashboardMain.main (Returned Examples.three_teams)
           (Raised (Exception "FileNotFoundError"))
           DashboardMain.AllRacesCombined
         = Returned (DashboardMain.Stopped [message]))
  /\ DashboardMain.load_data (Returned Examples.three_teams)
       (Raised (Exception "FileNotFoundError"))
     = Returned (None, None).
Proof.
  split; [reflexivity|].
  exact (dashboard_needs_both_files (Returned Examples.three_teams)
           (Raised (Exception "FileNotFoundError")) Examples.three_teams
           DashboardMain.AllRacesCombined eq_refl).
Defined.

Lemma select_view_individual (main_data : list Day3.WeatherRow) (i : nat) :
  DashboardMain.select_view main_data (DashboardMain.IndividualRaceAnalysis i)
  = match nth_error
            (DashboardMain.race_options
               (fun r => Some (race (Day3.base r))) main_data) i with
    | Some selected_race =>
        {| DashboardMain.filtered_data :=
             filter (fun r => String.eqb (race (Day3.base r)) selected_race)
                    main_data;
           DashboardMain.race_info := selected_race;
           DashboardMain.sidebar_warnings := [] |}
    | None =>
        {| DashboardMain.filtered_data := [];
           DashboardMain.race_info := "None";
           DashboardMain.sidebar_warnings := [] |}
    end.
Proof. reflexivity. Qed.

Lemma race_options_values (main_data : list Day3.WeatherRow) :
  DashboardMain.race_options (fun r => Some (race (Day3.base r))) main_data
  = sort_keys
      (Frames.unique String.eqb (map (fun r => race (Day3.base r)) main_data)).
Proof.
  unfold DashboardMain.race_options. now rewrite dropna_cells_all.
Qed.

Lemma race_options_In (main_data : list Day3.WeatherRow) (x : string) :
  In x (DashboardMain.race_options
          (fun r => Some (race (Day3.base r))) main_data)
  <-> In x (map (fun r => race (Day3.base r)) main_data).
Proof.
  rewrite race_options_values.
  rewrite <- (unique_In (map (fun r => race (Day3.base r)) main_data) x).
  split; apply Permutation_in;
    [apply sort_keys_perm | apply Permutation_sym, sort_keys_perm].
Qed.

Lemma race_options_NoDup (main_data : list Day3.WeatherRow) :
  NoDup (DashboardMain.race_options
           (fun r => Some (race (Day3.base r))) main_data).
Proof.
  rewrite race_options_values.
  eapply Permutation_NoDup;
    [apply Permutation_sym, sort_keys_perm | apply unique_NoDup].
Qed.

Lemma insert_key_sorted (k : string) (l : list string) :
  Sorted (fun a b => String.leb a b = true) l ->
  Sorted (fun a b => String.leb a b = true) (insert_key k l).
Proof.
  induction 1 as [|h t Hsorted IH Hhd]; simpl.
  - constructor; constructor.
  - destruct (String.leb k h) eqn:E.
    + constructor; [now constructor | now constructor].
    + assert (Hhk : String.leb h k = true)
        by (destruct (String.leb_total h k); congruence).
      constructor; [exact IH|].
      destruct t as [|h' t']; simpl.
      * now constructor.
      * destruct (String.leb k h'); constructor; [exact Hhk|].
        now inversion Hhd.
Qed.

Lemma sort_keys_sorted (l : list string) :
  Sorted (fun a b => String.leb a b = true) (sort_keys l).
Proof.
  induction l as [|k l IH]; simpl; [constructor|].
  now apply insert_key_sorted.
Qed.

Lemma map_over_places {A B : Type} (g : option A -> B) (l : list A) :
  map (fun i => g (nth_error l i)) (seq 0 (length l))
  = map (fun x => g (Some x)) l.
Proof.
  induction l as [|x l IH]; [reflexivity|].
  cbn [length seq map nth_error]. f_equal.
  rewrite <- seq_shift, map_map. exact IH.
Qed.

Lemma replace_spaces_no_space (s : string) :
  ~ In " "%char (list_ascii_of_string (DashboardMain.replace_spaces s)).
Proof.
  induction s as [|c s IH]; simpl; [tauto|].
  intros [H | H]; [|contradiction].
  destruct (Ascii.eqb c " ") eqn:E; [discriminate|].
  apply Ascii.eqb_neq in E. congruence.
Qed.

Lemma list_ascii_of_string_app (a b : string) :
  list_ascii_of_string (a ++ b)
  = list_ascii_of_string a ++ list_ascii_of_string b.
Proof.
  induction a as [|c a IH]; simpl; [reflexivity | now rewrite IH].
Qed.

(** X11: in the dashboard the races offered for an individual analysis
    are the distinct races of the data in alphabetical order; choosing one
    shows exactly the rows of that race, never none; these views
    partition the data; and the name of the file offered for download
    holds no space. *)
Theorem race_views_partition (main_data : list Day3.WeatherRow) :
  NoDup (DashboardMain.race_options
           (fun r => Some (race (Day3.base r))) main_data)
  /\ Sorted (fun a b => String.leb a b = true)
            (DashboardMain.race_options
               (fun r => Some (race (Day3.base r))) main_data)
  /\ (forall i selected,
         nth_error (DashboardMain.race_options
                      (fun r => Some (race (Day3.base r))) main_data) i
         = Some selected ->
         DashboardMain.filtered_data
           (DashboardMain.select_view main_data
              (DashboardMain.IndividualRaceAnalysis i))
         = filter (fun r => String.eqb (race (Day3.base r)) selected)
                  main_data
         /\ DashboardMain.filtered_data
              (DashboardMain.select_view main_data
                 (DashboardMain.IndividualRaceAnalysis i)) <> []
         /\ DashboardMain.race_info
              (DashboardMain.select_view main_data
                 (DashboardMain.IndividualRaceAnalysis i)) = selected)
  /\ fold_right Nat.add 0
       (map (fun i =>
               length (DashboardMain.filtered_data
                         (DashboardMain.select_view main_data
                            (DashboardMain.IndividualRaceAnalysis i))))
            (seq 0 (length (DashboardMain.race_options
                              (fun r => Some (race (Day3.base r)))
                              main_data))))
     = length main_data
  /\ (forall scope,
         ~ In " "%char
              (list_ascii_of_string
                 (DashboardMain.download_filename
                    (DashboardMain.select_view main_data scope) scope))).
Proof.
  split; [apply race_options_NoDup|].
  split; [rewrite race_options_values; apply sort_keys_sorted|].
  split; [|split].
  - intros i selected Hnth. rewrite select_view_individual, Hnth.
    cbn [DashboardMain.filtered_data DashboardMain.race_info].
    split; [reflexivity | split; [|reflexivity]].
    apply nth_error_In, race_options_In, in_map_iff in Hnth
      as (r & Hr & Hin).
    intros Hnil.
    assert (Hrow : In r (filter (fun r => String.eqb (race (Day3.base r))
                                                     selected) main_data)).
    { apply filter_In. split; [exact Hin|]. rewrite Hr.
      apply String.eqb_refl. }
    rewrite Hnil in Hrow. contradiction.
  - erewrite map_ext; [|intros i; rewrite select_view_individual;
                        reflexivity].
    rewrite (map_over_places
               (fun o => length
                           (DashboardMain.filtered_data
                              match o with
                              | Some selected_race =>
                                  {| DashboardMain.filtered_data :=
                                       filter (fun r =>
                                                 String.eqb
                                                   (race (Day3.base r))
                                                   selected_race) main_data;
                                     DashboardMain.race_info := selected_race;
                                     DashboardMain.sidebar_warnings := [] |}
                              | None =>
                                  {| DashboardMain.filtered_data := [];
                                     DashboardMain.race_info := "None";
                                     DashboardMain.sidebar_warnings := [] |}
                              end))).
    cbn [DashboardMain.filtered_data].
    apply (groups_partition (fun r => race (Day3.base r)));
      [apply race_options_NoDup|].
    intros r Hr. apply race_options_In.
    exact (in_map (fun r => race (Day3.base r)) main_data r Hr).
  - intros [|i]; cbn [DashboardMain.download_filename].
    + vm_compute. intuition discriminate.
    + rewrite !list_ascii_of_string_app. intros H.
      apply in_app_or in H as [H | H];
        [vm_compute in H; intuition discriminate|].
      apply in_app_or in H as [H | H];
        [now apply replace_spaces_no_space in H|].
      vm_compute in H. intuition discriminate.
Qed.

(** *** The downloads from the results service *)

Lemma bind_no_interrupt {A B : Type} (m : Exc A) (k : A -> Exc B) :
  m <> Raised KeyboardInterrupt ->
  (forall a, k a <> Raised KeyboardInterrupt) ->
  bind m k <> Raised KeyboardInterrupt.
Proof.
  intros Hm Hk. destruct m as [a | e]; cbn [bind]; [apply Hk|].
  intros H. apply Hm. congruence.
Qed.

Lemma getitem_no_interrupt (v : Ergast.json) (k : string) :
  Ergast.getitem v k <> Raised KeyboardInterrupt.
Proof.
  destruct v; cbn [Ergast.getitem]; try discriminate.
  destruct (Ergast.lookup k fields); discriminate.
Qed.

Lemma getindex_no_interrupt (v : Ergast.json) (i : nat) :
  Ergast.getindex v i <> Raised KeyboardInterrupt.
Proof.
  destruct v; cbn [Ergast.getindex]; try discriminate.
  - destruct (String.get i s); discriminate.
  - destruct (nth_error items i); discriminate.
Qed.

Lemma contains_item_no_interrupt (k : string) (v : Ergast.json) :
  Ergast.contains_item k v <> Raised KeyboardInterrupt.
Proof. destruct v; cbn [Ergast.contains_item]; discriminate. Qed.

Ltac no_interrupt :=
  repeat first
    [ apply getitem_no_interrupt
    | apply getindex_no_interrupt
    | apply contains_item_no_interrupt
    | apply bind_no_interrupt; [|intros ?]
    | discriminate ].

Lemma first_race_no_interrupt (data : Ergast.json) :
  Ergast.first_race data <> Raised KeyboardInterrupt.
Proof. unfold Ergast.first_race. no_interrupt. Qed.

Lemma qualifying_line_no_interrupt (v : Ergast.json) (i : nat) :
  Ergast.qualifying_line v i <> Raised KeyboardInterrupt.
Proof. unfold Ergast.qualifying_line. no_interrupt. Qed.

Lemma race_line_no_interrupt (v : Ergast.json) (i : nat) :
  Ergast.race_line v i <> Raised KeyboardInterrupt.
Proof.
  unfold Ergast.race_line. no_interrupt.
  destruct a3; no_interrupt.
Qed.

Lemma basic_analysis_no_interrupt (race_data qualifying_data : Ergast.json) :
  Ergast.basic_analysis race_data qualifying_data
  <> Raised KeyboardInterrupt.
Proof.
  unfold Ergast.basic_analysis.
  repeat first
    [ apply first_race_no_interrupt
    | apply qualifying_line_no_interrupt
    | apply race_line_no_interrupt
    | apply getitem_no_interrupt
    | apply bind_no_interrupt; [|intros ?]
    | discriminate ].
Qed.

Ltac bind_returned H :=
  match type of H with
  | bind ?m _ = Returned _ =>
      let E := fresh "E" in
      destruct m eqn:E; cbn [bind] in H; [|discriminate H]
  end.

Lemma basic_analysis_needs_three
    (race_data qualifying_data quali0 : Ergast.json)
    (items : list Ergast.json) (lines : list (Ergast.json * Ergast.json)) :
  Ergast.basic_analysis race_data qualifying_data = Returned lines ->
  Ergast.first_race qualifying_data = Returned quali0 ->
  Ergast.getitem quali0 "QualifyingResults" = Returned (Ergast.JArray items) ->
  3 <= length items.
Proof.
  intros H Hq Hitems. unfold Ergast.basic_analysis in H.
  bind_returned H. bind_returned H.
  rewrite Hq in H. cbn [bind] in H. rewrite Hitems in H. cbn [bind] in H.
  bind_returned H. bind_returned H.
  bind_returned H. bind_returned H. bind_returned H.
  match goal with
  | Hthird : Ergast.qualifying_line _ 2 = Returned _ |- _ =>
      unfold Ergast.qualifying_line in Hthird; bind_returned Hthird
  end.
  match goal with
  | Hentry : Ergast.getindex _ 2 = Returned _ |- _ =>
      cbn [Ergast.getindex] in Hentry;
      destruct (nth_error items 2) eqn:Hnth; [|discriminate Hentry]
  end.
  assert (Hlt : 2 < length items)
    by (apply nth_error_Some; rewrite Hnth; discriminate).
  lia.
Qed.

Lemma with_status_download (status : Ergast.Response -> Z)
    (get : string -> Exc Ergast.Response) :
  Ergast.download_both (with_status status get) = Ergast.download_both get.
Proof.
  unfold Ergast.download_both, with_status.
  destruct (get _) as [r | e]; cbn [bind Ergast.json_body]; [|reflexivity].
  destruct (Ergast.json_body r) as [d | e]; cbn [bind]; [|reflexivity].
  destruct (get _) as [r' | e]; cbn [bind Ergast.json_body]; reflexivity.
Qed.

(** X12: [get_sample_race_data] lets no Exception out; it writes the two
    files before it looks into the documents, so that a qualifying
    document with fewer than three entries gives False with both files
    written; and it never looks at the status code of a response. *)
Theorem sample_download_outcomes (get : string -> Exc Ergast.Response)
    (open_for_writing : string -> Exc unit) :
  (forall cls,
      fst (Ergast.get_sample_race_data get open_for_writing)
      <> Raised (Exception cls))
  /\ (forall race_data qualifying_data,
         Ergast.download_both get = Returned (race_data, qualifying_data) ->
         open_for_writing Ergast.results_file = Returned tt ->
         open_for_writing Ergast.qualifying_file = Returned tt ->
         snd (Ergast.get_sample_race_data get open_for_writing)
         = [(Ergast.results_file, race_data);
            (Ergast.qualifying_file, qualifying_data)]
         /\ (forall quali0 items,
                Ergast.first_race qualifying_data = Returned quali0 ->
                Ergast.getitem quali0 "QualifyingResults"
                = Returned (Ergast.JArray items) ->
                length items < 3 ->
                fst (Ergast.get_sample_race_data get open_for_writing)
                = Returned false))
  /\ (forall status,
         Ergast.get_sample_race_data (with_status status get)
           open_for_writing
         = Ergast.get_sample_race_data get open_for_writing).
Proof.
  split; [|split].
  - intros cls. unfold Ergast.get_sample_race_data.
    destruct (Ergast.download_both get) as [[race_data qualifying_data] | [c|]];
      cbn [fst Ergast.contained]; try discriminate.
    destruct (open_for_writing Ergast.results_file) as [u | [c|]];
      cbn [fst Ergast.contained]; try discriminate.
    destruct (open_for_writing Ergast.qualifying_file) as [u' | [c|]];
      cbn [fst Ergast.contained]; try discriminate.
    destruct (Ergast.basic_analysis race_data qualifying_data)
      as [lines | [c|]]; cbn [Ergast.contained]; discriminate.
  - intros race_data qualifying_data Hboth Hfirst Hsecond.
    unfold Ergast.get_sample_race_data.
    rewrite Hboth, Hfirst, Hsecond. cbn [fst snd].
    split; [reflexivity|].
    intros quali0 items Hq Hitems Hshort.
    destruct (Ergast.basic_analysis race_data qualifying_data)
      as [lines | [c|]] eqn:E.
    + pose proof (basic_analysis_needs_three _ _ _ _ _ E Hq Hitems). lia.
    + reflexivity.
    + now apply basic_analysis_no_interrupt in E.
  - intros status. unfold Ergast.get_sample_race_data.
    now rewrite with_status_download.
Qed.

Lemma sample_download_outcomes_witness :
  Ergast.get_sample_race_data Examples.service Examples.writable
  = (Returned false,
     [(Ergast.results_file, Examples.race_document);
      (Ergast.qualifying_file, Examples.short_qualifying)]).
Proof.
  destruct (sample_download_outcomes Examples.service Examples.writable)
    as (_ & H & _).
  destruct (H Examples.race_document Examples.short_qualifying
              eq_refl eq_refl eq_refl) as (Hfiles & Hfalse).
  specialize (Hfalse _ [Examples.qualifier "Verstappen" "1:29.179";
                        Examples.qualifier "Leclerc" "1:29.407"]
                eq_refl eq_refl (Nat.lt_succ_diag_r 2)).
  rewrite (surjective_pairing
             (Ergast.get_sample_race_data Examples.service
                Examples.writable)).
  now rewrite Hfiles, Hfalse.
Defined.

Lemma getitem_raises (v : Ergast.json) (k : string) (e : raised) :
  Ergast.getitem v k = Raised e ->
  e = Exception "KeyError" \/ e = Exception "TypeError".
Proof.
  destruct v; cbn [Ergast.getitem]; intros H;
    try (right; congruence).
  destruct (Ergast.lookup k fields); [discriminate|]. left. congruence.
Qed.

(** X13: [test_ergast_connection] answers False when the request raises
    an exception of [requests.exceptions] or the status code is an error
    code, but an answer that is not the expected document is not handled:
    the KeyError or TypeError of the first lookup that fails is raised
    out of the function. *)
Theorem connection_test_outcomes (get : string -> Exc Ergast.Response) :
  (forall cls,
      Ergast.is_request_exception cls = true ->
      get (Ergast.base_url ++ "/current.json")%string = Raised (Exception cls) ->
      Ergast.test_ergast_connection get = Returned false)
  /\ (forall response,
         get (Ergast.base_url ++ "/current.json")%string = Returned response ->
         (400 <= Ergast.status_code response < 600)%Z ->
         Ergast.test_ergast_connection get = Returned false)
  /\ (forall response data,
         get (Ergast.base_url ++ "/current.json")%string = Returned response ->
         ~ (400 <= Ergast.status_code response < 600)%Z ->
         Ergast.json_body response = Returned data ->
         (forall e,
             Ergast.getitem data "MRData" = Raised e ->
             Ergast.test_ergast_connection get = Raised e)
         /\ (forall mrdata e,
                Ergast.getitem data "MRData" = Returned mrdata ->
                Ergast.getitem mrdata "RaceTable" = Raised e ->
                Ergast.test_ergast_connection get = Raised e)
         /\ (forall mrdata season_info e,
                Ergast.getitem data "MRData" = Returned mrdata ->
                Ergast.getitem mrdata "RaceTable" = Returned season_info ->
                Ergast.getitem season_info "season" = Raised e ->
                Ergast.test_ergast_connection get = Raised e)).
Proof.
  unfold Ergast.test_ergast_connection.
  split; [|split].
  - intros cls Hcls ->. cbn [bind Ergast.try_except_RequestException].
    now rewrite Hcls.
  - intros response -> Hstatus. cbn [bind].
    unfold Ergast.raise_for_status.
    replace ((400 <=? Ergast.status_code response)%Z
             && (Ergast.status_code response <? 600)%Z) with true
      by (symmetry; apply andb_true_iff; split;
          [apply Z.leb_le | apply Z.ltb_lt]; lia).
    reflexivity.
  - intros response data -> Hstatus Hbody. cbn [bind].
    unfold Ergast.raise_for_status.
    replace ((400 <=? Ergast.status_code response)%Z
             && (Ergast.status_code response <? 600)%Z) with false
      by (symmetry; apply andb_false_iff;
          destruct (Z.leb_spec 400 (Ergast.status_code response));
          [right; apply Z.ltb_ge; lia | now left]).
    cbn [bind]. rewrite Hbody. cbn [bind].
    split; [|split].
    + intros e He. rewrite He. cbn [bind].
      apply getitem_raises in He as [-> | ->]; reflexivity.
    + intros mrdata e Hm He. rewrite Hm. cbn [bind]. rewrite He.
      cbn [bind].
      apply getitem_raises in He as [-> | ->]; reflexivity.
    + intros mrdata season_info e Hm Hs He. rewrite Hm. cbn [bind].
      rewrite Hs. cbn [bind]. rewrite He. cbn [bind].
      apply getitem_raises in He as [-> | ->]; reflexivity.
Qed.

Lemma connection_test_outcomes_witness :
  Ergast.test_ergast_connection Examples.other_service
  = Raised (Exception "KeyError").
Proof.
  destruct (connection_test_outcomes Examples.other_service) as (_ & _ & H).
  refine (proj1 (H _ _ eq_refl _ eq_refl) _ eq_refl).
  cbn. lia.
Defined.

(** *** The teams of the saved charts *)

Lemma cell_eqb_eq (a b : option string) :
  Frames.cell_eqb a b = true <-> a = b.
Proof.
  destruct a as [x|], b as [y|]; simpl; try (split; congruence).
  rewrite String.eqb_eq. split; congruence.
Qed.

Lemma unique_cells_In (l : list (option string)) (x : option string) :
  In x (Frames.unique Frames.cell_eqb l) <-> In x l.
Proof.
  induction l as [|a l IH]; simpl; [reflexivity|].
  rewrite filter_In, IH. split.
  - intros [-> | (H & _)]; auto.
  - intros [-> | H]; [now left|].
    destruct (Frames.cell_eqb x a) eqn:E.
    + apply cell_eqb_eq in E. now left.
    + right. now split.
Qed.

Lemma unique_cells_NoDup (l : list (option string)) :
  NoDup (Frames.unique Frames.cell_eqb l).
Proof.
  induction l as [|a l IH]; simpl; constructor.
  - intros H. apply filter_In in H as (_ & H).
    assert (E : Frames.cell_eqb a a = true) by now apply cell_eqb_eq.
    now rewrite E in H.
  - now apply NoDup_filter.
Qed.

Section TeamCharts.
Variable team_of : Day3.WeatherRow -> option string.
Variable pos : Day3.WeatherRow -> option Z.
Variable df : list Day3.WeatherRow.

Lemma box_group_In (ts : list (option string)) (t : string)
    (values : Series Z) :
  In (t, values)
     (flat_map
        (fun c =>
           match c with
           | Some name =>
               if 2 <? length (filter (fun r => Frames.cell_eqb (team_of r) c)
                                      df)
               then [(name,
                      map pos (filter (fun r => Frames.cell_eqb (team_of r) c)
                                      df))]
               else []
           | None => []
           end) ts)
  <-> In (Some t) ts
      /\ 3 <= length (filter (fun r => Frames.cell_eqb (team_of r) (Some t))
                             df)
      /\ values
         = map pos (filter (fun r => Frames.cell_eqb (team_of r) (Some t)) df).
Proof.
  rewrite in_flat_map. split.
  - intros ([name|] & Hin & H); [|contradiction].
    destruct (2 <? _) eqn:E; [|contradiction].
    destruct H as [H | []]. injection H as <- <-.
    apply Nat.ltb_lt in E. repeat split; [exact Hin | lia].
  - intros (Hin & Hlen & ->). exists (Some t). split; [exact Hin|].
    replace (2 <? _) with true by (symmetry; apply Nat.ltb_lt; lia).
    now left.
Qed.

Lemma box_groups_In (t : string) (values : Series Z) :
  In (t, values) (Day4.box_groups team_of pos df)
  <-> 3 <= length (filter (fun r => Frames.cell_eqb (team_of r) (Some t)) df)
      /\ values
         = map pos (filter (fun r => Frames.cell_eqb (team_of r) (Some t)) df).
Proof.
  unfold Day4.box_groups. rewrite box_group_In, unique_cells_In.
  split; [tauto|]. intros (Hlen & Hvalues). split; [|tauto].
  destruct (filter _ df) as [|r rows] eqn:E; [simpl in Hlen; lia|].
  assert (Hr : In r (filter (fun r => Frames.cell_eqb (team_of r) (Some t))
                            df)) by (rewrite E; now left).
  apply filter_In in Hr as (Hr & Heq). apply cell_eqb_eq in Heq.
  rewrite <- Heq. now apply in_map.
Qed.

Lemma box_groups_names_In (t : string) :
  In t (map fst (Day4.box_groups team_of pos df))
  <-> 3 <= length (filter (fun r => Frames.cell_eqb (team_of r) (Some t)) df).
Proof.
  rewrite in_map_iff. split.
  - intros ([t' values] & Ht & Hin). simpl in Ht. subst t'.
    now apply box_groups_In in Hin.
  - intros Hlen. eexists (t, _). split; [reflexivity|].
    apply box_groups_In. split; [exact Hlen | reflexivity].
Qed.

Lemma box_groups_names_NoDup :
  NoDup (map fst (Day4.box_groups team_of pos df)).
Proof.
  unfold Day4.box_groups.
  pose proof (unique_cells_NoDup (map team_of df)) as Hnd.
  induction (Frames.unique Frames.cell_eqb (map team_of df)) as [|c ts IH];
    [constructor|].
  inversion Hnd as [|? ? Hc Hts]; subst.
  cbn [flat_map]. rewrite map_app.
  destruct c as [name|]; [|now apply IH].
  destruct (2 <? _); [|now apply IH].
  cbn [map app fst]. constructor; [|now apply IH].
  intros Hin. apply in_map_iff in Hin as ([t values] & Ht & Hin).
  simpl in Ht. subst t. apply box_group_In in Hin. tauto.
Qed.

Lemma insert_stat_perm (e : string * Day4.TeamStat)
    (l : list (string * Day4.TeamStat)) :
  Permutation (Day4.insert_stat e l) (e :: l).
Proof.
  induction l as [|h t IH]; simpl.
  - apply Permutation_refl.
  - destruct (value_le _ _); [apply Permutation_refl|].
    eapply perm_trans; [apply perm_skip, IH | apply perm_swap].
Qed.

Lemma sort_by_mean_perm (l : list (string * Day4.TeamStat)) :
  Permutation (Day4.sort_by_mean l) l.
Proof.
  induction l as [|e l IH]; simpl.
  - apply perm_nil.
  - eapply perm_trans; [apply insert_stat_perm | apply perm_skip, IH].
Qed.

Lemma in_group_rows (t : string) :
  filter (in_group team_of t) df
  = filter (fun r => Frames.cell_eqb (team_of r) (Some t)) df.
Proof.
  apply filter_ext. intros r. unfold in_group.
  now destruct (team_of r).
Qed.

Lemma team_stats_names_In (t : string) :
  In t (map fst (Day4.team_stats team_of pos df))
  <-> 3 <= Frames.count
             (map pos (filter (fun r => Frames.cell_eqb (team_of r) (Some t))
                              df)).
Proof.
  unfold Day4.team_stats. rewrite in_map_iff. split.
  - intros ([t' st] & Ht & Hin). simpl in Ht. subst t'.
    apply filter_In in Hin as (Hin & Hcount).
    apply (Permutation_in _ (sort_by_mean_perm _)) in Hin.
    apply in_map_iff in Hin as (k & Hk & _).
    injection Hk as -> <-. cbn [snd Day4.stat_count] in Hcount.
    apply Nat.leb_le in Hcount. now rewrite in_group_rows in Hcount.
  - intros Hcount. eexists (t, _). split; [reflexivity|].
    apply filter_In. split.
    + apply (Permutation_in _ (Permutation_sym (sort_by_mean_perm _))).
      apply in_map_iff. exists t. split; [reflexivity|].
      apply unique_keys_In. rewrite dropna_cells_map. apply in_flat_map.
      unfold Frames.count in Hcount.
      pose proof (dropna_cells_length
                    (map pos (filter (fun r => Frames.cell_eqb (team_of r)
                                                               (Some t)) df)))
        as Hle.
      rewrite length_map in Hle.
      destruct (filter _ df) as [|r rows] eqn:E;
        [unfold dropna_cells in Hcount; simpl in Hcount; lia|].
      assert (Hr : In r (filter (fun r => Frames.cell_eqb (team_of r)
                                                          (Some t)) df))
        by (rewrite E; now left).
      apply filter_In in Hr as (Hr & Heq). apply cell_eqb_eq in Heq.
      exists r. split; [exact Hr|]. rewrite Heq. now left.
    + cbn [snd Day4.stat_count]. apply Nat.leb_le.
      now rewrite in_group_rows.
Qed.
End TeamCharts.

Lemma null_among_short {X A : Type} (f : X -> option A) (l : list X) :
  length (dropna_cells (map f l)) < length l ->
  exists x, In x l /\ f x = None.
Proof.
  unfold dropna_cells. induction l as [|x l IH]; simpl; [lia|].
  destruct (f x) eqn:E; simpl; intros H.
  - destruct IH as (y & Hy & Hnone); [lia|]. exists y. auto.
  - exists x. auto.
Qed.

Lemma combine_fst_snd {A B : Type} (l : list (A * B)) :
  combine (map fst l) (map snd l) = l.
Proof.
  induction l as [|[a b] l IH]; simpl; [reflexivity | now rewrite IH].
Qed.

Lemma create_team_performance_chart_runs (savefig : string -> Exc unit)
    (df : list Day3.WeatherRow) :
  Day4.create_team_performance_chart savefig df
  = (_ <- savefig "visualizations/team_performance_analysis.png" ;;
     Returned
       (Some {| Day4.box_names :=
                  map fst (Day4.box_groups
                             (fun r => team (Day3.base r))
                             (fun r => quali_position (Day3.base r)) df);
                Day4.box_values :=
                  map snd (Day4.box_groups
                             (fun r => team (Day3.base r))
                             (fun r => quali_position (Day3.base r)) df);
                Day4.bars :=
                  sort_values
                    (groupby_mean (fun r => team (Day3.base r))
                                  (fun r => quali_position (Day3.base r))
                                  df) |})).
Proof. reflexivity. Qed.

Lemma create_summary_visualization_runs (savefig : string -> Exc unit)
    (df : list Day3.WeatherRow) :
  Day4.create_summary_visualization savefig df
  = (_ <- savefig "visualizations/performance_summary.png" ;;
     Returned
       (Some (Day4.team_stats (fun r => team (Day3.base r))
                              (fun r => quali_position (Day3.base r)) df))).
Proof. reflexivity. Qed.

(** X14: the teams of the two saved team charts.  The box plot of
    [create_team_performance_chart] has one box for each team with at
    least three rows, the summary of [create_summary_visualization] one
    point for each team with at least three qualifying positions; so
    every team of the summary has a box, and a team with a box is missing
    from the summary only when one of its rows has no qualifying
    position. *)
Theorem summary_teams_have_a_box (savefig : string -> Exc unit)
    (df : list Day3.WeatherRow) (chart : Day4.TeamChart)
    (summary : list (string * Day4.TeamStat)) :
  Day4.create_team_performance_chart savefig df = Returned (Some chart) ->
  Day4.create_summary_visualization savefig df = Returned (Some summary) ->
  NoDup (Day4.box_names chart)
  /\ (forall t, In t (Day4.box_names chart) <-> 3 <= length (team_rows t df))
  /\ (forall t values,
         In (t, values)
            (combine (Day4.box_names chart) (Day4.box_values chart)) ->
         values = map (fun r => quali_position (Day3.base r))
                      (team_rows t df))
  /\ (forall t,
         In t (map fst summary)
         <-> 3 <= Frames.count (map (fun r => quali_position (Day3.base r))
                                    (team_rows t df)))
  /\ incl (map fst summary) (Day4.box_names chart)
  /\ (forall t,
         In t (Day4.box_names chart) -> ~ In t (map fst summary) ->
         exists r, In r (team_rows t df)
                   /\ quali_position (Day3.base r) = None).
Proof.
  rewrite create_team_performance_chart_runs,
    create_summary_visualization_runs.
  destruct (savefig "visualizations/team_performance_analysis.png");
    [|discriminate].
  destruct (savefig "visualizations/performance_summary.png");
    [|discriminate].
  cbn [bind]. intros Hchart Hsummary.
  injection Hchart as <-. injection Hsummary as <-.
  cbn [Day4.box_names Day4.box_values]. unfold team_rows.
  assert (Hbox := box_groups_names_In (fun r => team (Day3.base r))
                    (fun r => quali_position (Day3.base r)) df).
  assert (Hsum := team_stats_names_In (fun r => team (Day3.base r))
                    (fun r => quali_position (Day3.base r)) df).
  split; [apply box_groups_names_NoDup|].
  split; [exact Hbox|].
  split.
  { intros t values Hin.
    assert (Hpair : In (t, values)
                       (Day4.box_groups (fun r => team (Day3.base r))
                          (fun r => quali_position (Day3.base r)) df)).
    { now rewrite combine_fst_snd in Hin. }
    now apply box_groups_In in Hpair. }
  split; [exact Hsum|].
  split.
  - intros t Ht. apply Hbox. apply Hsum in Ht. unfold Frames.count in Ht.
    pose proof (dropna_cells_length
                  (map (fun r => quali_position (Day3.base r))
                       (filter (fun r => Frames.cell_eqb (team (Day3.base r))
                                                         (Some t)) df)))
      as Hle.
    rewrite length_map in Hle. lia.
  - intros t Ht Hnot. apply Hbox in Ht.
    apply null_among_short. unfold Frames.count in Hsum.
    rewrite Hsum in Hnot. lia.
Qed.

Lemma summary_teams_have_a_box_witness :
  exists r, In r (team_rows "Alpha" Examples.incomplete_team)
            /\ quali_position (Day3.base r) = None.
Proof.
  refine (proj2 (proj2 (proj2 (proj2 (proj2
            (summary_teams_have_a_box Examples.writable
               Examples.incomplete_team _ _ eq_refl eq_refl)))))
            "Alpha" _ _).
  - apply (box_groups_names_In (fun r => team (Day3.base r))
             (fun r => quali_position (Day3.base r))
             Examples.incomplete_team "Alpha").
    vm_compute. apply le_n.
  - intros H.
    apply (team_stats_names_In (fun r => team (Day3.base r))
             (fun r => quali_position (Day3.base r))
             Examples.incomplete_team "Alpha") in H.
    vm_compute in H. lia.
Defined.

(** *** Times of an hour and more *)

(** X15: the conversion of a qualifying time reads the minutes and the
    seconds of a day-prefixed text only: two texts that differ in the
    days or in the hours are converted to the same number, so that a
    time of one hour, one minute and thirty seconds counts as ninety
    seconds. *)
Theorem time_to_seconds_drops_hours (F : Dashboard.FloatOps)
    (v v' : Dashboard.Value F) (h h' m s : string) :
  day_prefixed_fields (Dashboard.py_str v) = Some (h, m, s) ->
  day_prefixed_fields (Dashboard.py_str v') = Some (h', m, s) ->
  Dashboard.time_to_seconds v = Dashboard.time_to_seconds v'.
Proof.
  intros H H'. rewrite !time_to_seconds_expected.
  unfold expected_seconds. now rewrite H, H'.
Qed.

Lemma time_to_seconds_drops_hours_witness :
  Dashboard.time_to_seconds (F := Dashboard.exact_floats)
    (Dashboard.VStr "0 days 01:01:30.500000")
  = Dashboard.time_to_seconds (F := Dashboard.exact_floats)
      (Dashboard.VStr "3 days 00:01:30.500000")
  /\ Dashboard.time_to_seconds (F := Dashboard.exact_floats)
       (Dashboard.VStr "0 days 01:01:30.500000")
     = Returned (Some (181 # 2)%Q).
Proof.
  split.
  - exact (time_to_seconds_drops_hours Dashboard.exact_floats
             (Dashboard.VStr "0 days 01:01:30.500000")
             (Dashboard.VStr "3 days 00:01:30.500000")
             "01" "00" "01" "30.500000" eq_refl eq_refl).
  - vm_compute. reflexivity.
Defined.

(** *** The pipeline of the second day *)

(** X16: the pipeline of [day2_analysis.py] hands to [save_results] the
    dataset that the main block of [data_collection.py] builds for the
    race list of Bahrain alone, once its chart is saved; it saves
    nothing when that dataset is missing, and an exception of the chart's
    [savefig] is raised out of it. *)
Theorem day2_pipeline_is_one_round
    (get_session : Z -> string -> string -> Exc Session)
    (savefig : string -> Exc unit) :
  Day2.main get_session savefig
  = (dataset <- main_on get_session ["Bahrain"] ;;
     match dataset with
     | Some df =>
         _ <- savefig "../visualizations/day2_team_performance.png" ;;
         Returned (Some df)
     | None => Returned None
     end).
Proof.
  unfold Day2.main, main_on, Day2.collect_multiple_races.
  destruct (test_fastf1_connection get_session) as [[|] | e];
    cbn [bind negb]; try reflexivity.
  cbn [collect_loop].
  destruct (collect_race_data get_session 2024%Z "Bahrain")
    as [[rd|] | e]; cbn [bind]; try reflexivity.
  destruct (create_combined_dataframe (Some rd)) as [df|];
    cbn [bind app concat]; [|reflexivity].
  now rewrite app_nil_r.
Qed.

(** *** The conditions of a team *)

Lemma listed_conditions_have_rows {X : Type} (key : X -> string)
    (l : list X) (c : string) :
  In c (Frames.unique String.eqb (map key l)) ->
  0 < length (filter (fun x => String.eqb (key x) c) l).
Proof.
  intros H. apply unique_In, in_map_iff in H as (x & Hx & Hin).
  assert (Hrow : In x (filter (fun x => String.eqb (key x) c) l)).
  { apply filter_In. split; [exact Hin|]. rewrite Hx.
    apply String.eqb_refl. }
  destruct (filter _ l); [contradiction | simpl; lia].
Qed.

(** X17: in [team_performance_deep_dive] the test for an empty group
    never fails: for a team, every weather condition of its rows is
    printed, once and in the order of first appearance, with at least
    one row, and the row counts printed add up to the rows of the
    team. *)
Theorem deep_dive_covers_team_rows (t : string)
    (df : list Day3.WeatherRow) :
  map (fun e => fst (fst e)) (Day3Analysis.team_by_condition t df)
  = Frames.unique String.eqb (map Day3.weather_condition (team_rows t df))
  /\ NoDup (map (fun e => fst (fst e)) (Day3Analysis.team_by_condition t df))
  /\ Forall (fun e =>
               1 <= snd e
               /\ snd e = length (Day3Analysis.condition_rows (fst (fst e))
                                    (team_rows t df))
               /\ snd (fst e)
                  = mean (map (fun r => quali_position (Day3.base r))
                              (Day3Analysis.condition_rows (fst (fst e))
                                 (team_rows t df))))
            (Day3Analysis.team_by_condition t df)
  /\ fold_right Nat.add 0 (map snd (Day3Analysis.team_by_condition t df))
     = length (team_rows t df).
Proof.
  unfold Day3Analysis.team_by_condition. fold (team_rows t df).
  set (rows := team_rows t df).
  assert (Hall : forall l,
             incl l (Frames.unique String.eqb
                       (map Day3.weather_condition rows)) ->
             flat_map
               (fun condition =>
                  if 0 <? length (Day3Analysis.condition_rows condition rows)
                  then [(condition,
                         mean (map (fun r => quali_position (Day3.base r))
                                   (Day3Analysis.condition_rows condition
                                      rows)),
                         length (Day3Analysis.condition_rows condition rows))]
                  else []) l
             = map (fun condition =>
                      (condition,
                       mean (map (fun r => quali_position (Day3.base r))
                                 (Day3Analysis.condition_rows condition rows)),
                       length (Day3Analysis.condition_rows condition rows)))
                   l).
  { induction l as [|c l IH]; intros Hincl; [reflexivity|].
    cbn [flat_map map].
    rewrite IH by (intros x Hx; apply Hincl; now right).
    assert (Hc : 0 < length (Day3Analysis.condition_rows c rows))
      by (apply (listed_conditions_have_rows Day3.weather_condition);
          apply Hincl; now left).
    apply Nat.ltb_lt in Hc. now rewrite Hc. }
  rewrite (Hall _ (incl_refl _)). clear Hall.
  rewrite !map_map. cbn [fst snd]. rewrite map_id.
  split; [reflexivity|].
  split; [apply unique_NoDup|].
  split.
  - apply Forall_forall. intros e He.
    apply in_map_iff in He as (c & <- & Hc). cbn [fst snd].
    split; [|split; reflexivity].
    now apply (listed_conditions_have_rows Day3.weather_condition).
  - apply (groups_partition Day3.weather_condition);
      [apply unique_NoDup|].
    intros r Hr. apply unique_In.
    exact (in_map Day3.weather_condition rows r Hr).
Qed.
